(** * justtouch-py: the discovery-and-transfer engine

    A shallow embedding of [p2p_manager.py] (sessions, UDP discovery, the
    direct TCP transport and its JSON framing) and of the two checksum
    verifiers of [file_manager.py] and [utils.py], followed by the
    properties of the specification that concern them.

    Conventions.
    - A Python [int] is a [Z]; [bytes] is a [list byte]; a [str] is a Rocq
      [string] holding the UTF-8 encoding of the text, so that [str.encode()]
      is the identity on the underlying bytes and [bytes.decode()] is a
      validity check. A file path is a [str] that comes from the operating
      system: a name whose bytes are not UTF-8 reaches Python with surrogate
      escapes, and the model keeps its bytes as they are; such a path names
      a file like any other but has no encoding ([str_encode] raises).
    - A Python [dict] is an insertion-ordered association list with unique
      keys ([Dict]).
    - Code that can raise runs in a state-and-exception monad over the trace
      of observable actions (socket calls, log lines, progress callbacks,
      file writes); what the outside world answers (accept, recv, ...) is
      given to each operation as an explicit environment.

    The last part of the definitions embeds further functions of
    [utils.py] (file names, share URLs, NFC payloads, session ids, chunked
    reading) and of [file_manager.py] (safe and unique file names); the
    last part of the properties is about them and about the transfer and
    discovery protocols as a whole. *)

From Stdlib Require Import ZArith List Bool Lia.
From Stdlib.Strings Require Import String Ascii Byte.
From Stdlib Require Import DecimalString.
Set Warnings "-register-all,-abstract-large-number".
Import ListNotations.
Local Open Scope string_scope.
Local Open Scope list_scope.
Local Open Scope Z_scope.

(** ** Bytes *)

Definition bytes := list byte.

Definition b2z (b : byte) : Z := Z.of_N (Byte.to_N b).

Definition z2b (z : Z) : byte :=
  match Byte.of_N (Z.to_N (z mod 256)) with
  | Some b => b
  | None => x00
  end.

Definition blen (bs : bytes) : Z := Z.of_nat (List.length bs).

(** [s.encode()] for a text that has an encoding (the output of
    [json.dumps], which is ASCII, or a given text): its bytes. *)
Definition encode (s : string) : bytes := list_byte_of_string s.

(** ** hashlib: MD5 (RFC 1321) and SHA-256 (FIPS 180-4) hex digests *)

Module Hashlib.

Definition w32 (x : Z) : Z := x mod 4294967296.
Definition rotl32 (x n : Z) : Z :=
  w32 (Z.lor (Z.shiftl x n) (Z.shiftr x (32 - n))).
Definition rotr32 (x n : Z) : Z :=
  w32 (Z.lor (Z.shiftr x n) (Z.shiftl x (32 - n))).
Definition not32 (x : Z) : Z := Z.lxor x 4294967295.

Definition hex_digit (n : Z) : ascii :=
  nth (Z.to_nat n)
      ["0";"1";"2";"3";"4";"5";"6";"7";"8";"9";"a";"b";"c";"d";"e";"f"]%char
      "0"%char.

Definition hex_byte (v : Z) (k : string) : string :=
  String (hex_digit (v / 16 mod 16)) (String (hex_digit (v mod 16)) k).

(** [n] bytes of [v], least significant first / most significant first. *)
Fixpoint le_bytes (n : nat) (v : Z) : list Z :=
  match n with
  | O => []
  | S n' => (v mod 256) :: le_bytes n' (v / 256)
  end.
Definition be_bytes (n : nat) (v : Z) : list Z := rev (le_bytes n v).

Definition le_word (bs : list Z) : Z :=
  fold_right (fun b acc => b + 256 * acc) 0 bs.
Definition be_word (bs : list Z) : Z :=
  fold_left (fun acc b => 256 * acc + b) bs 0.

Fixpoint words (dec : list Z -> Z) (n : nat) (bs : list Z) : list Z :=
  match n with
  | O => []
  | S n' => dec (firstn 4 bs) :: words dec n' (skipn 4 bs)
  end.

(** Message padding: 0x80, zeros up to 56 mod 64, then the bit length on
    eight bytes ([len_bytes] fixes the byte order). *)
Definition pad (len_bytes : Z -> list Z) (m : list Z) : list Z :=
  let l := Z.of_nat (List.length m) in
  let z := (55 - l) mod 64 in
  m ++ 128 :: repeat 0 (Z.to_nat z) ++ len_bytes ((8 * l) mod 2 ^ 64).

Fixpoint blocks {S : Type} (step : S -> list Z -> S) (n : nat)
         (bs : list Z) (st : S) : S :=
  match n with
  | O => st
  | S n' => blocks step n' (skipn 64 bs) (step st (firstn 64 bs))
  end.

Definition run {S : Type} (step : S -> list Z -> S)
           (len_bytes : Z -> list Z) (init : S) (m : bytes) : S :=
  let p := pad len_bytes (map b2z m) in
  blocks step (Nat.div (List.length p) 64) p init.

Module MD5.
Definition K : list Z :=
  [ 3614090360; 3905402710; 606105819; 3250441966;
    4118548399; 1200080426; 2821735955; 4249261313;
    1770035416; 2336552879; 4294925233; 2304563134;
    1804603682; 4254626195; 2792965006; 1236535329;
    4129170786; 3225465664; 643717713; 3921069994;
    3593408605; 38016083; 3634488961; 3889429448;
    568446438; 3275163606; 4107603335; 1163531501;
    2850285829; 4243563512; 1735328473; 2368359562;
    4294588738; 2272392833; 1839030562; 4259657740;
    2763975236; 1272893353; 4139469664; 3200236656;
    681279174; 3936430074; 3572445317; 76029189;
    3654602809; 3873151461; 530742520; 3299628645;
    4096336452; 1126891415; 2878612391; 4237533241;
    1700485571; 2399980690; 4293915773; 2240044497;
    1873313359; 4264355552; 2734768916; 1309151649;
    4149444226; 3174756917; 718787259; 3951481745 ].

Definition R : list Z :=
  [ 7; 12; 17; 22; 7; 12; 17; 22; 7; 12; 17; 22; 7; 12; 17; 22;
    5; 9; 14; 20; 5; 9; 14; 20; 5; 9; 14; 20; 5; 9; 14; 20;
    4; 11; 16; 23; 4; 11; 16; 23; 4; 11; 16; 23; 4; 11; 16; 23;
    6; 10; 15; 21; 6; 10; 15; 21; 6; 10; 15; 21; 6; 10; 15; 21 ].

Definition state := (Z * Z * Z * Z)%type.

Definition round (M : list Z) (st : state) (i : Z) : state :=
  let '(a, b, c, d) := st in
  let '(f, g) :=
    if i <? 16 then (Z.lor (Z.land b c) (Z.land (not32 b) d), i)
    else if i <? 32 then
      (Z.lor (Z.land d b) (Z.land (not32 d) c), (5 * i + 1) mod 16)
    else if i <? 48 then (Z.lxor b (Z.lxor c d), (3 * i + 5) mod 16)
    else (Z.lxor c (Z.lor b (not32 d)), (7 * i) mod 16) in
  let f' := w32 (f + a + nth (Z.to_nat i) K 0 + nth (Z.to_nat g) M 0) in
  (d, w32 (b + rotl32 f' (nth (Z.to_nat i) R 0)), b, c).

Definition step (st : state) (blk : list Z) : state :=
  let M := words le_word 16 blk in
  let '(a, b, c, d) := st in
  let '(a', b', c', d') :=
    fold_left (round M) (map Z.of_nat (seq 0 64)) st in
  (w32 (a + a'), w32 (b + b'), w32 (c + c'), w32 (d + d')).

Definition init : state := (1732584193, 4023233417, 2562383102, 271733878).

Definition hexdigest (m : bytes) : string :=
  let '(a, b, c, d) := run step (le_bytes 8) init m in
  fold_right hex_byte EmptyString
    (le_bytes 4 a ++ le_bytes 4 b ++ le_bytes 4 c ++ le_bytes 4 d).
End MD5.

Module SHA256.
Definition K : list Z :=
  [ 1116352408; 1899447441; 3049323471; 3921009573;
    961987163; 1508970993; 2453635748; 2870763221;
    3624381080; 310598401; 607225278; 1426881987;
    1925078388; 2162078206; 2614888103; 3248222580;
    3835390401; 4022224774; 264347078; 604807628;
    770255983; 1249150122; 1555081692; 1996064986;
    2554220882; 2821834349; 2952996808; 3210313671;
    3336571891; 3584528711; 113926993; 338241895;
    666307205; 773529912; 1294757372; 1396182291;
    1695183700; 1986661051; 2177026350; 2456956037;
    2730485921; 2820302411; 3259730800; 3345764771;
    3516065817; 3600352804; 4094571909; 275423344;
    430227734; 506948616; 659060556; 883997877;
    958139571; 1322822218; 1537002063; 1747873779;
    1955562222; 2024104815; 2227730452; 2361852424;
    2428436474; 2756734187; 3204031479; 3329325298 ].

Definition init : list Z :=
  [ 1779033703; 3144134277; 1013904242; 2773480762;
    1359893119; 2600822924; 528734635; 1541459225 ].

Definition xor3 (a b c : Z) : Z := Z.lxor a (Z.lxor b c).

(** The message schedule, extended one word at a time. *)
Definition extend (w : list Z) (i : nat) : list Z :=
  let at_ k := nth (i - k) w 0 in
  let s0 := xor3 (rotr32 (at_ 15%nat) 7) (rotr32 (at_ 15%nat) 18)
                 (Z.shiftr (at_ 15%nat) 3) in
  let s1 := xor3 (rotr32 (at_ 2%nat) 17) (rotr32 (at_ 2%nat) 19)
                 (Z.shiftr (at_ 2%nat) 10) in
  w ++ [w32 (at_ 16%nat + s0 + at_ 7%nat + s1)].

Definition round (w : list Z) (st : list Z) (i : nat) : list Z :=
  match st with
  | [a; b; c; d; e; f; g; h] =>
      let S1 := xor3 (rotr32 e 6) (rotr32 e 11) (rotr32 e 25) in
      let ch := Z.lxor (Z.land e f) (Z.land (not32 e) g) in
      let t1 := w32 (h + S1 + ch + nth i K 0 + nth i w 0) in
      let S0 := xor3 (rotr32 a 2) (rotr32 a 13) (rotr32 a 22) in
      let maj := xor3 (Z.land a b) (Z.land a c) (Z.land b c) in
      [w32 (t1 + S0 + maj); a; b; c; w32 (d + t1); e; f; g]
  | _ => st
  end.

Definition step (st : list Z) (blk : list Z) : list Z :=
  let w := fold_left extend (seq 16 48) (words be_word 16 blk) in
  map (fun p => w32 (fst p + snd p))
      (combine st (fold_left (round w) (seq 0 64) st)).

Definition hexdigest (m : bytes) : string :=
  fold_right hex_byte EmptyString
    (flat_map (be_bytes 4) (run step (be_bytes 8) init m)).
End SHA256.

End Hashlib.


(** ** Python values, dictionaries, exceptions *)

(** The values [json.loads] can produce (numbers restricted to integers:
    the wire format of the specification carries no floats). *)
Inductive value : Type :=
| VNone
| VBool (b : bool)
| VInt (z : Z)
| VStr (s : string)
| VList (l : list value)
| VDict (d : list (string * value)).

(** A [dict] with [str] keys: insertion order kept, assignment to an
    existing key replaces the value in place. *)
Module Dict.
Section WithValues.
Context {V : Type}.

Definition t := list (string * V).

Fixpoint get (d : t) (k : string) : option V :=
  match d with
  | [] => None
  | (k', v) :: d' => if String.eqb k k' then Some v else get d' k
  end.

Fixpoint set (d : t) (k : string) (v : V) : t :=
  match d with
  | [] => [(k, v)]
  | (k', v') :: d' =>
      if String.eqb k k' then (k', v) :: d' else (k', v') :: set d' k v
  end.

Fixpoint del (d : t) (k : string) : t :=
  match d with
  | [] => []
  | (k', v') :: d' =>
      if String.eqb k k' then d' else (k', v') :: del d' k
  end.

Definition mem (d : t) (k : string) : bool :=
  match get d k with Some _ => true | None => false end.

End WithValues.
Arguments t : clear implicits.
End Dict.

Inductive exn : Type :=
| SocketTimeout        (* socket.timeout *)
| OSError              (* any other socket or file error *)
| JSONDecodeError
| UnicodeDecodeError
| UnicodeEncodeError
| ZeroDivisionError
| TypeError
| KeyError
| AttributeError
| ValueError
| OverflowError
| CallbackError        (* raised by the caller's progress callback *)
| FuelExhausted.       (* a loop out of fuel: excluded by the fuel lemmas *)

(** Truth value of an object ([if not metadata], [if not endpoint]). *)
Definition truthy (v : value) : bool :=
  match v with
  | VNone => false
  | VBool b => b
  | VInt z => negb (z =? 0)
  | VStr s => negb (String.eqb s "")
  | VList l => match l with [] => false | _ => true end
  | VDict d => match d with [] => false | _ => true end
  end.

(** [v == s] for a [str] [s]: only an equal [str] compares equal. *)
Definition eq_str (v : value) (s : string) : bool :=
  match v with
  | VStr s' => String.eqb s' s
  | _ => false
  end.

(** [v.get(k)]: only a [dict] has the method. *)
Definition py_get (v : value) (k : string) : exn + value :=
  match v with
  | VDict d => inr (match Dict.get d k with Some x => x | None => VNone end)
  | _ => inl AttributeError
  end.

(** [v[k]] for a [str] key [k]. *)
Definition py_getitem (v : value) (k : string) : exn + value :=
  match v with
  | VDict d => match Dict.get d k with Some x => inr x | None => inl KeyError end
  | _ => inl TypeError
  end.

(** [v.items()]. *)
Definition py_items (v : value) : exn + list (string * value) :=
  match v with
  | VDict d => inr d
  | _ => inl AttributeError
  end.

(** The integer an arithmetic operand stands for ([bool] is an [int]). *)
Definition py_number (v : value) : exn + Z :=
  match v with
  | VInt z => inr z
  | VBool b => inr (if b then 1 else 0)
  | _ => inl TypeError
  end.

(** [k in d] for a dictionary with [str] keys: [list] and [dict] objects are
    unhashable, every other non-[str] object is simply absent. *)
Definition py_in (k : value) {V : Type} (d : Dict.t V) : exn + bool :=
  match k with
  | VStr s => inr (Dict.mem d s)
  | VList _ | VDict _ => inl TypeError
  | _ => inr false
  end.

(** [str(n)] for an [int]. *)
Definition str_of_int (z : Z) : string :=
  DecimalString.NilZero.string_of_int (Z.to_int z).

(** [os.path.basename]: what follows the last slash. *)
Fixpoint basename (s : string) : string :=
  match s with
  | EmptyString => EmptyString
  | String c s' =>
      if existsb (Ascii.eqb "/"%char) (list_ascii_of_string s')
      then basename s'
      else if Ascii.eqb c "/"%char then s' else s
  end.

(** [s.split(':')]. *)
Fixpoint split_colon (s : string) : list string :=
  match s with
  | EmptyString => [EmptyString]
  | String c s' =>
      if Ascii.eqb c ":"%char then EmptyString :: split_colon s'
      else match split_colon s' with
           | [] => [String c EmptyString]
           | h :: t => String c h :: t
           end
  end.

(** [bytes.decode()] (UTF-8, strict): the well-formed sequences of the
    Unicode standard, table 3-7. *)
Definition in_range (lo hi : Z) (b : byte) : bool :=
  (lo <=? b2z b) && (b2z b <=? hi).

Fixpoint utf8_valid (fuel : nat) (bs : bytes) : bool :=
  match fuel with
  | O => match bs with [] => true | _ => false end
  | S fuel' =>
      match bs with
      | [] => true
      | b0 :: r0 =>
          if in_range 0 127 b0 then utf8_valid fuel' r0
          else match r0 with
          | [] => false
          | b1 :: r1 =>
              if in_range 194 223 b0 then
                in_range 128 191 b1 && utf8_valid fuel' r1
              else match r1 with
              | [] => false
              | b2 :: r2 =>
                  if in_range 224 239 b0 then
                    (if b2z b0 =? 224 then in_range 160 191 b1
                     else if b2z b0 =? 237 then in_range 128 159 b1
                     else in_range 128 191 b1)
                    && in_range 128 191 b2 && utf8_valid fuel' r2
                  else match r2 with
                  | [] => false
                  | b3 :: r3 =>
                      in_range 240 244 b0
                      && (if b2z b0 =? 240 then in_range 144 191 b1
                          else if b2z b0 =? 244 then in_range 128 143 b1
                          else in_range 128 191 b1)
                      && in_range 128 191 b2 && in_range 128 191 b3
                      && utf8_valid fuel' r3
                  end
              end
          end
      end
  end.

Definition decode (bs : bytes) : exn + string :=
  if utf8_valid (List.length bs) bs then inr (string_of_list_byte bs)
  else inl UnicodeDecodeError.

(** [path.encode()] (UTF-8, strict) for a path: the bytes of the name when
    they are well-formed UTF-8; a name with other bytes is a [str] with
    surrogate escapes, which cannot be encoded. *)
Definition str_encode (path : string) : exn + bytes :=
  let bs := list_byte_of_string path in
  if utf8_valid (List.length bs) bs then inr bs else inl UnicodeEncodeError.

(** [int.to_bytes(4, byteorder='big')] and [int.from_bytes(_, 'big')]. *)
Definition to_bytes4 (n : Z) : exn + bytes :=
  if (0 <=? n) && (n <? 2 ^ 32) then inr (map z2b (Hashlib.be_bytes 4 n))
  else inl OverflowError.

Definition from_bytes (bs : bytes) : Z := Hashlib.be_word (map b2z bs).

(** What the model takes from the Python runtime without looking inside:
    the JSON codec and [int(str)]. *)
Class Runtime : Type := {
  json_dumps : value -> string;
  json_loads : string -> exn + value;
  int_of_str : string -> exn + Z
}.

(** ** The world: registry, local files, sockets, and the trace *)

Inductive level : Type := Info | Warning | Error.

(** The four sockets of the program. *)
Inductive sock : Type :=
| Discovery   (* the listener of [_start_discovery_service] *)
| Probe       (* the broadcast socket of [discover_session] *)
| Server      (* the listening socket of [_send_files_direct] *)
| Client.     (* the connected TCP socket, on either side *)

(** Observable actions, in the order the code performs them. Log lines carry
    the source's format string as written. A progress call records the two
    integers whose quotient, times 100, is the percentage passed. *)
Inductive event : Type :=
| Log (l : level) (msg : string)
| SockOpen (s : sock)
| SetOpt (s : sock) (opt : string)
| SetTimeout (s : sock) (seconds : Z)
| Bind (s : sock) (host : string) (port : Z)
| Listen (s : sock)
| Accept (s : sock)
| Connect (s : sock) (host : string) (port : Z)
| SendAll (s : sock) (data : bytes)
| SendTo (s : sock) (data : bytes) (host : string) (port : Z)
| Recv (s : sock) (bufsize : Z)
| RecvFrom (s : sock) (bufsize : Z)
| SockClose (s : sock)
| Mkdir (path : string)
| OpenRead (path : string)
| OpenWrite (dir name : string)
| Write (data : bytes)
| Progress (num den : Z) (msg : string).

(** A local file: what [os.stat] reports and, when it can be opened for
    reading, its bytes. *)
Record fnode : Type := { st_size : Z; content : option bytes }.

Record file_info : Type := {
  fi_path : string;
  fi_name : string;
  fi_size : Z;
  fi_chunks : Z;
  fi_checksum : string
}.

(** [received_chunks], [peer_connection] and [data_channel] are never read
    or written after construction and are left out. *)
Record TransferSession : Type := {
  session_id : string;
  files : list string;
  file_metadata : Dict.t file_info;
  total_size : Z;
  transferred_size : Z;
  is_active : bool
}.

Record world : Type := {
  sessions : Dict.t TransferSession;   (* P2PManager.sessions *)
  local_ip : string;                   (* P2PManager.local_ip *)
  webrtc_available : bool;             (* WEBRTC_AVAILABLE *)
  fs : Dict.t fnode;                   (* the local file system *)
  rx : list bytes;                     (* TCP segments still to arrive *)
  rx_end : option exn;                 (* after them: closed, or an error *)
  tx_fail : option (nat * exn);        (* sends that succeed, then an error *)
  trace : list event
}.

Definition discovery_port : Z := 45678.
Definition transfer_port : Z := 45679.

Definition set_sessions (w : world) (s : Dict.t TransferSession) : world :=
  {| sessions := s; local_ip := local_ip w;
     webrtc_available := webrtc_available w; fs := fs w; rx := rx w;
     rx_end := rx_end w; tx_fail := tx_fail w; trace := trace w |}.

Definition set_rx (w : world) (r : list bytes) : world :=
  {| sessions := sessions w; local_ip := local_ip w;
     webrtc_available := webrtc_available w; fs := fs w; rx := r;
     rx_end := rx_end w; tx_fail := tx_fail w; trace := trace w |}.

Definition set_tx_fail (w : world) (t : option (nat * exn)) : world :=
  {| sessions := sessions w; local_ip := local_ip w;
     webrtc_available := webrtc_available w; fs := fs w; rx := rx w;
     rx_end := rx_end w; tx_fail := t; trace := trace w |}.

Definition set_trace (w : world) (t : list event) : world :=
  {| sessions := sessions w; local_ip := local_ip w;
     webrtc_available := webrtc_available w; fs := fs w; rx := rx w;
     rx_end := rx_end w; tx_fail := tx_fail w; trace := t |}.

(** ** The state-and-exception monad *)

Definition M (A : Type) : Type := world -> (exn + A) * world.

Definition ret {A : Type} (a : A) : M A := fun w => (inr a, w).

Definition raise {A : Type} (e : exn) : M A := fun w => (inl e, w).

Definition bind {A B : Type} (m : M A) (k : A -> M B) : M B :=
  fun w =>
    match m w with
    | (inl e, w') => (inl e, w')
    | (inr a, w') => k a w'
    end.

(** [try: m  except Exception as e: h e]. *)
Definition try_ {A : Type} (m : M A) (h : exn -> M A) : M A :=
  fun w =>
    match m w with
    | (inl e, w') => h e w'
    | (inr a, w') => (inr a, w')
    end.

Definition lift {A : Type} (r : exn + A) : M A := fun w => (r, w).

Definition get_world : M world := fun w => (inr w, w).

Definition emit (e : event) : M unit :=
  fun w => (inr tt, set_trace w (trace w ++ [e])).

Definition log (l : level) (msg : string) : M unit := emit (Log l msg).

Notation "x <- m ;; k" := (bind m (fun x => k))
  (at level 61, m at next level, right associativity).
Notation "m ;; k" := (bind m (fun _ => k))
  (at level 61, right associativity).

(** ** TransferSession *)

(** [open(path, 'rb')] followed by reading the whole file. *)
Definition read_file (path : string) : M bytes :=
  w <- get_world ;;
  match Dict.get (fs w) path with
  | Some {| content := Some c |} => emit (OpenRead path) ;; ret c
  | _ => raise OSError
  end.

(** The digest is fed 4096 bytes at a time; MD5 of the pieces in order is
    MD5 of the whole. *)
Definition _calculate_file_checksum (file_path : string) : M string :=
  try_ (c <- read_file file_path ;; ret (Hashlib.MD5.hexdigest c))
       (fun _ =>
          log Error "Error calculating checksum for {file_path}: {e}" ;;
          ret "").

(** [self.file_metadata[file_id] = {...}] and [self.total_size += size]. *)
Definition add_file (s : TransferSession) (file_id : string)
           (info : file_info) : TransferSession :=
  {| session_id := session_id s; files := files s;
     file_metadata := Dict.set (file_metadata s) file_id info;
     total_size := total_size s + fi_size info;
     transferred_size := transferred_size s; is_active := is_active s |}.

(** The loop over [self.files]. Nothing catches what [file_path.encode()]
    raises: it leaves the constructor. *)
Fixpoint _calculate_metadata (todo : list string) (self : TransferSession)
  : M TransferSession :=
  match todo with
  | [] => ret self
  | file_path :: rest =>
      w <- get_world ;;
      match Dict.get (fs w) file_path with          (* os.path.exists *)
      | Some file_stat =>
          path_bytes <- lift (str_encode file_path) ;;     (* not in a try *)
          let file_id := Hashlib.MD5.hexdigest path_bytes in
          checksum <- _calculate_file_checksum file_path ;;
          _calculate_metadata rest
            (add_file self file_id
               {| fi_path := file_path;
                  fi_name := basename file_path;
                  fi_size := st_size file_stat;
                  fi_chunks := st_size file_stat / 8192 + 1;
                  fi_checksum := checksum |})
      | None => _calculate_metadata rest self
      end
  end.

Definition TransferSession_init (sid : string) (fl : list string)
  : M TransferSession :=
  let self := {| session_id := sid; files := fl; file_metadata := [];
                 total_size := 0; transferred_size := 0;
                 is_active := false |} in
  match fl with
  | [] => ret self
  | _ => _calculate_metadata fl self
  end.

(** ** P2PManager: the registry *)

(** An exception of the constructor is caught here: it is logged, nothing
    is stored and the result is [False]. *)
Definition create_session (sid : string) (fl : list string) : M bool :=
  try_ (session <- TransferSession_init sid fl ;;
        (fun w => (inr tt, set_sessions w (Dict.set (sessions w) sid session))) ;;
        log Info "P2P: Created session {session_id} with {len(files)} files" ;;
        ret true)
       (fun _ => log Error "Error creating session: {e}" ;; ret false).

Definition cleanup_session (sid : string) : M unit :=
  w <- get_world ;;
  if Dict.mem (sessions w) sid then
    (fun w => (inr tt, set_sessions w (Dict.del (sessions w) sid))) ;;
    log Info "P2P: Cleaned up session {session_id}"
  else ret tt.

(** ** Sockets *)

(** A call whose outcome the outside world decides. *)
Definition call (ev : event) (outcome : option exn) : M unit :=
  emit ev ;;
  match outcome with
  | Some e => raise e
  | None => ret tt
  end.

(** One more send on a connection that carries [tx_fail] sends. *)
Definition spend_send (ev : event) : M unit :=
  fun w =>
    match tx_fail w with
    | Some (O, e) => (inl e, set_trace w (trace w ++ [ev]))
    | Some (S n, e) =>
        (inr tt, set_tx_fail (set_trace w (trace w ++ [ev])) (Some (n, e)))
    | None => (inr tt, set_trace w (trace w ++ [ev]))
    end.

Definition sendall (s : sock) (data : bytes) : M unit :=
  spend_send (SendAll s data).

Definition sendto (s : sock) (data : bytes) (host : string) (port : Z)
  : M unit :=
  spend_send (SendTo s data host port).

Definition take {A : Type} (n : Z) (l : list A) : list A :=
  firstn (Z.to_nat n) l.
Definition drop {A : Type} (n : Z) (l : list A) : list A :=
  skipn (Z.to_nat n) l.

Fixpoint drop_empty (r : list bytes) : list bytes :=
  match r with
  | [] :: r' => drop_empty r'
  | _ => r
  end.

(** [socket.recv(bufsize)] on a stream socket: at most [bufsize] bytes of
    the segment at hand, never across a segment boundary; [b''] once the
    peer has closed. *)
Definition recv (s : sock) (bufsize : Z) : M bytes :=
  emit (Recv s bufsize) ;;
  if bufsize <? 0 then raise ValueError
  else if bufsize =? 0 then ret []
  else fun w =>
    match drop_empty (rx w) with
    | [] =>
        match rx_end w with
        | None => (inr [], set_rx w [])
        | Some e => (inl e, set_rx w [])
        end
    | seg :: rest =>
        (inr (take bufsize seg),
         set_rx w (match drop bufsize seg with
                   | [] => rest
                   | more => more :: rest
                   end))
    end.

(** ** JSON framing *)

Section Transport.
Context {RT : Runtime}.

Definition _send_json (s : sock) (data : value) : M unit :=
  let json_data := encode (json_dumps data) in
  let length := blen json_data in
  prefix <- lift (to_bytes4 length) ;;
  sendall s prefix ;;
  sendall s json_data.

(** The accumulation loop; [None] is the [return None] of the loop. Each
    turn adds at least one byte, so [length] turns are enough. *)
Fixpoint _receive_json_loop (fuel : nat) (s : sock) (length : Z)
         (json_data : bytes) : M (option bytes) :=
  if blen json_data <? length then
    match fuel with
    | O => raise FuelExhausted
    | S fuel' =>
        chunk <- recv s (length - blen json_data) ;;
        match chunk with
        | [] => ret None
        | _ => _receive_json_loop fuel' s length (json_data ++ chunk)
        end
    end
  else ret (Some json_data).

(** Python's [None] result is [VNone]. *)
Definition _receive_json (s : sock) : M value :=
  length_bytes <- recv s 4 ;;
  if blen length_bytes <? 4 then ret VNone
  else
    let length := from_bytes length_bytes in
    r <- _receive_json_loop (Z.to_nat length) s length [] ;;
    match r with
    | None => ret VNone
    | Some json_data =>
        text <- lift (decode json_data) ;;
        lift (json_loads text)
    end.

(** ** Sending *)

(** The caller's progress callback: [true] when it returns, [false] when
    it raises. *)
Definition callback : Type := Z -> Z -> string -> bool.

(** [progress_callback((num / den) * 100, msg)] under
    [if progress_callback:]. *)
Definition report (cb : option callback) (num den : Z) (msg : string)
  : M unit :=
  match cb with
  | None => ret tt
  | Some f =>
      if den =? 0 then raise ZeroDivisionError
      else
        emit (Progress num den msg) ;;
        if f num den msg then ret tt else raise CallbackError
  end.

Definition get_session (sid : string) : M TransferSession :=
  w <- get_world ;;
  match Dict.get (sessions w) sid with
  | Some s => ret s
  | None => raise KeyError
  end.

Definition bump (s : TransferSession) (n : Z) : TransferSession :=
  {| session_id := session_id s; files := files s;
     file_metadata := file_metadata s; total_size := total_size s;
     transferred_size := transferred_size s + n;
     is_active := is_active s |}.

(** [session.transferred_size += n] on the session object of the
    registry. *)
Definition add_transferred (sid : string) (n : Z) : M unit :=
  s <- get_session sid ;;
  fun w => (inr tt, set_sessions w (Dict.set (sessions w) sid (bump s n))).

Definition file_info_value (fi : file_info) : value :=
  VDict [("path", VStr (fi_path fi)); ("name", VStr (fi_name fi));
         ("size", VInt (fi_size fi)); ("chunks", VInt (fi_chunks fi));
         ("checksum", VStr (fi_checksum fi))].

Definition metadata_value (s : TransferSession) : value :=
  VDict [("session_id", VStr (session_id s));
         ("files",
          VDict (map (fun kv => (fst kv, file_info_value (snd kv)))
                     (file_metadata s)));
         ("total_size", VInt (total_size s))].

(** The read-and-send loop over the open file [f] (its unread bytes). *)
Fixpoint send_loop (fuel : nat) (sid : string) (cb : option callback)
         (name : string) (f : bytes) (file_size bytes_sent : Z) : M unit :=
  if bytes_sent <? file_size then
    match fuel with
    | O => raise FuelExhausted
    | S fuel' =>
        match take 8192 f with
        | [] => ret tt                                   (* break *)
        | chunk =>
            sendall Client chunk ;;
            add_transferred sid (blen chunk) ;;
            session <- get_session sid ;;
            report cb (transferred_size session) (total_size session)
                   (String.append "Sending " name) ;;
            send_loop fuel' sid cb name (drop 8192 f) file_size
                      (bytes_sent + blen chunk)
        end
    end
  else ret tt.

Definition send_file (sid : string) (cb : option callback)
           (file_info : file_info) : M unit :=
  session <- get_session sid ;;
  report cb (transferred_size session) (total_size session)
         (String.append "Sending " (fi_name file_info)) ;;
  f <- read_file (fi_path file_info) ;;
  send_loop (S (List.length f)) sid cb (fi_name file_info) f
            (fi_size file_info) 0.

Fixpoint for_each {A : Type} (l : list A) (body : A -> M unit) : M unit :=
  match l with
  | [] => ret tt
  | a :: rest => body a ;; for_each rest body
  end.

(** What the network answers the sender: the outcome of setting up the
    listening socket and of [accept]. *)
Record send_env : Type := {
  bind_result : option exn;
  accept_result : option exn
}.

(** The inner [try] block of [_send_files_direct]: one accepted
    connection, the metadata frame, then every file. *)
Definition serve_client (env : send_env) (sid : string)
           (cb : option callback) : M bool :=
  call (Accept Server) (accept_result env) ;;
  log Info "P2P: Client connected from {addr}" ;;
  session <- get_session sid ;;
  _send_json Client (metadata_value session) ;;
  for_each (file_metadata session) (fun kv => send_file sid cb (snd kv)) ;;
  emit (SockClose Client) ;;
  emit (SockClose Server) ;;
  log Info "P2P: File transfer completed successfully" ;;
  ret true.

Definition _send_files_direct (env : send_env) (sid : string)
           (cb : option callback) : M bool :=
  try_
    (emit (SockOpen Server) ;;
     emit (SetOpt Server "SO_REUSEADDR") ;;
     w <- get_world ;;
     call (Bind Server (local_ip w) transfer_port) (bind_result env) ;;
     emit (Listen Server) ;;
     emit (SetTimeout Server 30) ;;
     log Info "P2P: Waiting for connection on {self.local_ip}:{self.transfer_port}" ;;
     try_
       (serve_client env sid cb)
       (fun e =>
          match e with
          | SocketTimeout =>                       (* except socket.timeout *)
              log Error "P2P: Connection timeout" ;;
              emit (SockClose Server) ;;
              ret false
          | _ => raise e
          end))
    (fun _ => log Error "Direct transfer error: {e}" ;; ret false).

Definition _send_files_webrtc (env : send_env) (sid : string)
           (cb : option callback) : M bool :=
  log Info "WebRTC sending not yet implemented - falling back to direct transfer" ;;
  _send_files_direct env sid cb.

Definition send_files (env : send_env) (sid : string)
           (cb : option callback) : M bool :=
  w <- get_world ;;
  if negb (Dict.mem (sessions w) sid) then
    log Error "Session {session_id} not found" ;;
    ret false
  else
    try_
      (if webrtc_available w then _send_files_webrtc env sid cb
       else _send_files_direct env sid cb)
      (fun _ => log Error "Error sending files: {e}" ;; ret false).
End Transport.

(** ** Discovery *)

Section Discovery.
Context {RT : Runtime}.

(** What the network answers [discover_session]: the outcome of creating
    the socket, of the broadcast, and of the single [recvfrom]. *)
Record probe_env : Type := {
  probe_socket : option exn;
  probe_sendto : option exn;
  probe_reply : exn + bytes
}.

(** Python's [None] result is [VNone]. *)
Definition discover_session (env : probe_env) (sid : string) : M value :=
  try_
    (let discovery_msg :=
       VDict [("type", VStr "session_discovery"); ("session_id", VStr sid)] in
     let msg_data := encode (json_dumps discovery_msg) in
     call (SockOpen Probe) (probe_socket env) ;;
     emit (SetOpt Probe "SO_BROADCAST") ;;
     emit (SetTimeout Probe 5) ;;
     call (SendTo Probe msg_data "<broadcast>" discovery_port)
          (probe_sendto env) ;;
     found <-
       try_
         (emit (RecvFrom Probe 1024) ;;
          data <- lift (probe_reply env) ;;
          text <- lift (decode (take 1024 data)) ;;
          response <- lift (json_loads text) ;;
          ty <- lift (py_get response "type") ;;
          if eq_str ty "session_response" then
            rid <- lift (py_get response "session_id") ;;
            if eq_str rid sid then
              endpoint <- lift (py_get response "endpoint") ;;
              emit (SockClose Probe) ;;
              log Info "P2P: Discovered session at {endpoint}" ;;
              ret (Some endpoint)
            else ret None
          else ret None)
         (fun e =>
            match e with
            | SocketTimeout =>
                log Info "P2P: No session response received" ;; ret None
            | JSONDecodeError =>
                log Warning "P2P: Invalid discovery response" ;; ret None
            | _ => raise e
            end) ;;
     match found with
     | Some endpoint => ret endpoint
     | None => emit (SockClose Probe) ;; ret VNone
     end)
    (fun _ => log Error "Session discovery error: {e}" ;; ret VNone).

Definition _handle_discovery_message (message host : string) (port : Z)
  : M unit :=
  try_
    (data <- lift (json_loads message) ;;
     ty <- lift (py_get data "type") ;;
     if eq_str ty "session_discovery" then
       sid <- lift (py_get data "session_id") ;;
       w <- get_world ;;
       known <- lift (py_in sid (sessions w)) ;;
       if (known : bool) then
         let response :=
           VDict [("type", VStr "session_response"); ("session_id", sid);
                  ("endpoint",
                   VStr (String.append (local_ip w)
                           (String.append ":" (str_of_int transfer_port))))] in
         sendto Discovery (encode (json_dumps response)) host port
       else ret tt
     else ret tt)
    (fun e =>
       match e with
       | JSONDecodeError => ret tt                (* Ignore invalid messages *)
       | _ => raise e
       end).

(** What one [recvfrom] of the listener yields. *)
Inductive arrival : Type :=
| Datagram (data : bytes) (host : string) (port : Z)
| Idle                  (* socket.timeout after one second *)
| Broken (e : exn)      (* any other error while [_running] is set *)
| Stopped.              (* [stop()] closed the socket: error, [_running] clear *)

(** The [while self._running] loop over what arrives; the end of the list
    is [_running] found cleared. The result lists the arrivals that the
    loop never got to. *)
Fixpoint discovery_loop (arrivals : list arrival) : M (list arrival) :=
  match arrivals with
  | [] => ret []
  | a :: rest =>
      continue <-
        try_
          (emit (RecvFrom Discovery 1024) ;;
           match a with
           | Datagram data host port =>
               message <- lift (decode (take 1024 data)) ;;
               _handle_discovery_message message host port ;;
               ret true
           | Idle => raise SocketTimeout
           | Broken e => raise e
           | Stopped => raise OSError
           end)
          (fun e =>
             match e, a with
             | SocketTimeout, _ => ret true                    (* continue *)
             | _, Stopped => ret false                         (* break *)
             | _, _ =>
                 log Error "Discovery service error: {e}" ;;
                 ret false                                     (* break *)
             end) ;;
      if (continue : bool) then discovery_loop rest else ret rest
  end.

Definition discovery_worker (start : option exn) (arrivals : list arrival)
  : M (list arrival) :=
  try_
    (emit (SockOpen Discovery) ;;
     emit (SetOpt Discovery "SO_REUSEADDR") ;;
     call (Bind Discovery "" discovery_port) start ;;
     emit (SetTimeout Discovery 1) ;;
     log Info "P2P: Discovery service started on port {self.discovery_port}" ;;
     discovery_loop arrivals)
    (fun _ =>
       log Error "Failed to start discovery service: {e}" ;;
       ret arrivals).
End Discovery.

(** ** Receiving *)

Section Receiving.
Context {RT : Runtime}.

(** What the outside answers the receiver: the outcome of [connect], of
    creating the download directory, and of opening each destination
    file. Writes to an opened file succeed. *)
Record recv_env : Type := {
  probe : probe_env;
  connect_result : option exn;
  mkdir_result : option exn;
  open_result : string -> option exn
}.

(** [progress_callback((received_size / total_size) * 100, msg)] with a
    [total_size] that came over the wire. *)
Definition report_received (cb : option callback) (received_size : Z)
           (total_size : value) (msg : string) : M unit :=
  match cb with
  | None => ret tt
  | Some _ =>
      den <- lift (py_number total_size) ;;
      report cb received_size den msg
  end.

(** The receive-and-write loop of one file; returns [received_size]. *)
Fixpoint recv_loop (fuel : nat) (cb : option callback) (total_size : value)
         (name : string) (file_size bytes_received received_size : Z)
  : M Z :=
  if bytes_received <? file_size then
    match fuel with
    | O => raise FuelExhausted
    | S fuel' =>
        chunk <- recv Client (Z.min 8192 (file_size - bytes_received)) ;;
        match chunk with
        | [] => ret received_size                        (* break *)
        | _ =>
            emit (Write chunk) ;;
            report_received cb (received_size + blen chunk) total_size
                            (String.append "Receiving " name) ;;
            recv_loop fuel' cb total_size name file_size
                      (bytes_received + blen chunk)
                      (received_size + blen chunk)
        end
    end
  else ret received_size.

Definition receive_file (env : recv_env) (download_dir : string)
           (cb : option callback) (total_size file_info : value)
           (received_size : Z) : M Z :=
  file_name <- lift (py_getitem file_info "name") ;;
  file_size <- lift (py_getitem file_info "size") ;;
  name <- match file_name with            (* download_path / file_name *)
          | VStr n => ret n
          | _ => raise TypeError
          end ;;
  report_received cb received_size total_size
                  (String.append "Receiving " name) ;;
  call (OpenWrite download_dir name) (open_result env name) ;;
  size <- lift (py_number file_size) ;;
  recv_loop (Z.to_nat size) cb total_size name size 0 received_size.

Fixpoint receive_each (env : recv_env) (download_dir : string)
         (cb : option callback) (total_size : value)
         (items : list (string * value)) (received_size : Z) : M Z :=
  match items with
  | [] => ret received_size
  | (file_id, file_info) :: rest =>
      received_size' <-
        receive_file env download_dir cb total_size file_info
                     received_size ;;
      receive_each env download_dir cb total_size rest received_size'
  end.

Definition _receive_files_direct (env : recv_env) (sid download_dir : string)
           (endpoint : value) (cb : option callback) : M bool :=
  try_
    (text <- match endpoint with           (* endpoint.split(':') *)
             | VStr s => ret s
             | _ => raise AttributeError
             end ;;
     host_port <- match split_colon text with
                  | [host; port] => ret (host, port)
                  | _ => raise ValueError
                  end ;;
     port <- lift (int_of_str (snd host_port)) ;;
     emit (SockOpen Client) ;;
     emit (SetTimeout Client 30) ;;
     call (Connect Client (fst host_port) port) (connect_result env) ;;
     log Info "P2P: Connected to sender at {endpoint}" ;;
     metadata <- _receive_json Client ;;
     invalid <-
       (if negb (truthy metadata) then ret true
        else
          got <- lift (py_get metadata "session_id") ;;
          ret (negb (eq_str got sid))) ;;
     if (invalid : bool) then
       log Error "Invalid session metadata" ;;
       emit (SockClose Client) ;;
       ret false
     else
       files_info <- lift (py_getitem metadata "files") ;;
       total_size <- lift (py_getitem metadata "total_size") ;;
       call (Mkdir download_dir) (mkdir_result env) ;;
       items <- lift (py_items files_info) ;;
       receive_each env download_dir cb total_size items 0 ;;
       emit (SockClose Client) ;;
       log Info "P2P: File reception completed successfully" ;;
       ret true)
    (fun _ => log Error "Direct reception error: {e}" ;; ret false).

Definition _receive_files_webrtc (env : recv_env) (sid download_dir : string)
           (endpoint : value) (cb : option callback) : M bool :=
  log Info "WebRTC receiving not yet implemented - falling back to direct transfer" ;;
  _receive_files_direct env sid download_dir endpoint cb.

Definition receive_files (env : recv_env) (sid download_dir : string)
           (cb : option callback) : M bool :=
  try_
    (endpoint <- discover_session (probe env) sid ;;
     if negb (truthy endpoint) then
       log Error "Could not discover session {session_id}" ;;
       ret false
     else
       w <- get_world ;;
       if webrtc_available w then
         _receive_files_webrtc env sid download_dir endpoint cb
       else _receive_files_direct env sid download_dir endpoint cb)
    (fun _ => log Error "Error receiving files: {e}" ;; ret false).
End Receiving.

(** ** Checksum verification ([file_manager.py] and [utils.py]) *)

(** [FileInfo._calculate_checksum]. *)
Definition FileInfo__calculate_checksum (path : string) : M string :=
  try_ (c <- read_file path ;; ret (Hashlib.MD5.hexdigest c))
       (fun _ => log Error "Error calculating checksum: {e}" ;; ret "").

(** [FileInfo(file_path).checksum]: empty unless the file exists and is
    smaller than 100 MB. *)
Definition FileInfo_checksum (file_path : string) : M string :=
  w <- get_world ;;
  match Dict.get (fs w) file_path with            (* os.path.exists *)
  | None => ret ""
  | Some stat =>                                  (* _load_info *)
      try_ (if st_size stat <? 100 * 1024 * 1024
            then FileInfo__calculate_checksum file_path
            else ret "")
           (fun _ => log Error "Error loading file info for {self.path}: {e}" ;;
                     ret "")
  end.

Definition verify_file_integrity (file_path expected_checksum : string)
  : M bool :=
  if String.eqb expected_checksum "" then
    log Warning "No checksum provided for verification" ;;
    ret true
  else
    try_
      (actual_checksum <- FileInfo_checksum file_path ;;
       let is_valid := String.eqb actual_checksum expected_checksum in
       (if is_valid then ret tt
        else
          log Warning "Checksum mismatch for {file_path}" ;;
          log Warning "Expected: {expected_checksum}" ;;
          log Warning "Actual: {actual_checksum}") ;;
       ret is_valid)
      (fun _ => log Error "Error verifying file integrity: {e}" ;; ret false).

(** [str.lower()] on the ASCII letters. Both functions are only ever
    compared against a hex digest, and no non-ASCII character lowers to a
    hex digit, so the comparison below decides as Python's does. *)
Definition lower_char (c : ascii) : ascii :=
  let n := nat_of_ascii c in
  if (Nat.leb 65 n && Nat.leb n 90)%bool then ascii_of_nat (n + 32) else c.

Fixpoint lower (s : string) : string :=
  match s with
  | EmptyString => EmptyString
  | String c s' => String (lower_char c) (lower s')
  end.

Definition verify_checksum (file_path expected_checksum algorithm : string)
  : M bool :=
  try_
    (if String.eqb algorithm "md5" then
       c <- read_file file_path ;;
       ret (String.eqb (lower (Hashlib.MD5.hexdigest c))
                       (lower expected_checksum))
     else if String.eqb algorithm "sha256" then
       c <- read_file file_path ;;
       ret (String.eqb (lower (Hashlib.SHA256.hexdigest c))
                       (lower expected_checksum))
     else
       log Error "Unsupported hash algorithm: {algorithm}" ;;
       ret false)
    (fun _ => log Error "Error verifying checksum: {e}" ;; ret false).

(** ** A reference runtime

    An executable JSON codec and [int()], used to run the model on concrete
    inputs. The general theorems below hold for every [Runtime]; this one
    follows [json.dumps]/[json.loads] with their default arguments on the
    values above and on ASCII text (non-ASCII bytes of a string are copied
    through, [\u] escapes decode to UTF-8, a number with a fraction or an
    exponent is rejected). *)
Module Ref.

Definition hex4 (n : Z) : string :=
  String (Hashlib.hex_digit (n / 4096 mod 16))
    (String (Hashlib.hex_digit (n / 256 mod 16))
       (String (Hashlib.hex_digit (n / 16 mod 16))
          (String (Hashlib.hex_digit (n mod 16)) ""))).

Definition escape_char (c : ascii) : string :=
  let n := Z.of_nat (nat_of_ascii c) in
  if n =? 34 then "\" ++ String c ""
  else if n =? 92 then "\\"
  else if n =? 10 then "\n"
  else if n =? 13 then "\r"
  else if n =? 9 then "\t"
  else if n =? 8 then "\b"
  else if n =? 12 then "\f"
  else if n <? 32 then "\u" ++ hex4 n
  else String c "".

Fixpoint escape (s : string) : string :=
  match s with
  | EmptyString => ""
  | String c s' => escape_char c ++ escape s'
  end.

Definition quote (s : string) : string :=
  String (ascii_of_nat 34) (escape s ++ String (ascii_of_nat 34) "").

Fixpoint dumps (v : value) : string :=
  match v with
  | VNone => "null"
  | VBool true => "true"
  | VBool false => "false"
  | VInt z => str_of_int z
  | VStr s => quote s
  | VList l =>
      "[" ++ (fix items (l : list value) : string :=
                match l with
                | [] => ""
                | [x] => dumps x
                | x :: r => dumps x ++ ", " ++ items r
                end) l ++ "]"
  | VDict d =>
      "{" ++ (fix members (d : list (string * value)) : string :=
                match d with
                | [] => ""
                | [(k, x)] => quote k ++ ": " ++ dumps x
                | (k, x) :: r => quote k ++ ": " ++ dumps x ++ ", " ++ members r
                end) d ++ "}"
  end%string.

Definition code (c : ascii) : Z := Z.of_nat (nat_of_ascii c).
Definition chr (n : Z) : ascii := ascii_of_nat (Z.to_nat n).

Definition is_ws (c : ascii) : bool :=
  (code c =? 32) || (code c =? 9) || (code c =? 10) || (code c =? 13).
Definition is_digit (c : ascii) : bool :=
  (48 <=? code c) && (code c <=? 57).

Fixpoint skip_ws (s : list ascii) : list ascii :=
  match s with
  | c :: s' => if is_ws c then skip_ws s' else s
  | [] => []
  end.

Definition hex_val (c : ascii) : option Z :=
  let n := code c in
  if is_digit c then Some (n - 48)
  else if (97 <=? n) && (n <=? 102) then Some (n - 87)
  else if (65 <=? n) && (n <=? 70) then Some (n - 55)
  else None.

Definition hex4_val (a b c d : ascii) : option Z :=
  match hex_val a, hex_val b, hex_val c, hex_val d with
  | Some x, Some y, Some z, Some t => Some (((x * 16 + y) * 16 + z) * 16 + t)
  | _, _, _, _ => None
  end.

(** The UTF-8 encoding of a code point. *)
Definition utf8 (n : Z) : list ascii :=
  if n <? 128 then [chr n]
  else if n <? 2048 then [chr (192 + n / 64); chr (128 + n mod 64)]
  else if n <? 65536 then
    [chr (224 + n / 4096); chr (128 + n / 64 mod 64); chr (128 + n mod 64)]
  else
    [chr (240 + n / 262144); chr (128 + n / 4096 mod 64);
     chr (128 + n / 64 mod 64); chr (128 + n mod 64)].

(** The characters of a string literal after its opening quote. *)
Fixpoint parse_chars (fuel : nat) (s : list ascii)
  : option (list ascii * list ascii) :=
  match fuel with
  | O => None
  | S fuel' =>
      match s with
      | [] => None
      | c :: s' =>
          if code c =? 34 then Some ([], s')
          else if code c <? 32 then None
          else if code c =? 92 then
            match s' with
            | e :: s'' =>
                let continue (bs : list ascii) (rest : list ascii) :=
                  match parse_chars fuel' rest with
                  | Some (cs, r) => Some (bs ++ cs, r)
                  | None => None
                  end in
                if code e =? 34 then continue [e] s''
                else if code e =? 92 then continue [e] s''
                else if code e =? 47 then continue [e] s''
                else if code e =? 98 then continue [chr 8] s''
                else if code e =? 102 then continue [chr 12] s''
                else if code e =? 110 then continue [chr 10] s''
                else if code e =? 114 then continue [chr 13] s''
                else if code e =? 116 then continue [chr 9] s''
                else if code e =? 117 then
                  match s'' with
                  | a :: b :: c' :: d :: r =>
                      match hex4_val a b c' d with
                      | Some hi =>
                          if (55296 <=? hi) && (hi <? 56320) then
                            match r with
                            | b1 :: u :: a2 :: b2 :: c2 :: d2 :: r' =>
                                match hex4_val a2 b2 c2 d2 with
                                | Some lo =>
                                    if (code b1 =? 92) && (code u =? 117)
                                       && (56320 <=? lo) && (lo <? 57344)
                                    then continue
                                           (utf8 (65536 + (hi - 55296) * 1024
                                                  + (lo - 56320))) r'
                                    else None
                                | None => None
                                end
                            | _ => None
                            end
                          else if (56320 <=? hi) && (hi <? 57344) then None
                          else continue (utf8 hi) r
                      | None => None
                      end
                  | _ => None
                  end
                else None
            | [] => None
            end
          else
            match parse_chars fuel' s' with
            | Some (cs, r) => Some (c :: cs, r)
            | None => None
            end
      end
  end.

Fixpoint parse_digits (s : list ascii) (acc : Z) : Z * list ascii :=
  match s with
  | c :: s' => if is_digit c then parse_digits s' (acc * 10 + (code c - 48))
               else (acc, s)
  | [] => (acc, [])
  end.

(** An integer literal: no leading zero, no fraction, no exponent. *)
Definition parse_int (s : list ascii) : option (Z * list ascii) :=
  let '(neg, s1) :=
    match s with
    | c :: s' => if code c =? 45 then (true, s') else (false, s)
    | [] => (false, s)
    end in
  match s1 with
  | c :: s2 =>
      if is_digit c then
        let '(n, rest) :=
          if code c =? 48 then (0, s2) else parse_digits s1 0 in
        match rest with
        | x :: _ =>
            if is_digit x || (code x =? 46) || (code x =? 101)
               || (code x =? 69)
            then None else Some (if neg then - n else n, rest)
        | [] => Some (if neg then - n else n, rest)
        end
      else None
  | [] => None
  end.

Definition after (lit : string) (s : list ascii) : option (list ascii) :=
  let l := list_ascii_of_string lit in
  if String.eqb (string_of_list_ascii (firstn (List.length l) s)) lit
  then Some (skipn (List.length l) s) else None.

Fixpoint parse_value (fuel : nat) (s : list ascii)
  : option (value * list ascii) :=
  match fuel with
  | O => None
  | S fuel' =>
      let parse_items :=
        fix items (n : nat) (s : list ascii) (acc : list value)
          : option (value * list ascii) :=
          match n with
          | O => None
          | S n' =>
              match parse_value fuel' (skip_ws s) with
              | Some (v, r) =>
                  match skip_ws r with
                  | c :: r' =>
                      if code c =? 44 then items n' r' (acc ++ [v])
                      else if code c =? 93 then Some (VList (acc ++ [v]), r')
                      else None
                  | [] => None
                  end
              | None => None
              end
          end in
      let parse_members :=
        fix members (n : nat) (s : list ascii) (acc : list (string * value))
          : option (value * list ascii) :=
          match n with
          | O => None
          | S n' =>
              match skip_ws s with
              | q :: s1 =>
                  if code q =? 34 then
                    match parse_chars (S (List.length s1)) s1 with
                    | Some (k, s2) =>
                        match skip_ws s2 with
                        | c :: s3 =>
                            if code c =? 58 then
                              match parse_value fuel' (skip_ws s3) with
                              | Some (v, r) =>
                                  let acc' :=
                                    Dict.set acc (string_of_list_ascii k) v in
                                  match skip_ws r with
                                  | c' :: r' =>
                                      if code c' =? 44 then members n' r' acc'
                                      else if code c' =? 125
                                      then Some (VDict acc', r')
                                      else None
                                  | [] => None
                                  end
                              | None => None
                              end
                            else None
                        | [] => None
                        end
                    | None => None
                    end
                  else None
              | [] => None
              end
          end in
      match s with
      | [] => None
      | c :: s' =>
          if code c =? 34 then
            match parse_chars (S (List.length s')) s' with
            | Some (cs, r) => Some (VStr (string_of_list_ascii cs), r)
            | None => None
            end
          else if code c =? 91 then
            match skip_ws s' with
            | c' :: r' =>
                if code c' =? 93 then Some (VList [], r')
                else parse_items (S (List.length s')) s' []
            | [] => None
            end
          else if code c =? 123 then
            match skip_ws s' with
            | c' :: r' =>
                if code c' =? 125 then Some (VDict [], r')
                else parse_members (S (List.length s')) s' []
            | [] => None
            end
          else
            match after "null" s, after "true" s, after "false" s with
            | Some r, _, _ => Some (VNone, r)
            | _, Some r, _ => Some (VBool true, r)
            | _, _, Some r => Some (VBool false, r)
            | _, _, _ =>
                match parse_int s with
                | Some (n, r) => Some (VInt n, r)
                | None => None
                end
            end
      end
  end.

Definition loads (text : string) : exn + value :=
  let s := list_ascii_of_string text in
  match parse_value (S (List.length s)) (skip_ws s) with
  | Some (v, r) =>
      match skip_ws r with
      | [] => inr v
      | _ => inl JSONDecodeError
      end
  | None => inl JSONDecodeError
  end.

(** [int(s)] on an optionally signed run of ASCII digits. *)
Definition int (text : string) : exn + Z :=
  let s := list_ascii_of_string text in
  let '(neg, s1) :=
    match s with
    | c :: s' => if code c =? 45 then (true, s')
                 else if code c =? 43 then (false, s') else (false, s)
    | [] => (false, s)
    end in
  match s1 with
  | c :: _ =>
      if is_digit c then
        match parse_digits s1 0 with
        | (n, []) => inr (if neg then - n else n)
        | _ => inl ValueError
        end
      else inl ValueError
  | [] => inl ValueError
  end.

#[export] Instance runtime : Runtime :=
  {| json_dumps := dumps; json_loads := loads; int_of_str := int |}.
End Ref.

(** ** Concrete worlds used in the examples *)

Definition empty_world : world :=
  {| sessions := []; local_ip := "192.168.1.20"; webrtc_available := false;
     fs := []; rx := []; rx_end := None; tx_fail := None; trace := [] |}.

Definition regular (c : bytes) : fnode :=
  {| st_size := blen c; content := Some c |}.

Definition with_fs (w : world) (f : Dict.t fnode) : world :=
  {| sessions := sessions w; local_ip := local_ip w;
     webrtc_available := webrtc_available w; fs := f; rx := rx w;
     rx_end := rx_end w; tx_fail := tx_fail w; trace := trace w |}.

(** Two files of 10 and 16385 bytes. *)
Definition two_files : world :=
  with_fs empty_world
    [("/data/a.txt", regular (repeat "a"%byte 10));
     ("/data/b.bin", regular (repeat "b"%byte 16385))].

(** ** Vocabulary of the statements *)

(** The bytes still to arrive on the connection, whatever their
    segmentation. *)
Definition stream (w : world) : bytes := List.concat (rx w).

Definition with_rx (w : world) (segments : list bytes) : world := set_rx w segments.

(** The bytes a trace shows as sent on a socket, in order. *)
Fixpoint sent (s : sock) (tr : list event) : bytes :=
  match tr with
  | [] => []
  | SendAll s' data :: tr' =>
      match s, s' with
      | Client, Client | Server, Server | Probe, Probe
      | Discovery, Discovery => data ++ sent s tr'
      | _, _ => sent s tr'
      end
  | _ :: tr' => sent s tr'
  end.

(** The frame [_send_json] puts on the wire for [data]. *)
Definition frame_of {RT : Runtime} (data : value) : bytes :=
  let payload := encode (json_dumps data) in
  map z2b (Hashlib.be_bytes 4 (blen payload)) ++ payload.

(** Decoding what was encoded gives the value back (a property of the
    codec for the value at hand). *)
Definition round_trips {RT : Runtime} (data : value) : Prop :=
  exists text,
    decode (encode (json_dumps data)) = inr text /\
    json_loads text = inr data.

(** A metadata message for a session without files. *)
Definition hello : value :=
  VDict [("session_id", VStr "jt01"); ("files", VDict []);
         ("total_size", VInt 0)].

(** A file system of regular files: sizes are not negative and a file that
    can be read has as many bytes as [os.stat] reports. *)
Definition node_ok (n : fnode) : bool :=
  (0 <=? st_size n)
  && match content n with
     | Some c => blen c =? st_size n
     | None => true
     end.

Definition fs_ok (fsys : Dict.t fnode) : bool :=
  forallb (fun kv => node_ok (snd kv)) fsys.

(** The bytes [open(path, 'rb')] can deliver now. *)
Definition readable_size (fsys : Dict.t fnode) (path : string) : Z :=
  match Dict.get fsys path with
  | Some {| content := Some c |} => blen c
  | _ => 0
  end.

Definition to_send (fsys : Dict.t fnode) (entries : Dict.t file_info) : Z :=
  fold_right Z.add 0
             (map (fun kv => readable_size fsys (fi_path (snd kv))) entries).

(** Every progress call of a trace reports [num] within [lo..hi] out of
    [total]. *)
Definition progress_within (lo hi total : Z) (tr : list event) : Prop :=
  forall num den msg,
    In (Progress num den msg) tr -> lo <= num <= hi /\ den = total.

(** [open(path, 'rb')] succeeds. *)
Definition can_read (fsys : Dict.t fnode) (path : string) : bool :=
  match Dict.get fsys path with
  | Some {| content := Some _ |} => true
  | _ => false
  end.

(** A trace without progress calls. *)
Definition quiet (tr : list event) : Prop :=
  forall num den msg, ~ In (Progress num den msg) tr.

Definition entries_sum (entries : Dict.t file_info) : Z :=
  fold_right Z.add 0 (map (fun kv => fi_size (snd kv)) entries).

(** A network that lets the sender through. *)
Definition open_network : send_env :=
  {| bind_result := None; accept_result := None |}.

(** A session over one existing zero-byte file. *)
Definition zero_byte_world : world :=
  snd (create_session "jt01" ["/data/empty.txt"]
         (with_fs empty_world [("/data/empty.txt", regular [])])).

(** A session over one 10-byte file. *)
Definition ten_byte_world : world :=
  snd (create_session "jt01" ["/data/a.txt"]
         (with_fs empty_world [("/data/a.txt", regular (repeat "a"%byte 10))])).

(** Every entry is no smaller than what its file can deliver, and the
    entries together are no larger than [total_size]. *)
Definition entries_ok (fsys : Dict.t fnode) (s : TransferSession) : Prop :=
  (forall kv, In kv (file_metadata s) ->
              0 <= fi_size (snd kv) /\
              readable_size fsys (fi_path (snd kv)) <= fi_size (snd kv)) /\
  entries_sum (file_metadata s) <= total_size s.

(** Counting the datagrams sent and the receive calls of a trace. *)
Definition is_sendto (e : event) : bool :=
  match e with SendTo _ _ _ _ => true | _ => false end.
Definition is_recvfrom (e : event) : bool :=
  match e with RecvFrom _ _ => true | _ => false end.
Definition sends (tr : list event) : nat := List.length (filter is_sendto tr).
Definition receives (tr : list event) : nat :=
  List.length (filter is_recvfrom tr).

(** The reply to a discovery probe is a well-formed [session_response] for
    [sid] advertising [endpoint] ([VNone] when the key is absent). *)
Definition matching_reply {RT : Runtime} (env : probe_env) (sid : string)
           (endpoint : value) : Prop :=
  exists data text response ty rid,
    probe_reply env = inr data /\
    decode (take 1024 data) = inr text /\
    json_loads text = inr response /\
    py_get response "type" = inr ty /\ eq_str ty "session_response" = true /\
    py_get response "session_id" = inr rid /\ eq_str rid sid = true /\
    py_get response "endpoint" = inr endpoint.

(** The probe [discover_session] broadcasts for [sid]. *)
Definition probe_datagram {RT : Runtime} (sid : string) : bytes :=
  encode (json_dumps (VDict [("type", VStr "session_discovery");
                             ("session_id", VStr sid)])).

(** A well-formed discovery query for [sid], as [discover_session] sends
    it. *)
Definition query_for (sid : string) : bytes :=
  encode (Ref.dumps (VDict [("type", VStr "session_discovery");
                            ("session_id", VStr sid)])).

(** The reply of the discovery server for a session it holds. *)
Definition response_for {RT : Runtime} (w : world) (sid : value) : bytes :=
  encode (json_dumps
            (VDict [("type", VStr "session_response"); ("session_id", sid);
                    ("endpoint",
                     VStr (String.append (local_ip w)
                             (String.append ":" (str_of_int transfer_port))))])).

(** The world once [_receive_files_direct] has connected to [host:port]. *)
Definition connected (w : world) (host : string) (port : Z) : world :=
  set_trace w
    (trace w ++
     (if webrtc_available w
      then [Log Info "WebRTC receiving not yet implemented - falling back to direct transfer"]
      else []) ++
     [SockOpen Client; SetTimeout Client 30; Connect Client host port;
      Log Info "P2P: Connected to sender at {endpoint}"]).

(** A sender at 192.168.1.20 answers the probe for [jt01]; connecting,
    creating the directory and opening files succeed. *)
Definition answering : recv_env :=
  {| probe :=
       {| probe_socket := None; probe_sendto := None;
          probe_reply :=
            inr (encode (Ref.dumps
                   (VDict [("type", VStr "session_response");
                           ("session_id", VStr "jt01");
                           ("endpoint", VStr "192.168.1.20:45679")]))) |};
     connect_result := None;
     mkdir_result := None;
     open_result := fun _ => None |}.

(** Metadata announcing one file of five bytes. *)
Definition one_file_of_five (sid : string) : value :=
  VDict [("session_id", VStr sid);
         ("files",
          VDict [("0cc175b9c0f1b6a831c399e269772661",
                  VDict [("path", VStr "/data/a.txt"); ("name", VStr "a.txt");
                         ("size", VInt 5); ("chunks", VInt 1);
                         ("checksum", VStr "5d41402abc4b2a76b9719d911017c592")])]);
         ("total_size", VInt 5)].

(** The sender's stream: the metadata frame, two of the five bytes, then
    the connection closes. *)
Definition truncated_stream (sid : string) : world :=
  with_rx empty_world
    [@frame_of Ref.runtime (one_file_of_five sid); encode "he"].

(** One existing empty file. *)
Definition empty_file_world : world :=
  with_fs empty_world [("/downloads/empty.bin", regular [])].

(** A 10-byte file whose name holds the byte 0xFF, which no UTF-8 text
    contains. *)
Definition raw_name : string :=
  String.append "/data/" (String "255"%char ".txt").

Definition raw_name_world : world :=
  with_fs empty_world [(raw_name, regular (repeat "a"%byte 10))].

(** Two files of one name in two directories, and a session over both. *)
Definition same_name_files : world :=
  with_fs empty_world
    [("/a/x.txt", regular (encode "first"));
     ("/b/x.txt", regular (encode "second"))].

Definition same_name_world : world :=
  snd (create_session "jt01" ["/a/x.txt"; "/b/x.txt"] same_name_files).

(** The key of a file in [file_metadata]: the MD5 of its path. *)
Definition file_id (path : string) : string :=
  Hashlib.MD5.hexdigest (encode path).

(** The path can be encoded: its bytes are well-formed UTF-8. *)
Definition encodable (path : string) : bool :=
  match str_encode path with inr _ => true | inl _ => false end.

(** Every listed path that exists can be encoded. *)
Definition hashable (fsys : Dict.t fnode) (fl : list string) : bool :=
  forallb (fun p => negb (Dict.mem fsys p) || encodable p) fl.

(** What [os.stat] reports for a listed path (0 for a missing one). *)
Definition size_of (fsys : Dict.t fnode) (path : string) : Z :=
  match Dict.get fsys path with
  | Some node => st_size node
  | None => 0
  end.

(** The file exists but cannot be opened for reading. *)
Definition unreadable (fsys : Dict.t fnode) (path : string) : Prop :=
  exists node, Dict.get fsys path = Some node /\ content node = None.

Definition zsum (l : list Z) : Z := fold_right Z.add 0 l.

(** The metadata record [_calculate_metadata] builds for a listed path. *)
Definition built (fsys : Dict.t fnode) (todo : list string)
           (k : string) (fi : file_info) : Prop :=
  exists p node,
    In p todo /\ Dict.get fsys p = Some node /\ k = file_id p /\
    fi_path fi = p /\ fi_name fi = basename p /\
    fi_size fi = st_size node /\ fi_chunks fi = st_size node / 8192 + 1.

(** A world reached by reading from the connection: only the stream and the
    trace have changed. *)
Definition read_on (w w' : world) : Prop :=
  sessions w' = sessions w /\ fs w' = fs w /\ rx_end w' = rx_end w /\
  tx_fail w' = tx_fail w /\ local_ip w' = local_ip w /\
  webrtc_available w' = webrtc_available w.

(** * Further code of the repository

    ** [utils.py]: file names, share URLs, NFC payloads, session ids *)

(** [s.replace(old, new)] for single characters. *)
Fixpoint replace_char (old new : ascii) (s : string) : string :=
  match s with
  | EmptyString => EmptyString
  | String c s' =>
      String (if Ascii.eqb c old then new else c) (replace_char old new s')
  end.

(** The nine characters of [invalid_chars] in the source: less-than,
    greater-than, colon, double quote, slash, backslash, bar, question mark
    and star. *)
Definition invalid_chars : list ascii :=
  ["<"; ">"; ":"; "034"; "/"; "\"; "|"; "?"; "*"]%char.

Definition in_chars (set : list ascii) (c : ascii) : bool :=
  existsb (Ascii.eqb c) set.

(** [s.lstrip(chars)], [s.rstrip(chars)] and [s.strip(chars)]. *)
Fixpoint lstrip (set : list ascii) (s : list ascii) : list ascii :=
  match s with
  | c :: s' => if in_chars set c then lstrip set s' else s
  | [] => []
  end.

Definition rstrip (set : list ascii) (s : list ascii) : list ascii :=
  rev (lstrip set (rev s)).

Definition strip (set : list ascii) (s : string) : string :=
  string_of_list_ascii (rstrip set (lstrip set (list_ascii_of_string s))).

Definition sanitize_filename (filename : string) : string :=
  let sanitized :=
    fold_left (fun acc char => replace_char char "_"%char acc)
              invalid_chars filename in
  let sanitized := strip [" "; "."]%char sanitized in
  if String.eqb sanitized "" then "unnamed_file" else sanitized.

(** [s.split(sep)] for a single character. *)
Fixpoint split_on (sep : ascii) (s : string) : list string :=
  match s with
  | EmptyString => [EmptyString]
  | String c s' =>
      if Ascii.eqb c sep then EmptyString :: split_on sep s'
      else match split_on sep s' with
           | [] => [String c EmptyString]
           | h :: t => String c h :: t
           end
  end.

(** [s.split(sep, 1)] when [sep] occurs in [s]: what precedes the first
    occurrence and what follows it. *)
Fixpoint split_first (sep : ascii) (s : string) : option (string * string) :=
  match s with
  | EmptyString => None
  | String c s' =>
      if Ascii.eqb c sep then Some (EmptyString, s')
      else match split_first sep s' with
           | Some (k, v) => Some (String c k, v)
           | None => None
           end
  end.

Definition create_share_url (session_id app_name : string) : string :=
  String.append "justtouch://share?session="
    (String.append session_id (String.append "&app=" app_name)).

(** The loop over the parameters of [parse_share_url]. *)
Fixpoint collect_params (items : list string) (params : Dict.t string)
  : Dict.t string :=
  match items with
  | [] => params
  | param :: rest =>
      match split_first "="%char param with          (* if "=" in param *)
      | Some (key, value) => collect_params rest (Dict.set params key value)
      | None => collect_params rest params
      end
  end.

(** None of its operations can raise on a [str]; the [except] branch is
    unreachable and left out. *)
Definition parse_share_url (url : string) : option (Dict.t string) :=
  if negb (String.prefix "justtouch://" url) then None
  else match split_on "?"%char url with
       | [_; query] => Some (collect_params (split_on "&"%char query) [])
       | _ => None
       end.

(** [create_nfc_payload], for a text that has an encoding: the language
    must be ASCII and the status byte a byte; otherwise the error is logged
    and the empty payload returned. *)
Definition create_nfc_payload (text language : string) : M bytes :=
  try_
    (lang_bytes <-
       (if forallb (fun b => b2z b <? 128) (encode language)
        then ret (encode language) else raise ValueError) ;;
     let text_bytes := encode text in
     let status_byte := Z.lor 2 (blen lang_bytes) in
     status <- (if (0 <=? status_byte) && (status_byte <? 256)
                then ret [z2b status_byte] else raise ValueError) ;;
     ret (status ++ lang_bytes ++ text_bytes))
    (fun _ => log Error "Error creating NFC payload: {e}" ;; ret []).

Definition extract_nfc_data (nfc_payload : bytes) : M (option string) :=
  try_
    (if blen nfc_payload <? 3 then ret None
     else
       let lang_length := b2z (nth 1 nfc_payload x00) in
       if blen nfc_payload <? 2 + lang_length then ret None
       else
         let text_start := 2 + lang_length in
         text_data <- lift (decode (drop text_start nfc_payload)) ;;
         ret (Some text_data))
    (fun _ => log Error "Error extracting NFC data: {e}" ;; ret None).

(** The first [n] characters of a [str]: a character of the UTF-8 text
    starts at every byte that is not a continuation byte. *)
Definition is_continuation (c : ascii) : bool :=
  let n := nat_of_ascii c in (Nat.leb 128 n && Nat.ltb n 192)%bool.

Fixpoint skip_continuation (s : string) : string :=
  match s with
  | String c s' => if is_continuation c then skip_continuation s' else s
  | EmptyString => EmptyString
  end.

Fixpoint keep_continuation (s : string) : string :=
  match s with
  | String c s' =>
      if is_continuation c then String c (keep_continuation s') else EmptyString
  | EmptyString => EmptyString
  end.

Fixpoint str_take (n : nat) (s : string) : string :=
  match n, s with
  | O, _ => EmptyString
  | _, EmptyString => EmptyString
  | S n', String c s' =>
      String c (String.append (keep_continuation s')
                              (str_take n' (skip_continuation s')))
  end.

(** [generate_session_id], given what [time.time()], [secrets.token_hex(8)]
    and [uuid.uuid4()] returned. *)
Definition generate_session_id (now : Z) (random_bytes uuid4 : string)
  : string :=
  let timestamp := str_of_int now in
  let unique_id := str_take 8 uuid4 in
  let combined :=
    String.append timestamp
      (String.append "-" (String.append random_bytes
                            (String.append "-" unique_id))) in
  let session_hash :=
    str_take 16 (Hashlib.SHA256.hexdigest (encode combined)) in
  String.append "jt" session_hash.

(** [f.read(n)] on the unread bytes [f] of a file opened with [open(_,
    'rb')], a buffered reader: at most [n] bytes; everything for [n = -1];
    any other negative size is refused with [ValueError]. *)
Definition file_read (n : Z) (f : bytes) : exn + (bytes * bytes) :=
  if n <? -1 then inl ValueError
  else if n <? 0 then inr (f, [])
  else inr (take n f, drop n f).

(** The chunks [chunk_file] yields before it stops. A read is refused for
    its size alone, so at the first read or never: a run that raises has
    yielded nothing before. *)
Fixpoint chunk_loop (fuel : nat) (chunk_size : Z) (f : bytes)
  : exn + list bytes :=
  match fuel with
  | O => inr []
  | S fuel' =>
      match file_read chunk_size f with
      | inl e => inl e
      | inr ([], _) => inr []                              (* break *)
      | inr (chunk, rest) =>
          match chunk_loop fuel' chunk_size rest with
          | inl e => inl e
          | inr chunks => inr (chunk :: chunks)            (* yield chunk *)
          end
      end
  end.

Definition chunk_file (file_path : string) (chunk_size : Z) : M (list bytes) :=
  try_
    (f <- read_file file_path ;;
     lift (chunk_loop (S (List.length f)) chunk_size f))
    (fun e => log Error "Error reading file {file_path}: {e}" ;; raise e).

(** ** Vocabulary of the further statements *)

Fixpoint smap (f : ascii -> ascii) (s : string) : string :=
  match s with
  | EmptyString => EmptyString
  | String c s' => String (f c) (smap f s')
  end.

Definition chars (s : string) : list ascii := list_ascii_of_string s.

(** [c in s]. *)
Definition contains (c : ascii) (s : string) : bool :=
  existsb (Ascii.eqb c) (chars s).

Definition hex_chars : list ascii :=
  ["0";"1";"2";"3";"4";"5";"6";"7";"8";"9";"a";"b";"c";"d";"e";"f"]%char.

(** Every chunk but the last has exactly [size] bytes; the last has between
    one and [size]. *)
Fixpoint full_but_last (size : Z) (cs : list bytes) : Prop :=
  match cs with
  | [] => True
  | c :: rest =>
      match rest with
      | [] => 0 < blen c <= size
      | _ :: _ => blen c = size /\ full_but_last size rest
      end
  end.

(** The keys of a dict, and a registry whose keys are distinct, as the
    keys of a Python dict are. *)
Definition keys {V : Type} (d : Dict.t V) : list string := map fst d.

Definition distinct_keys {V : Type} (d : Dict.t V) : Prop := NoDup (keys d).

(** The bytes of a file that can be read (nothing otherwise), and the
    contents of the files of a metadata table, in its order. *)
Definition content_of (fsys : Dict.t fnode) (path : string) : bytes :=
  match Dict.get fsys path with
  | Some {| content := Some c |} => c
  | _ => []
  end.

Definition payload (fsys : Dict.t fnode) (entries : Dict.t file_info) : bytes :=
  List.concat (map (fun kv => content_of fsys (fi_path (snd kv))) entries).

(** A progress callback that can be called: it returns, and the total it
    is given a share of is not zero. *)
Definition callback_ok (cb : option callback) (total : Z) : Prop :=
  match cb with
  | None => True
  | Some f => total <> 0 /\ forall num den msg, f num den msg = true
  end.

(** Every file of the table can be read and holds no more than the table
    says. *)
Definition files_intact (fsys : Dict.t fnode) (entries : Dict.t file_info)
  : Prop :=
  forall kv, In kv entries ->
    can_read fsys (fi_path (snd kv)) = true /\
    blen (content_of fsys (fi_path (snd kv))) <= fi_size (snd kv).

(** The session registered under [sid] (an empty one when there is none). *)
Definition session_of (w : world) (sid : string) : TransferSession :=
  match Dict.get (sessions w) sid with
  | Some s => s
  | None => {| session_id := sid; files := []; file_metadata := [];
               total_size := 0; transferred_size := 0; is_active := false |}
  end.

(** What a trace shows as written to files: the bytes written to the file
    open at its start (up to the next [open]), and every file opened with
    the bytes written to it. *)
Fixpoint written_bytes (tr : list event) : bytes :=
  match tr with
  | [] => []
  | Write data :: tr' => data ++ written_bytes tr'
  | OpenWrite _ _ :: _ => []
  | _ :: tr' => written_bytes tr'
  end.

Fixpoint written (tr : list event) : list (string * string * bytes) :=
  match tr with
  | [] => []
  | OpenWrite dir name :: tr' => (dir, name, written_bytes tr') :: written tr'
  | _ :: tr' => written tr'
  end.

(** The file [name] of directory [dir] after the opens and writes [ws]:
    [open(path, 'wb')] creates the file or empties it, and the file then
    holds what is written until the next [open]; of two opens of one name
    the later decides. *)
Fixpoint file_after (ws : list (string * string * bytes)) (dir name : string)
  : option bytes :=
  match ws with
  | [] => None
  | (d, n, c) :: rest =>
      match file_after rest dir name with
      | Some c' => Some c'
      | None => if String.eqb d dir && String.eqb n name then Some c else None
      end
  end.

Definition is_open (e : event) : bool :=
  match e with OpenWrite _ _ => true | _ => false end.
Definition is_write (e : event) : bool :=
  match e with Write _ => true | _ => false end.
Definition no_open (tr : list event) : bool :=
  forallb (fun e => negb (is_open e)) tr.
Definition no_file (tr : list event) : bool :=
  forallb (fun e => negb (is_open e) && negb (is_write e)) tr.

(** The consecutive pieces of [data] the metadata table announces: for each
    entry its name and as many bytes as its size. *)
Fixpoint slices (dir : string) (entries : Dict.t file_info) (data : bytes)
  : list (string * string * bytes) :=
  match entries with
  | [] => []
  | (_, fi) :: rest =>
      (dir, fi_name fi, take (fi_size fi) data)
        :: slices dir rest (drop (fi_size fi) data)
  end.

(** Every file of the table can be read and holds exactly the bytes the
    table says. *)
Definition files_unchanged (fsys : Dict.t fnode) (entries : Dict.t file_info)
  : Prop :=
  forall kv, In kv entries ->
    can_read fsys (fi_path (snd kv)) = true /\
    blen (content_of fsys (fi_path (snd kv))) = fi_size (snd kv).

(** The two messages of the discovery protocol, as values. *)
Definition discovery_query (sid : string) : value :=
  VDict [("type", VStr "session_discovery"); ("session_id", VStr sid)].

Definition discovery_reply (w : world) (sid : string) : value :=
  VDict [("type", VStr "session_response"); ("session_id", VStr sid);
         ("endpoint",
          VStr (String.append (local_ip w)
                  (String.append ":" (str_of_int transfer_port))))].

(** An arrival the discovery listener has nothing to do for: a timeout, a
    datagram whose text is not JSON, or a well-formed query for a session
    that is not registered. *)
Definition harmless {RT : Runtime} (w : world) (a : arrival) : Prop :=
  match a with
  | Idle => True
  | Datagram data _ _ =>
      exists text,
        decode (take 1024 data) = inr text /\
        (json_loads text = inl JSONDecodeError \/
         exists sid,
           json_loads text = inr (discovery_query sid) /\
           Dict.mem (sessions w) sid = false)
  | Broken _ | Stopped => False
  end.

(** The bytes the send loop is prepared to send for an announced size: it
    reads 8192 bytes at a time until the count reaches the size. *)
Definition wire_amount (size : Z) : Z :=
  if size <=? 0 then 0 else 8192 * ((size + 8191) / 8192).

(** ** [file_manager.py]: safe and unique file names *)

(** A [str] as its characters: every byte that is not a continuation byte
    starts one. *)
Definition starts_with_continuation (s : string) : bool :=
  match s with
  | String d _ => is_continuation d
  | EmptyString => false
  end.

Fixpoint code_points (s : string) : list string :=
  match s with
  | EmptyString => []
  | String c s' =>
      match code_points s' with
      | h :: t =>
          if starts_with_continuation s' then String c h :: t
          else String c EmptyString :: h :: t
      | [] => [String c EmptyString]
      end
  end.

(** [len(s)] and [s[:k]] (a negative [k] counts from the end). *)
Definition py_len (s : string) : Z := Z.of_nat (List.length (code_points s)).

Definition str_concat (l : list string) : string :=
  fold_right String.append EmptyString l.

Definition py_slice_to (k : Z) (s : string) : string :=
  let cp := code_points s in
  let n := if k <? 0 then Z.max 0 (Z.of_nat (List.length cp) + k) else k in
  str_concat (firstn (Z.to_nat n) cp).

(** [s.rfind(c)] for a single character. *)
Fixpoint rfind (c : ascii) (l : list ascii) : option nat :=
  match l with
  | [] => None
  | x :: l' =>
      match rfind c l' with
      | Some i => Some (S i)
      | None => if Ascii.eqb x c then Some O else None
      end
  end.

(** [os.path.splitext]: the extension starts at the last dot of the last
    component, unless only dots precede it there. *)
Definition splitext (p : string) : string * string :=
  let l := list_ascii_of_string p in
  let start := match rfind "/" l with Some i => S i | None => O end in
  match rfind "." l with
  | Some dot =>
      if Nat.leb start dot then
        if forallb (fun c => Ascii.eqb c ".") (firstn (dot - start) (skipn start l))
        then (p, EmptyString)
        else (string_of_list_ascii (firstn dot l),
              string_of_list_ascii (skipn dot l))
      else (p, EmptyString)
  | None => (p, EmptyString)
  end.

Definition get_safe_filename (filename : string) : string :=
  let safe_filename :=
    fold_left (fun acc char => replace_char char "_"%char acc)
              invalid_chars filename in
  if 255 <? py_len safe_filename then
    let '(name, ext) := splitext safe_filename in
    String.append (py_slice_to (255 - py_len ext) name) ext
  else safe_filename.

(** [os.path.join(directory, name)] for a [name] that is not absolute. *)
Definition path_join (directory name : string) : string :=
  if String.eqb directory "" then name
  else if String.eqb (substring (String.length directory - 1) 1 directory) "/"
       then String.append directory name
       else String.append directory (String.append "/" name).

Definition path_exists (w : world) (path : string) : bool :=
  Dict.mem (fs w) path.

(** The [while True] loop of [get_unique_filename]: [tries] counters from
    [counter] on, then the timestamp. *)
Fixpoint unique_loop (tries : nat) (w : world) (directory name ext : string)
         (counter now : Z) : string :=
  match tries with
  | O => String.append name (String.append "_" (String.append (str_of_int now) ext))
  | S tries' =>
      let new_filename :=
        String.append name
          (String.append "_" (String.append (str_of_int counter) ext)) in
      if negb (path_exists w (path_join directory new_filename))
      then new_filename
      else unique_loop tries' w directory name ext (counter + 1) now
  end.

(** [get_unique_filename], given what [time.time()] would return. *)
Definition get_unique_filename (w : world) (directory filename : string)
           (now : Z) : string :=
  let safe_filename := get_safe_filename filename in
  if negb (path_exists w (path_join directory safe_filename))
  then safe_filename
  else
    let '(name, ext) := splitext safe_filename in
    unique_loop 9999 w directory name ext 1 now.




(** The candidate names of [get_unique_filename]. *)
Definition candidate (name ext : string) (i : Z) : string :=
  String.append name (String.append "_" (String.append (str_of_int i) ext)).
(** * Properties *)

(** ** hashlib test vectors *)

Example md5_empty :
  Hashlib.MD5.hexdigest [] = "d41d8cd98f00b204e9800998ecf8427e"%string.
Proof. vm_compute. reflexivity. Qed.

Example md5_abc :
  Hashlib.MD5.hexdigest (encode "abc") = "900150983cd24fb0d6963f7d28e17f72"%string.
Proof. vm_compute. reflexivity. Qed.

Example md5_two_blocks :
  Hashlib.MD5.hexdigest (repeat "a"%byte 70)
  = "0f5c6c4e740bfcc08c3c26ccb2673d46"%string.
Proof. vm_compute. reflexivity. Qed.

Example sha256_abc :
  Hashlib.SHA256.hexdigest (encode "abc")
  = "ba7816bf8f01cfea414140de5dae2223b00361a396177a9cb410ff61f20015ad"%string.
Proof. vm_compute. reflexivity. Qed.

Example sha256_two_blocks :
  Hashlib.SHA256.hexdigest (repeat "a"%byte 70)
  = "6bd5e5034855a11241f0dee8fc72850ffd9955b28347a86428b5fa19119f6ad0"%string.
Proof. vm_compute. reflexivity. Qed.

(** ** Dictionaries *)

Section DictFacts.
Context {V : Type}.
Implicit Types (d : Dict.t V) (k : string) (v : V).

Lemma get_set_same d k v : Dict.get (Dict.set d k v) k = Some v.
Proof.
  induction d as [|[k' v'] d IH]; simpl.
  - now rewrite String.eqb_refl.
  - destruct (String.eqb k k') eqn:E; simpl; rewrite E; auto.
Qed.

Lemma get_set_other d k k' v :
  k' <> k -> Dict.get (Dict.set d k v) k' = Dict.get d k'.
Proof.
  intros N. induction d as [|[k0 v0] d IH]; simpl.
  - destruct (String.eqb k' k) eqn:E; auto.
    apply String.eqb_eq in E. contradiction.
  - destruct (String.eqb k k0) eqn:E; simpl.
    + apply String.eqb_eq in E. subst k0.
      destruct (String.eqb k' k) eqn:E'; auto.
      apply String.eqb_eq in E'. contradiction.
    + destruct (String.eqb k' k0); auto.
Qed.

Lemma in_set d k v k' v' :
  In (k', v') (Dict.set d k v) -> (k' = k /\ v' = v) \/ In (k', v') d.
Proof.
  induction d as [|[k0 v0] d IH]; simpl.
  - intros [E|[]]. inversion E. auto.
  - destruct (String.eqb k k0) eqn:E; simpl.
    + apply String.eqb_eq in E. subst k0.
      intros [H|H]; [inversion H; auto | auto].
    + intros [H|H]; [auto | destruct (IH H); auto].
Qed.

Lemma mem_set_same d k v : Dict.mem (Dict.set d k v) k = true.
Proof. unfold Dict.mem. now rewrite get_set_same. Qed.

Lemma mem_set_mono d k v k' :
  Dict.mem d k' = true -> Dict.mem (Dict.set d k v) k' = true.
Proof.
  unfold Dict.mem. intros H.
  destruct (String.eqb k' k) eqn:E.
  - apply String.eqb_eq in E. subst. now rewrite get_set_same.
  - apply String.eqb_neq in E. now rewrite get_set_other.
Qed.

Lemma get_in d k v : Dict.get d k = Some v -> In (k, v) d.
Proof.
  induction d as [|[k0 v0] d IH]; simpl; [discriminate|].
  destruct (String.eqb k k0) eqn:E.
  - apply String.eqb_eq in E. intros [= ->]. subst. auto.
  - auto.
Qed.
End DictFacts.

(** ** Session construction *)

Lemma read_file_run path w :
  (exists c node,
      Dict.get (fs w) path = Some node /\ content node = Some c /\
      read_file path w = (inr c, set_trace w (trace w ++ [OpenRead path])))
  \/ ((Dict.get (fs w) path = None \/ unreadable (fs w) path) /\
      read_file path w = (inl OSError, w)).
Proof.
  unfold read_file, bind, get_world, unreadable.
  destruct (Dict.get (fs w) path) as [[sz [c|]]|] eqn:E; simpl.
  - left. exists c, {| st_size := sz; content := Some c |}. auto.
  - right. split; auto. right. eexists. split; eauto.
  - right. auto.
Qed.

Lemma checksum_run path w :
  exists c tr,
    _calculate_file_checksum path w = (inr c, set_trace w (trace w ++ tr)) /\
    (forall l msg, In (Log l msg) tr ->
                   Dict.get (fs w) path = None \/ unreadable (fs w) path).
Proof.
  unfold _calculate_file_checksum, try_, bind.
  destruct (read_file_run path w) as [(c & node & G & C & ->)|[U ->]]; simpl.
  - eexists _, [OpenRead path]. split; [reflexivity|].
    intros l msg [H|[]]. discriminate.
  - eexists _, [_]. split; [reflexivity|]. auto.
Qed.

Lemma built_cons fsys p todo k fi :
  built fsys todo k fi -> built fsys (p :: todo) k fi.
Proof.
  intros (q & node & I & R). exists q, node. split; [now right | exact R].
Qed.

Lemma set_trace_twice w t1 t2 :
  set_trace (set_trace w (trace w ++ t1))
            (trace (set_trace w (trace w ++ t1)) ++ t2)
  = set_trace w (trace w ++ t1 ++ t2).
Proof. unfold set_trace; simpl. now rewrite app_assoc. Qed.

Lemma hashable_spec (fsys : Dict.t fnode) (fl : list string) :
  hashable fsys fl = true <->
  (forall p, In p fl -> Dict.mem fsys p = true -> encodable p = true).
Proof.
  unfold hashable. rewrite forallb_forall. split; intros H p I.
  - intros M. specialize (H p I). rewrite M in H. exact H.
  - destruct (Dict.mem fsys p) eqn:M; [|reflexivity].
    cbn [negb orb]. now apply H.
Qed.

Lemma encodable_run (p : string) :
  encodable p = true -> str_encode p = inr (encode p).
Proof.
  unfold encodable, str_encode, encode. cbv zeta.
  now destruct (utf8_valid _ _).
Qed.

Lemma not_encodable_run (p : string) :
  encodable p = false -> str_encode p = inl UnicodeEncodeError.
Proof.
  unfold encodable, str_encode. cbv zeta.
  now destruct (utf8_valid _ _).
Qed.

Lemma calculate_metadata_run todo :
  forall self w,
  hashable (fs w) todo = true ->
  exists s' tr,
    _calculate_metadata todo self w = (inr s', set_trace w (trace w ++ tr)) /\
    session_id s' = session_id self /\
    transferred_size s' = transferred_size self /\
    total_size s' = total_size self + zsum (map (size_of (fs w)) todo) /\
    (forall k fi, In (k, fi) (file_metadata s') ->
                  In (k, fi) (file_metadata self) \/ built (fs w) todo k fi) /\
    (forall k, Dict.mem (file_metadata self) k = true ->
               Dict.mem (file_metadata s') k = true) /\
    (forall p, In p todo -> Dict.mem (fs w) p = true ->
               Dict.mem (file_metadata s') (file_id p) = true) /\
    (forall l msg, In (Log l msg) tr ->
                   exists p, In p todo /\ unreadable (fs w) p).
Proof.
  induction todo as [|p rest IH]; intros self w Hh.
  - exists self, []. simpl. unfold ret. rewrite app_nil_r, Z.add_0_r.
    repeat split; auto; try contradiction.
    now destruct w.
  - cbn [hashable forallb] in Hh. apply andb_prop in Hh.
    destruct Hh as [Hp Hh]. fold (hashable (fs w) rest) in Hh.
    simpl. unfold bind at 1, get_world at 1. unfold size_of at 1.
    destruct (Dict.get (fs w) p) as [node|] eqn:G.
    + unfold Dict.mem in Hp. rewrite G in Hp. cbn [negb orb] in Hp.
      rewrite (encodable_run p Hp). unfold bind at 1, lift at 1.
      cbv beta iota. unfold bind at 1.
      destruct (checksum_run p w) as (c & tr1 & -> & L1).
      set (info := {| fi_path := p; fi_name := basename p;
                      fi_size := st_size node;
                      fi_chunks := st_size node / 8192 + 1;
                      fi_checksum := c |}).
      destruct (IH (add_file self (Hashlib.MD5.hexdigest (encode p)) info)
                   (set_trace w (trace w ++ tr1)) Hh)
        as (s' & tr2 & -> & Hid & Htr & Htot & Hin & Hmono & Hmem & Hlog).
      exists s', (tr1 ++ tr2). rewrite set_trace_twice.
      simpl in *. repeat split; auto.
      * rewrite Htot. lia.
      * intros k fi I. destruct (Hin k fi I) as [I'|B].
        -- apply in_set in I'. destruct I' as [[-> ->]|I']; [|now left].
           right. exists p, node. simpl. repeat split; auto.
        -- right. now apply built_cons.
      * intros k M. apply Hmono. now apply mem_set_mono.
      * intros q [<-|I] E.
        -- apply Hmono. apply mem_set_same.
        -- now apply Hmem.
      * intros l msg I. apply in_app_or in I. destruct I as [I|I].
        -- exists p. split; [now left|].
           destruct (L1 l msg I) as [N|U]; [congruence | exact U].
        -- destruct (Hlog l msg I) as (q & Iq & U). exists q. auto.
    + destruct (IH self w Hh)
        as (s' & tr2 & -> & Hid & Htr & Htot & Hin & Hmono & Hmem & Hlog).
      exists s', tr2. repeat split; auto.
      * intros k fi I. destruct (Hin k fi I) as [I'|B]; [now left|].
        right. now apply built_cons.
      * intros q [<-|I] E; [|now apply Hmem].
        unfold Dict.mem in E. rewrite G in E. discriminate.
      * intros l msg I. destruct (Hlog l msg I) as (q & Iq & U).
        exists q. auto.
Qed.

Lemma init_is_calculate sid fl w :
  TransferSession_init sid fl w
  = _calculate_metadata fl
      {| session_id := sid; files := fl; file_metadata := [];
         total_size := 0; transferred_size := 0; is_active := false |} w.
Proof. now destruct fl. Qed.

(** The constructor stops at the first listed path that exists and cannot
    be encoded: the exception leaves it, and only the trace has grown. *)
Lemma calculate_metadata_fails todo :
  forall self w,
  hashable (fs w) todo = false ->
  exists tr,
    _calculate_metadata todo self w
    = (inl UnicodeEncodeError, set_trace w (trace w ++ tr)).
Proof.
  induction todo as [|p rest IH]; intros self w Hh; [discriminate|].
  cbn [hashable forallb] in Hh. fold (hashable (fs w) rest) in Hh.
  simpl. unfold bind at 1, get_world at 1.
  destruct (Dict.get (fs w) p) as [node|] eqn:G.
  - unfold Dict.mem in Hh. rewrite G in Hh. cbn [negb orb] in Hh.
    destruct (encodable p) eqn:Ep.
    + rewrite (encodable_run p Ep). unfold bind at 1, lift at 1.
      cbv beta iota. unfold bind at 1.
      destruct (checksum_run p w) as (c & tr1 & -> & _).
      destruct (IH (add_file self (Hashlib.MD5.hexdigest (encode p))
                      {| fi_path := p; fi_name := basename p;
                         fi_size := st_size node;
                         fi_chunks := st_size node / 8192 + 1;
                         fi_checksum := c |})
                   (set_trace w (trace w ++ tr1)) Hh) as (tr2 & ->).
      exists (tr1 ++ tr2). now rewrite set_trace_twice.
    + rewrite (not_encodable_run p Ep). exists [].
      unfold bind, lift. rewrite app_nil_r. now destruct w.
  - unfold Dict.mem in Hh. rewrite G in Hh. cbn [negb orb] in Hh.
    apply IH. exact Hh.
Qed.

(** What [create_session] does when every listed path that exists can be
    encoded. *)
Lemma create_session_run (w : world) (sid : string) (fl : list string) :
  hashable (fs w) fl = true ->
  exists s tr,
    create_session sid fl w
    = (inr true,
       set_trace (set_sessions w (Dict.set (sessions w) sid s))
                 (trace w ++ tr)) /\
    session_id s = sid /\
    transferred_size s = 0 /\
    total_size s = zsum (map (size_of (fs w)) fl) /\
    (forall k fi, In (k, fi) (file_metadata s) -> built (fs w) fl k fi) /\
    (forall p, In p fl -> Dict.mem (fs w) p = true ->
               Dict.mem (file_metadata s) (file_id p) = true) /\
    (forall msg, In (Log Error msg) tr ->
                 exists p, In p fl /\ unreadable (fs w) p).
Proof.
  intros Hh.
  unfold create_session, try_, bind at 1. rewrite init_is_calculate.
  destruct (calculate_metadata_run fl
              {| session_id := sid; files := fl; file_metadata := [];
                 total_size := 0; transferred_size := 0; is_active := false |}
              w Hh)
    as (s & tr & -> & Hid & Htr & Htot & Hin & _ & Hmem & Hlog).
  exists s, (tr ++ [Log Info "P2P: Created session {session_id} with {len(files)} files"]).
  simpl in *. unfold bind, log, emit, ret, set_trace, set_sessions; simpl.
  rewrite app_assoc. repeat split; auto.
  - intros k fi I. destruct (Hin k fi I) as [[]|B]. exact B.
  - intros msg I. apply in_app_or in I. destruct I as [I|[I|[]]].
    + eapply Hlog; eauto.
    + discriminate.
Qed.

(** And when one of them cannot: the exception of the constructor is
    logged, the result is false and the registry is as it was. *)
Lemma create_session_fails (w : world) (sid : string) (fl : list string) :
  hashable (fs w) fl = false ->
  exists tr,
    create_session sid fl w
    = (inr false,
       set_trace w (trace w ++ tr ++ [Log Error "Error creating session: {e}"])).
Proof.
  intros Hh.
  unfold create_session, try_, bind at 1. rewrite init_is_calculate.
  destruct (calculate_metadata_fails fl
              {| session_id := sid; files := fl; file_metadata := [];
                 total_size := 0; transferred_size := 0; is_active := false |}
              w Hh) as (tr & ->).
  exists tr. unfold bind, log, emit, ret, set_trace; simpl.
  now rewrite app_assoc.
Qed.

(** C4 (as the code has it). For every list of existing files whose paths
    can be encoded, [create_session] returns true and stores a session
    whose [total_size] is the sum of the listed files' sizes, with an entry
    for each listed file, each entry of size [s] carrying the chunk count
    [floor(s/8192)+1]; on two files of 10 and 16385 bytes the total is 16395
    and the chunk counts are 1 and 3. *)
Theorem create_session_total_and_chunks :
  (forall (w : world) (sid : string) (fl : list string),
      (forall p, In p fl -> Dict.mem (fs w) p = true) ->
      (forall p, In p fl -> encodable p = true) ->
      exists s w',
        create_session sid fl w = (inr true, w') /\
        Dict.get (sessions w') sid = Some s /\
        total_size s = zsum (map (size_of (fs w)) fl) /\
        (forall p, In p fl ->
                   Dict.mem (file_metadata s) (file_id p) = true) /\
        (forall k fi, In (k, fi) (file_metadata s) ->
                      fi_chunks fi = fi_size fi / 8192 + 1 /\
                      In (fi_path fi) fl /\
                      k = file_id (fi_path fi) /\
                      fi_size fi = size_of (fs w) (fi_path fi)))
  /\
  (exists s w',
      create_session "jt01" ["/data/a.txt"; "/data/b.bin"] two_files
      = (inr true, w') /\
      Dict.get (sessions w') "jt01" = Some s /\
      total_size s = 16395 /\
      map (fun kv => (fi_size (snd kv), fi_chunks (snd kv))) (file_metadata s)
      = [(10, 1); (16385, 3)]).
Proof.
  split.
  - intros w sid fl Hex Henc.
    destruct (create_session_run w sid fl)
      as (s & tr & -> & Hid & Htr & Htot & Hin & Hmem & Hlog).
    { apply hashable_spec. intros p I _. now apply Henc. }
    exists s. eexists. split; [reflexivity|]. simpl.
    rewrite get_set_same. split; [reflexivity|]. split; [exact Htot|].
    split; [intros p I; apply Hmem; auto|].
    intros k fi I.
    destruct (Hin k fi I) as (p & node & Ip & G & -> & <- & _ & Hs & Hc).
    unfold size_of. rewrite G. repeat split; auto. now rewrite Hc, Hs.
  - eexists. eexists. split; [vm_compute; reflexivity|].
    split; [vm_compute; reflexivity|]. split; vm_compute; reflexivity.
Qed.

Lemma create_session_total_and_chunks_witness :
  (forall p, In p ["/data/a.txt"; "/data/b.bin"] ->
             Dict.mem (fs two_files) p = true) /\
  (forall p, In p ["/data/a.txt"; "/data/b.bin"] -> encodable p = true) /\
  exists s w',
    create_session "jt01" ["/data/a.txt"; "/data/b.bin"] two_files
    = (inr true, w') /\
    Dict.get (sessions w') "jt01" = Some s /\
    total_size s
    = zsum (map (size_of (fs two_files)) ["/data/a.txt"; "/data/b.bin"]).
Proof.
  assert (H : forall p, In p ["/data/a.txt"; "/data/b.bin"] ->
                        Dict.mem (fs two_files) p = true).
  { intros p [<-|[<-|[]]]; reflexivity. }
  assert (H' : forall p, In p ["/data/a.txt"; "/data/b.bin"] ->
                         encodable p = true).
  { intros p [<-|[<-|[]]]; reflexivity. }
  split; [exact H|]. split; [exact H'|].
  destruct (proj1 create_session_total_and_chunks two_files "jt01" _ H H')
    as (s & w' & E & G & T & _).
  exists s, w'. auto.
Defined.

(** C4 as stated fails for an existing file whose path cannot be encoded:
    hashing the path raises before anything is recorded, the constructor is
    abandoned, and [create_session] logs the error, returns false and
    stores no session; no total is yielded for this list of one existing
    10-byte file. *)
Lemma create_session_unencodable_path_fails :
  let r := create_session "jt01" [raw_name] raw_name_world in
  Dict.mem (fs raw_name_world) raw_name = true /\
  size_of (fs raw_name_world) raw_name = 10 /\
  str_encode raw_name = inl UnicodeEncodeError /\
  fst r = inr false /\ fst r <> inr true /\
  Dict.get (sessions (snd r)) "jt01" = None /\
  trace (snd r) = [Log Error "Error creating session: {e}"].
Proof.
  vm_compute. repeat split; try reflexivity. discriminate.
Qed.

(** C3 (as the code has it). [create_session] never raises, and whether
    the listed paths exist plays no part in its result: it returns true
    exactly when every listed path that exists can be encoded
    ([hashable]; a list of missing paths always is). The session is then
    stored under its identifier, a path that does not exist is left out of
    [file_metadata], every path that exists has its entry, and an error is
    logged only for an existing file that cannot be read. When a listed
    path exists and cannot be encoded, the exception of the constructor is
    logged as the last line, the result is false and the registry is left
    as it was: the whole session is given up, not the one file. *)
Theorem create_session_omits_missing_files
        (w : world) (sid : string) (fl : list string) :
  exists w' tr,
    create_session sid fl w = (inr (hashable (fs w) fl), w') /\
    trace w' = trace w ++ tr /\
    if hashable (fs w) fl then
      exists s,
        Dict.get (sessions w') sid = Some s /\
        (forall k fi, In (k, fi) (file_metadata s) ->
                      In (fi_path fi) fl /\
                      Dict.mem (fs w) (fi_path fi) = true) /\
        (forall p, In p fl -> Dict.mem (fs w) p = true ->
                   Dict.mem (file_metadata s) (file_id p) = true) /\
        (forall msg, In (Log Error msg) tr ->
                     exists p, In p fl /\ unreadable (fs w) p)
    else
      sessions w' = sessions w /\
      (exists p, In p fl /\ Dict.mem (fs w) p = true /\ encodable p = false) /\
      exists tr0, tr = tr0 ++ [Log Error "Error creating session: {e}"].
Proof.
  destruct (hashable (fs w) fl) eqn:Hh.
  - destruct (create_session_run w sid fl Hh)
      as (s & tr & -> & Hid & Htr & Htot & Hin & Hmem & Hlog).
    eexists. exists tr. split; [reflexivity|]. split; [reflexivity|].
    exists s. simpl. rewrite get_set_same. repeat split; auto.
    + destruct (Hin k fi H) as (p & node & I & G & _ & <- & _). exact I.
    + destruct (Hin k fi H) as (p & node & I & G & _ & <- & _).
      unfold Dict.mem. now rewrite G.
  - destruct (create_session_fails w sid fl Hh) as (tr & ->).
    eexists. eexists. split; [reflexivity|]. split; [reflexivity|].
    split; [reflexivity|]. split; [|now exists tr].
    unfold hashable in Hh.
    assert (X : existsb (fun p => negb (negb (Dict.mem (fs w) p) || encodable p))
                        fl = true).
    { clear - Hh. induction fl as [|p fl IH]; [discriminate|].
      cbn [forallb existsb] in *.
      destruct (negb (Dict.mem (fs w) p) || encodable p); cbn [negb orb andb] in *;
        auto. }
    apply existsb_exists in X. destruct X as (p & I & X).
    exists p. split; [exact I|].
    destruct (Dict.mem (fs w) p), (encodable p); try discriminate. auto.
Qed.

(** C3 as stated fails: with a listed path that does not exist the call
    returns true, not false; the session is stored with no metadata and
    nothing is logged at error level. *)
Lemma create_session_missing_path_returns_true :
  let r := create_session "jt01" ["/no/such/file"] empty_world in
  Dict.mem (fs empty_world) "/no/such/file" = false /\
  fst r = inr true /\ fst r <> inr false /\
  option_map file_metadata (Dict.get (sessions (snd r)) "jt01") = Some [] /\
  trace (snd r)
  = [Log Info "P2P: Created session {session_id} with {len(files)} files"].
Proof.
  vm_compute. repeat split; try reflexivity. discriminate.
Qed.

(** ** Stream sockets *)

Lemma blen_nonneg (bs : bytes) : 0 <= blen bs.
Proof. unfold blen. lia. Qed.

Lemma blen_app (a b : bytes) : blen (a ++ b) = blen a + blen b.
Proof. unfold blen. rewrite length_app. lia. Qed.

Lemma take_drop {A : Type} (n : Z) (l : list A) : take n l ++ drop n l = l.
Proof. apply firstn_skipn. Qed.

Lemma blen_take (n : Z) (bs : bytes) :
  0 <= n -> blen (take n bs) = Z.min n (blen bs).
Proof. intros H. unfold blen, take. rewrite length_firstn. lia. Qed.

Lemma concat_drop_empty (r : list bytes) : List.concat (drop_empty r) = List.concat r.
Proof. induction r as [|[|b s] r IH]; simpl; auto. Qed.

Lemma drop_empty_head (r : list bytes) seg rest :
  drop_empty r = seg :: rest -> seg <> [].
Proof.
  induction r as [|[|b s] r IH]; simpl; try discriminate; auto.
  intros [= <- <-]. discriminate.
Qed.

Lemma read_on_refl w : read_on w w.
Proof. unfold read_on. auto 10. Qed.

Lemma read_on_trans w1 w2 w3 : read_on w1 w2 -> read_on w2 w3 -> read_on w1 w3.
Proof. unfold read_on. intuition congruence. Qed.

(** [recv] with data at hand: a non-empty piece of the stream, no longer
    than asked for, taken from its front. *)
Lemma recv_data (s : sock) (n : Z) (w : world) :
  0 < n -> stream w <> [] ->
  exists chunk w',
    recv s n w = (inr chunk, w') /\
    chunk <> [] /\ blen chunk <= n /\
    stream w = chunk ++ stream w' /\
    (forall seg rest, drop_empty (rx w) = seg :: rest -> chunk = take n seg) /\
    trace w' = trace w ++ [Recv s n] /\ read_on w w'.
Proof.
  intros Hn Hs. unfold recv, bind, emit.
  destruct (n <? 0) eqn:E1; [lia|]. destruct (n =? 0) eqn:E2; [lia|].
  cbn [set_trace rx]. unfold stream in *.
  rewrite <- concat_drop_empty in Hs |- *.
  destruct (drop_empty (rx w)) as [|seg rest] eqn:D; [contradiction|].
  pose proof (drop_empty_head _ _ _ D) as Hseg.
  eexists _, _. split; [reflexivity|].
  repeat split; simpl.
  - unfold take. destruct seg; [contradiction|].
    destruct (Z.to_nat n) eqn:N; [lia|]. discriminate.
  - rewrite blen_take by lia. lia.
  - rewrite <- (take_drop n seg) at 1.
    destruct (drop n seg); simpl; [now rewrite app_nil_r|].
    now rewrite <- app_assoc.
  - intros seg' rest' [= <- <-]. reflexivity.
Qed.

(** [recv] on a stream that has ended: [b''] when the peer closed. *)
Lemma recv_closed (s : sock) (n : Z) (w : world) :
  0 < n -> stream w = [] -> rx_end w = None ->
  exists w',
    recv s n w = (inr [], w') /\ stream w' = [] /\
    trace w' = trace w ++ [Recv s n] /\ read_on w w'.
Proof.
  intros Hn Hs He. unfold recv, bind, emit.
  destruct (n <? 0) eqn:E1; [lia|]. destruct (n =? 0) eqn:E2; [lia|].
  cbn [set_trace rx rx_end]. unfold stream in *.
  rewrite <- concat_drop_empty in Hs.
  destruct (drop_empty (rx w)) as [|seg rest] eqn:D.
  - rewrite He. eexists. split; [reflexivity|].
    repeat split; simpl; auto.
  - pose proof (drop_empty_head _ _ _ D). simpl in Hs.
    apply app_eq_nil in Hs. destruct Hs. contradiction.
Qed.

(** ** Bytes of a length prefix *)

Lemma b2z_z2b (z : Z) : b2z (z2b z) = z mod 256.
Proof.
  unfold b2z, z2b.
  assert (B : 0 <= z mod 256 < 256) by (apply Z.mod_pos_bound; lia).
  destruct (Byte.of_N (Z.to_N (z mod 256))) as [b|] eqn:E.
  - apply Byte.to_of_N in E. rewrite E. lia.
  - apply Byte.of_N_None_iff in E. lia.
Qed.

Lemma from_to_bytes4 (n : Z) :
  0 <= n < 2 ^ 32 -> from_bytes (map z2b (Hashlib.be_bytes 4 n)) = n.
Proof.
  intros H. unfold from_bytes, Hashlib.be_bytes, Hashlib.be_word.
  cbn [Hashlib.le_bytes rev app map fold_left].
  rewrite !b2z_z2b. rewrite !Z.mod_mod by lia.
  pose proof (Z.div_mod n 256 ltac:(lia)).
  pose proof (Z.div_mod (n / 256) 256 ltac:(lia)).
  pose proof (Z.div_mod (n / 256 / 256) 256 ltac:(lia)).
  assert (n / 256 / 256 / 256 < 256).
  { rewrite !Z.div_div by lia. apply Z.div_lt_upper_bound; lia. }
  assert (0 <= n / 256 / 256 / 256).
  { rewrite !Z.div_div by lia. apply Z.div_pos; lia. }
  rewrite (Z.mod_small (n / 256 / 256 / 256)) by lia. lia.
Qed.

(** ** The framing of structured messages *)

Section Framing.
Context {RT : Runtime}.

Lemma receive_json_loop_complete (s : sock) (length : Z) :
  forall (fuel : nat) (acc : bytes) (w : world),
    length - blen acc <= Z.of_nat fuel ->
    length - blen acc <= blen (stream w) ->
    exists w',
      _receive_json_loop fuel s length acc w
      = (inr (Some (acc ++ take (length - blen acc) (stream w))), w') /\
      stream w' = drop (length - blen acc) (stream w) /\
      read_on w w'.
Proof.
  induction fuel as [|fuel IH]; intros acc w Hf Hs.
  - simpl. destruct (blen acc <? length) eqn:C; [lia|].
    exists w. unfold ret, take, drop.
    replace (Z.to_nat (length - blen acc)) with 0%nat by lia. simpl.
    rewrite app_nil_r. auto using read_on_refl.
  - simpl. destruct (blen acc <? length) eqn:C.
    + apply Z.ltb_lt in C.
      assert (Hne : stream w <> []).
      { intros E. rewrite E in Hs. unfold blen in Hs at 2. simpl in Hs. lia. }
      destruct (recv_data s (length - blen acc) w ltac:(lia) Hne)
        as (chunk & w1 & R & Hc & Hl & Hst & _ & _ & Hr).
      unfold bind. rewrite R.
      destruct chunk as [|b chunk]; [contradiction|].
      set (ch := b :: chunk) in *.
      assert (1 <= blen ch) by (unfold blen, ch; simpl; lia).
      destruct (IH (acc ++ ch) w1) as (w' & E & Hs' & Hr').
      { rewrite blen_app. lia. }
      { rewrite Hst, blen_app in Hs. rewrite blen_app. lia. }
      exists w'. rewrite E. rewrite blen_app in *.
      split; [|split].
      * f_equal. f_equal. rewrite <- app_assoc. f_equal.
        rewrite Hst. unfold take. rewrite firstn_app.
        rewrite (@firstn_all2 _ _ ch) by (unfold blen in *; lia).
        do 3 f_equal. unfold blen in *. lia.
      * rewrite Hs', Hst. unfold drop. rewrite skipn_app.
        rewrite (@skipn_all2 _ _ ch) by (unfold blen in *; lia).
        rewrite app_nil_l. f_equal. unfold blen in *. lia.
      * eapply read_on_trans; eauto.
    + apply Z.ltb_ge in C. exists w. unfold ret, take, drop.
      replace (Z.to_nat (length - blen acc)) with 0%nat by lia. simpl.
      rewrite app_nil_r. auto using read_on_refl.
Qed.

Lemma receive_json_loop_short (s : sock) (length : Z) :
  forall (fuel : nat) (acc : bytes) (w : world),
    rx_end w = None ->
    length - blen acc <= Z.of_nat fuel ->
    blen (stream w) < length - blen acc ->
    exists w', _receive_json_loop fuel s length acc w = (inr None, w').
Proof.
  induction fuel as [|fuel IH]; intros acc w He Hf Hs;
    pose proof (blen_nonneg (stream w)).
  - lia.
  - simpl. destruct (blen acc <? length) eqn:C; [|lia].
    destruct (stream w) as [|b0 st] eqn:S.
    + destruct (recv_closed s (length - blen acc) w ltac:(lia) S He)
        as (w1 & R & _).
      unfold bind. rewrite R. eexists. reflexivity.
    + assert (Hne : stream w <> []) by (rewrite S; discriminate).
      destruct (recv_data s (length - blen acc) w ltac:(lia) Hne)
        as (chunk & w1 & R & Hc & Hl & Hst & _ & _ & Hr).
      unfold bind. rewrite R.
      destruct chunk as [|b chunk]; [contradiction|].
      set (ch := b :: chunk) in *.
      assert (1 <= blen ch) by (unfold blen, ch; simpl; lia).
      rewrite <- S in Hs. rewrite Hst, blen_app in Hs.
      apply IH.
      * destruct Hr as (_ & _ & -> & _). exact He.
      * rewrite blen_app. lia.
      * rewrite blen_app. lia.
Qed.
End Framing.

Section FramingTheorems.
Context {RT : Runtime}.

Lemma to_bytes4_ok (n : Z) :
  0 <= n < 2 ^ 32 -> to_bytes4 n = inr (map z2b (Hashlib.be_bytes 4 n)).
Proof.
  intros H. unfold to_bytes4.
  destruct (0 <=? n) eqn:A; [|lia]. destruct (n <? 2 ^ 32) eqn:B; [|lia].
  reflexivity.
Qed.

Lemma send_json_run (s : sock) (data : value) (w : world) :
  blen (encode (json_dumps data)) < 2 ^ 32 ->
  tx_fail w = None ->
  _send_json s data w
  = (inr tt,
     set_trace w
       (trace w ++
        [SendAll s (map z2b (Hashlib.be_bytes 4
                               (blen (encode (json_dumps data)))));
         SendAll s (encode (json_dumps data))])).
Proof.
  intros Hlen Htx. unfold _send_json, bind, lift.
  rewrite to_bytes4_ok by (pose proof (blen_nonneg (encode (json_dumps data))); lia).
  unfold sendall, spend_send. rewrite Htx. cbn [tx_fail set_trace trace].
  rewrite Htx. unfold set_trace; simpl. now rewrite <- app_assoc.
Qed.

Lemma sent_client_frame (data : value) :
  sent Client
       [SendAll Client (map z2b (Hashlib.be_bytes 4
                                   (blen (encode (json_dumps data)))));
        SendAll Client (encode (json_dumps data))]
  = frame_of data.
Proof. unfold frame_of. simpl. now rewrite app_nil_r. Qed.

Lemma app_same_length {A : Type} (a c : list A) :
  forall b d, List.length a = List.length c -> a ++ b = c ++ d ->
              a = c /\ b = d.
Proof.
  revert c. induction a as [|x a IH]; intros [|y c] b d L E;
    simpl in *; try discriminate; auto.
  injection E as -> E. destruct (IH c b d) as [-> ->]; auto.
Qed.

Lemma take_app_exact {A : Type} (a b : list A) :
  take (Z.of_nat (List.length a)) (a ++ b) = a.
Proof.
  unfold take. rewrite Nat2Z.id, firstn_app, Nat.sub_diag, firstn_all.
  simpl. apply app_nil_r.
Qed.

Lemma drop_app_exact {A : Type} (a b : list A) :
  drop (Z.of_nat (List.length a)) (a ++ b) = b.
Proof.
  unfold drop. rewrite Nat2Z.id, skipn_app, Nat.sub_diag, skipn_all.
  reflexivity.
Qed.

(** The payload is accumulated whole, whatever its segmentation, once the
    first read has delivered the four bytes of the prefix; nothing beyond
    the frame is read. *)
Lemma receive_json_frame (s : sock) (payload tail : bytes) (w : world)
      (seg : bytes) (rest : list bytes) :
  blen payload < 2 ^ 32 ->
  drop_empty (rx w) = seg :: rest ->
  4 <= blen seg ->
  stream w = map z2b (Hashlib.be_bytes 4 (blen payload)) ++ payload ++ tail ->
  exists w',
    _receive_json s w
    = (match decode payload with
       | inr text => json_loads text
       | inl e => inl e
       end, w') /\
    stream w' = tail /\ read_on w w'.
Proof.
  intros Hlen Hd Hseg Hst.
  pose proof (blen_nonneg payload) as Hp.
  assert (Hne : stream w <> []).
  { rewrite Hst. discriminate. }
  destruct (recv_data s 4 w ltac:(lia) Hne)
    as (chunk & w1 & R & Hc & Hl & Hst1 & Hch & _ & Hr).
  specialize (Hch _ _ Hd).
  assert (L4 : blen chunk = 4) by (rewrite Hch, blen_take by lia; lia).
  rewrite Hst in Hst1.
  apply app_same_length in Hst1;
    [|change (List.length (map z2b (Hashlib.be_bytes 4 (blen payload))))
        with 4%nat; unfold blen in L4; lia].
  destruct Hst1 as [Hpre Hst1].
  unfold _receive_json, bind. rewrite R.
  destruct (blen chunk <? 4) eqn:C; [lia|].
  rewrite <- Hpre, from_to_bytes4 by lia.
  destruct (receive_json_loop_complete s (blen payload)
              (Z.to_nat (blen payload)) [] w1)
    as (w' & E & Hs' & Hr').
  { change (blen []) with 0. lia. }
  { change (blen []) with 0. rewrite <- Hst1, blen_app.
    pose proof (blen_nonneg tail). lia. }
  rewrite E. change (blen []) with 0 in *. rewrite Z.sub_0_r in *.
  rewrite <- Hst1 in *. unfold blen in Hs' |- *.
  rewrite take_app_exact. rewrite drop_app_exact in Hs'. simpl.
  exists w'. split; [|split; [exact Hs' | eapply read_on_trans; eauto]].
  unfold lift. destruct (decode payload); reflexivity.
Qed.

(** Fewer than four bytes before the peer closes: no message. *)
Lemma receive_json_short_prefix (s : sock) (w : world) :
  rx_end w = None -> blen (stream w) < 4 ->
  exists w', _receive_json s w = (inr VNone, w').
Proof.
  intros He Hs. unfold _receive_json, bind.
  destruct (stream w) as [|b0 st] eqn:S.
  - destruct (recv_closed s 4 w ltac:(lia) S He) as (w1 & R & _).
    rewrite R. change (blen []) with 0. simpl. eexists. reflexivity.
  - assert (Hne : stream w <> []) by (rewrite S; discriminate).
    destruct (recv_data s 4 w ltac:(lia) Hne)
      as (chunk & w1 & R & Hc & Hl & Hst & _).
    rewrite R. rewrite <- S, Hst, blen_app in Hs.
    pose proof (blen_nonneg (stream w1)).
    destruct (blen chunk <? 4) eqn:C; [|lia].
    eexists. reflexivity.
Qed.

(** A frame cut short by the peer closing: no message. *)
Lemma receive_json_truncated (s : sock) (payload : bytes) (k : Z) (w : world) :
  blen payload < 2 ^ 32 ->
  rx_end w = None ->
  0 <= k < 4 + blen payload ->
  stream w = take k (map z2b (Hashlib.be_bytes 4 (blen payload)) ++ payload) ->
  exists w', _receive_json s w = (inr VNone, w').
Proof.
  intros Hlen He Hk Hst.
  pose proof (blen_nonneg payload) as Hp.
  set (prefix := map z2b (Hashlib.be_bytes 4 (blen payload))) in *.
  assert (Lp : blen prefix = 4) by reflexivity.
  assert (Ls : blen (stream w) = k).
  { rewrite Hst, blen_take, blen_app by lia. lia. }
  destruct (Z.lt_ge_cases k 4) as [Hk4|Hk4].
  { apply receive_json_short_prefix; auto. lia. }
  assert (Hne : stream w <> []).
  { intros E. rewrite E in Ls. change (blen []) with 0 in Ls. lia. }
  destruct (recv_data s 4 w ltac:(lia) Hne)
    as (chunk & w1 & R & Hc & Hl & Hst1 & _ & _ & Hr).
  unfold _receive_json, bind. rewrite R.
  destruct (blen chunk <? 4) eqn:C; [eexists; reflexivity|].
  apply Z.ltb_ge in C. assert (L4 : blen chunk = 4) by lia.
  (* the four bytes read are the prefix *)
  assert (Hsplit : stream w = prefix ++ take (k - 4) payload).
  { rewrite Hst. unfold take. rewrite firstn_app.
    rewrite (@firstn_all2 _ _ prefix) by (unfold blen in Lp; lia).
    do 2 f_equal. unfold blen in Lp. lia. }
  rewrite Hsplit in Hst1.
  apply app_same_length in Hst1; [|unfold blen in *; lia].
  destruct Hst1 as [Hpre Hst1].
  rewrite <- Hpre. unfold prefix. rewrite from_to_bytes4 by lia.
  destruct (receive_json_loop_short s (blen payload)
              (Z.to_nat (blen payload)) [] w1)
    as (w' & E).
  { destruct Hr as (_ & _ & -> & _). exact He. }
  { change (blen []) with 0. lia. }
  { change (blen []) with 0. rewrite <- Hst1, blen_take by lia. lia. }
  rewrite E. eexists. reflexivity.
Qed.
End FramingTheorems.

(** C6 (as the code has it). For every dictionary whose JSON encoding is
    shorter than 2^32 bytes and is read back by the codec, [_send_json] emits
    the 4-byte big-endian length followed by exactly that many bytes of the
    encoding; [_receive_json], applied to any delivery of that stream whose
    first read returns the four prefix bytes, accumulates exactly the payload
    however it is segmented, reads nothing beyond it and returns the
    dictionary; and if the stream ends before four bytes, or anywhere before
    the end of the frame, it returns [None]. *)
Theorem json_frame_round_trip {RT : Runtime} (data : value) :
  blen (encode (json_dumps data)) < 2 ^ 32 ->
  round_trips data ->
  (forall w, tx_fail w = None ->
     exists w' tr,
       _send_json Client data w = (inr tt, w') /\
       trace w' = trace w ++ tr /\ sent Client tr = frame_of data) /\
  (blen (take 4 (frame_of data)) = 4 /\
   from_bytes (take 4 (frame_of data)) = blen (encode (json_dumps data)) /\
   drop 4 (frame_of data) = encode (json_dumps data)) /\
  (forall w seg rest tail,
     drop_empty (rx w) = seg :: rest -> 4 <= blen seg ->
     stream w = frame_of data ++ tail ->
     exists w',
       _receive_json Client w = (inr data, w') /\ stream w' = tail) /\
  (forall w, rx_end w = None -> blen (stream w) < 4 ->
     exists w', _receive_json Client w = (inr VNone, w')) /\
  (forall w k, rx_end w = None -> 0 <= k < blen (frame_of data) ->
     stream w = take k (frame_of data) ->
     exists w', _receive_json Client w = (inr VNone, w')).
Proof.
  intros Hlen (text & Hdec & Hload).
  pose proof (blen_nonneg (encode (json_dumps data))) as Hp.
  split; [|split; [|split; [|split]]].
  - intros w Htx. eexists. eexists.
    split; [apply send_json_run; assumption|].
    split; [reflexivity | apply sent_client_frame].
  - unfold frame_of. split; [reflexivity|]. split.
    + apply from_to_bytes4. lia.
    + reflexivity.
  - intros w seg rest tail Hd Hs Hst. unfold frame_of in Hst.
    rewrite <- app_assoc in Hst.
    destruct (receive_json_frame Client _ tail w seg rest Hlen Hd Hs Hst)
      as (w' & E & Ht & _).
    rewrite Hdec, Hload in E. eauto.
  - intros w. apply receive_json_short_prefix.
  - intros w k He Hk Hst. unfold frame_of in *.
    rewrite blen_app in Hk.
    change (blen (map z2b (Hashlib.be_bytes 4 (blen (encode (json_dumps data))))))
      with 4 in Hk.
    eapply receive_json_truncated; eauto.
Qed.

Lemma json_frame_round_trip_witness :
  blen (encode (@json_dumps Ref.runtime hello)) < 2 ^ 32 /\
  @round_trips Ref.runtime hello /\
  (forall w seg rest tail,
     drop_empty (rx w) = seg :: rest -> 4 <= blen seg ->
     stream w = @frame_of Ref.runtime hello ++ tail ->
     exists w',
       @_receive_json Ref.runtime Client w = (inr hello, w') /\
       stream w' = tail).
Proof.
  assert (H1 : blen (encode (@json_dumps Ref.runtime hello)) < 2 ^ 32)
    by (vm_compute; reflexivity).
  assert (H2 : @round_trips Ref.runtime hello)
    by (eexists; split; [vm_compute; reflexivity | vm_compute; reflexivity]).
  split; [exact H1|]. split; [exact H2|].
  exact (proj1 (proj2 (proj2 (@json_frame_round_trip Ref.runtime hello H1 H2)))).
Defined.

(** C6 as stated fails: the whole frame arrives, the codec reads the payload
    back, yet a first read that returns only two of the four prefix bytes
    makes [_receive_json] return [None]. *)
Lemma receive_json_split_prefix_returns_none :
  let frame := @frame_of Ref.runtime hello in
  let w := with_rx empty_world [take 2 frame; drop 2 frame] in
  stream w = frame /\
  @round_trips Ref.runtime hello /\
  fst (@_receive_json Ref.runtime Client w) = inr VNone /\
  fst (@_receive_json Ref.runtime Client w) <> inr hello.
Proof.
  split; [vm_compute; reflexivity|].
  split; [eexists; split; [vm_compute; reflexivity | vm_compute; reflexivity]|].
  split; [vm_compute; reflexivity|].
  vm_compute. discriminate.
Qed.

(** ** Stepping through monadic code *)

Lemma bind_run {A B : Type} (m : M A) (k : A -> M B) w a w1 :
  m w = (inr a, w1) -> bind m k w = k a w1.
Proof. unfold bind. now intros ->. Qed.

Lemma bind_fail {A B : Type} (m : M A) (k : A -> M B) w e w1 :
  m w = (inl e, w1) -> bind m k w = (inl e, w1).
Proof. unfold bind. now intros ->. Qed.

Lemma bind_assoc {A B C : Type} (m : M A) (k1 : A -> M B) (k2 : B -> M C) w :
  bind (bind m k1) k2 w = bind m (fun a => bind (k1 a) k2) w.
Proof. unfold bind. destruct (m w) as [[e|a] w1]; reflexivity. Qed.

Lemma bind_try {A B : Type} (m : M A) (h : exn -> M A) (k : A -> M B) w :
  bind (try_ m h) k w
  = match m w with
    | (inl e, w') => bind (h e) k w'
    | (inr a, w') => k a w'
    end.
Proof. unfold bind, try_. destruct (m w) as [[e|a] w1]; reflexivity. Qed.

Lemma lift_inr {A : Type} (a : A) : lift (inr a) = ret a.
Proof. reflexivity. Qed.

Lemma lift_inl {A : Type} (e : exn) : @lift A (inl e) = raise e.
Proof. reflexivity. Qed.

(** ** Sending *)

Lemma bump_zero s : bump s 0 = s.
Proof. destruct s. unfold bump. simpl. now rewrite Z.add_0_r. Qed.

Lemma bump_bump s a b : bump (bump s a) b = bump s (a + b).
Proof. unfold bump. simpl. now rewrite Z.add_assoc. Qed.

Lemma progress_within_nil lo hi total : progress_within lo hi total [].
Proof. intros n d m []. Qed.

Lemma progress_within_app lo hi total t1 t2 :
  progress_within lo hi total t1 -> progress_within lo hi total t2 ->
  progress_within lo hi total (t1 ++ t2).
Proof.
  intros H1 H2 n d m I. apply in_app_or in I. destruct I; eauto.
Qed.

Lemma progress_within_weaken lo hi lo' hi' total tr :
  lo' <= lo -> hi <= hi' ->
  progress_within lo hi total tr -> progress_within lo' hi' total tr.
Proof.
  intros A B H n d m I. destruct (H n d m I). split; [lia | assumption].
Qed.

(** One [sendall]: the registry and the files are untouched; it succeeds
    when the connection has no failure in store. *)
Lemma sendall_run (s : sock) (data : bytes) (w : world) :
  exists r w',
    sendall s data w = (r, w') /\
    sessions w' = sessions w /\ fs w' = fs w /\
    trace w' = trace w ++ [SendAll s data] /\
    (tx_fail w = None -> r = inr tt /\ tx_fail w' = None).
Proof.
  unfold sendall, spend_send.
  destruct (tx_fail w) as [[[|n] e]|] eqn:T; eexists _, _;
    (split; [reflexivity|]); simpl; repeat split; auto; discriminate.
Qed.

Lemma report_run (cb : option callback) (num den : Z) (msg : string) (w : world) :
  exists r tr,
    report cb num den msg w = (r, set_trace w (trace w ++ tr)) /\
    progress_within num num den tr /\
    (cb = None -> r = inr tt /\ tr = []) /\
    (cb <> None -> den = 0 -> r = inl ZeroDivisionError).
Proof.
  unfold report. destruct cb as [f|].
  - destruct (den =? 0) eqn:D.
    + exists (inl ZeroDivisionError), []. unfold raise. rewrite app_nil_r.
      split; [now destruct w|].
      split; [apply progress_within_nil|]. split; [discriminate | auto].
    + unfold bind, emit. cbn [set_trace trace].
      destruct (f num den msg);
        eexists _, [Progress num den msg]; (split; [reflexivity|]);
        (split; [|split; [discriminate | intros _ Z0; apply Z.eqb_neq in D; lia]]);
        intros n d m [[= <- <- <-]|[]]; split; auto; lia.
  - exists (inr tt), []. unfold ret. rewrite app_nil_r.
    split; [now destruct w|].
    split; [apply progress_within_nil|]. split; [auto | congruence].
Qed.

Section Sender.
Context {RT : Runtime}.

Lemma get_session_run (sid : string) (w : world) (s : TransferSession) :
  Dict.get (sessions w) sid = Some s -> get_session sid w = (inr s, w).
Proof. intros G. unfold get_session, bind, get_world. now rewrite G. Qed.

Lemma add_transferred_run (sid : string) (n : Z) (w : world)
      (s : TransferSession) :
  Dict.get (sessions w) sid = Some s ->
  add_transferred sid n w
  = (inr tt, set_sessions w (Dict.set (sessions w) sid (bump s n))).
Proof.
  intros G. unfold add_transferred.
  now rewrite (bind_run _ _ _ _ _ (get_session_run sid w s G)).
Qed.

Lemma blen_take_drop (n : Z) (f : bytes) :
  0 <= n -> blen (take n f) + blen (drop n f) = blen f.
Proof. intros H. rewrite <- (take_drop n f) at 3. now rewrite blen_app. Qed.

(** The read-and-send loop: it never runs out of fuel, it adds to
    [transferred_size] exactly what it put on the wire, which is no more
    than the file holds, and each progress call reports the counter as it
    stands. *)
Lemma send_loop_run (sid : string) (cb : option callback) (name : string)
      (size : Z) :
  forall (fuel : nat) (f : bytes) (sent : Z) (w : world) (s : TransferSession),
    Dict.get (sessions w) sid = Some s ->
    (List.length f < fuel)%nat ->
    exists r w' delta tr,
      send_loop fuel sid cb name f size sent w = (r, w') /\
      0 <= delta <= blen f /\
      Dict.get (sessions w') sid = Some (bump s delta) /\
      fs w' = fs w /\ trace w' = trace w ++ tr /\
      progress_within (transferred_size s) (transferred_size s + delta)
                      (total_size s) tr /\
      (cb = None -> tx_fail w = None -> r = inr tt /\ tx_fail w' = None).
Proof.
  induction fuel as [|fuel IH]; intros f sent w s G L; [lia|].
  pose proof (blen_nonneg f) as Hf.
  assert (Stop : exists r w' delta tr,
             ret tt w = (r, w') /\ 0 <= delta <= blen f /\
             Dict.get (sessions w') sid = Some (bump s delta) /\
             fs w' = fs w /\ trace w' = trace w ++ tr /\
             progress_within (transferred_size s) (transferred_size s + delta)
                             (total_size s) tr /\
             (cb = None -> tx_fail w = None -> r = inr tt /\ tx_fail w' = None)).
  { exists (inr tt), w, 0, []. rewrite bump_zero, app_nil_r.
    split; [reflexivity|]. split; [lia|]. split; [exact G|].
    split; [reflexivity|]. split; [reflexivity|].
    split; [apply progress_within_nil | auto]. }
  cbn [send_loop]. destruct (sent <? size); [|exact Stop].
  destruct (take 8192 f) as [|b ch] eqn:T; [exact Stop|]. clear Stop.
  set (chunk := b :: ch) in *.
  assert (Hc : 1 <= blen chunk) by (unfold blen, chunk; simpl; lia).
  pose proof (blen_take_drop 8192 f ltac:(lia)) as Hsplit. rewrite T in Hsplit.
  pose proof (blen_nonneg (drop 8192 f)) as Hd.
  destruct (sendall_run Client chunk w) as (r1 & w1 & E1 & S1 & F1 & T1 & N1).
  destruct r1 as [e|[]].
  { rewrite (bind_fail _ _ _ _ _ E1).
    exists (inl e), w1, 0, [SendAll Client chunk]. rewrite bump_zero.
    split; [reflexivity|]. split; [lia|]. split; [congruence|].
    split; [exact F1|]. split; [exact T1|].
    split; [intros n d m [I|[]]; discriminate|].
    intros _ N. destruct (N1 N). discriminate. }
  rewrite (bind_run _ _ _ _ _ E1).
  rewrite <- S1 in G.
  rewrite (bind_run _ _ _ _ _ (add_transferred_run sid (blen chunk) w1 s G)).
  set (w2 := set_sessions w1 (Dict.set (sessions w1) sid (bump s (blen chunk)))).
  assert (G2 : Dict.get (sessions w2) sid = Some (bump s (blen chunk))).
  { unfold w2. simpl. apply get_set_same. }
  rewrite (bind_run _ _ _ _ _ (get_session_run sid w2 _ G2)).
  destruct (report_run cb (transferred_size (bump s (blen chunk)))
                       (total_size (bump s (blen chunk)))
                       (String.append "Sending " name) w2)
    as (r3 & tr3 & E3 & P3 & C3 & _).
  simpl in P3.
  destruct r3 as [e|[]].
  { rewrite (bind_fail _ _ _ _ _ E3).
    exists (inl e), (set_trace w2 (trace w2 ++ tr3)), (blen chunk),
           (SendAll Client chunk :: tr3).
    simpl. rewrite T1, <- app_assoc.
    split; [reflexivity|]. split; [lia|]. split; [apply get_set_same|].
    split; [exact F1|]. split; [reflexivity|].
    split.
    - intros n d m [I|I]; [discriminate|]. destruct (P3 n d m I). split; [lia|auto].
    - intros N _. destruct (C3 N). discriminate. }
  rewrite (bind_run _ _ _ _ _ E3).
  set (w3 := set_trace w2 (trace w2 ++ tr3)).
  destruct (IH (drop 8192 f) (sent + blen chunk) w3 (bump s (blen chunk)))
    as (r & w' & delta & tr & E & Hdelta & G' & F' & T' & P' & N').
  { exact G2. }
  { clear - Hsplit Hc L. unfold blen in *. lia. }
  exists r, w', (blen chunk + delta), (SendAll Client chunk :: tr3 ++ tr).
  rewrite E. rewrite bump_bump in G'.
  split; [reflexivity|]. split; [lia|]. split; [exact G'|].
  split; [rewrite F'; exact F1|].
  split.
  { rewrite T'. unfold w3, w2. simpl. rewrite T1, <- !app_assoc. reflexivity. }
  split.
  { intros n d m [I|I]; [discriminate|].
    apply in_app_or in I. destruct I as [I|I].
    - destruct (P3 n d m I). split; [lia|auto].
    - destruct (P' n d m I) as [B D]. simpl in B, D. split; [lia|auto]. }
  intros N Ntx. apply N'; auto. unfold w3, w2. simpl. now destruct (N1 Ntx).
Qed.
End Sender.

Section SendFiles.
Context {RT : Runtime}.

Lemma bind_emit {B : Type} (e : event) (k : unit -> M B) (w : world) :
  bind (emit e) k w = k tt (set_trace w (trace w ++ [e])).
Proof. reflexivity. Qed.

Lemma bind_log {B : Type} (l : level) (msg : string) (k : unit -> M B) (w : world) :
  bind (log l msg) k w = k tt (set_trace w (trace w ++ [Log l msg])).
Proof. reflexivity. Qed.

Lemma quiet_within lo hi total tr : quiet tr -> progress_within lo hi total tr.
Proof. intros Q n d m I. destruct (Q n d m I). Qed.

Lemma quiet_app t1 t2 : quiet t1 -> quiet t2 -> quiet (t1 ++ t2).
Proof. intros A B n d m I. apply in_app_or in I. destruct I; [eapply A|eapply B]; eauto. Qed.

Lemma read_file_readable (path : string) (w : world) :
  (exists c,
      read_file path w = (inr c, set_trace w (trace w ++ [OpenRead path])) /\
      readable_size (fs w) path = blen c /\ can_read (fs w) path = true)
  \/ (read_file path w = (inl OSError, w) /\ can_read (fs w) path = false).
Proof.
  unfold read_file, bind, get_world, readable_size, can_read.
  destruct (Dict.get (fs w) path) as [[sz [c|]]|]; simpl; auto.
  left. exists c. auto.
Qed.

Lemma send_file_run (sid : string) (cb : option callback) (fi : file_info)
      (w : world) (s : TransferSession) :
  Dict.get (sessions w) sid = Some s ->
  exists r w' delta tr,
    send_file sid cb fi w = (r, w') /\
    0 <= delta <= readable_size (fs w) (fi_path fi) /\
    Dict.get (sessions w') sid = Some (bump s delta) /\
    fs w' = fs w /\ trace w' = trace w ++ tr /\
    progress_within (transferred_size s) (transferred_size s + delta)
                    (total_size s) tr /\
    (cb = None -> tx_fail w = None -> can_read (fs w) (fi_path fi) = true ->
     r = inr tt /\ tx_fail w' = None) /\
    (cb <> None -> total_size s = 0 ->
     r = inl ZeroDivisionError /\ delta = 0).
Proof.
  intros G. unfold send_file.
  rewrite (bind_run _ _ _ _ _ (get_session_run sid w s G)).
  destruct (report_run cb (transferred_size s) (total_size s)
                       (String.append "Sending " (fi_name fi)) w)
    as (r0 & tr0 & E0 & P0 & C0 & Z0).
  assert (R0 : 0 <= readable_size (fs w) (fi_path fi)).
  { unfold readable_size.
    destruct (Dict.get (fs w) (fi_path fi)) as [[sz [c|]]|];
      try apply blen_nonneg; lia. }
  destruct r0 as [e|[]].
  { rewrite (bind_fail _ _ _ _ _ E0).
    exists (inl e), (set_trace w (trace w ++ tr0)), 0, tr0.
    rewrite bump_zero, Z.add_0_r.
    split; [reflexivity|]. split; [lia|]. split; [exact G|].
    split; [reflexivity|]. split; [reflexivity|]. split; [exact P0|].
    split.
    - intros N. destruct (C0 N). discriminate.
    - intros N T0. split; [|reflexivity]. now rewrite (Z0 N T0) in *. }
  rewrite (bind_run _ _ _ _ _ E0).
  set (w1 := set_trace w (trace w ++ tr0)).
  assert (Znot : cb <> None -> total_size s = 0 -> False).
  { intros N T0. specialize (Z0 N T0). discriminate. }
  destruct (read_file_readable (fi_path fi) w1) as [(c & E1 & Rs & Cr)|[E1 Cr]].
  - rewrite (bind_run _ _ _ _ _ E1).
    set (w2 := set_trace w1 (trace w1 ++ [OpenRead (fi_path fi)])).
    destruct (send_loop_run sid cb (fi_name fi) (fi_size fi)
                (S (List.length c)) c 0 w2 s G ltac:(lia))
      as (r & w' & delta & tr & E & Hd & G' & F' & T' & P' & N').
    exists r, w', delta, (tr0 ++ OpenRead (fi_path fi) :: tr).
    simpl in Rs. rewrite E, Rs.
    split; [reflexivity|]. split; [exact Hd|]. split; [exact G'|].
    split; [exact F'|].
    split; [rewrite T'; unfold w2, w1; simpl; now rewrite <- !app_assoc|].
    split.
    + apply progress_within_app.
      * eapply progress_within_weaken; [| |exact P0]; lia.
      * intros n d m [I|I]; [discriminate | eauto].
    + split; [|intros N T0; destruct (Znot N T0)].
      intros N Ntx _. apply N'; auto.
  - rewrite (bind_fail _ _ _ _ _ E1).
    exists (inl OSError), w1, 0, tr0. rewrite bump_zero, Z.add_0_r.
    split; [reflexivity|]. split; [lia|]. split; [exact G|].
    split; [reflexivity|]. split; [reflexivity|]. split; [exact P0|].
    split; [|intros N T0; destruct (Znot N T0)].
    intros _ _ C. simpl in Cr. congruence.
Qed.

Lemma for_each_send_run (sid : string) (cb : option callback) :
  forall (entries : Dict.t file_info) (w : world) (s : TransferSession),
    Dict.get (sessions w) sid = Some s ->
    exists r w' delta tr,
      for_each entries (fun kv => send_file sid cb (snd kv)) w = (r, w') /\
      0 <= delta <= to_send (fs w) entries /\
      Dict.get (sessions w') sid = Some (bump s delta) /\
      fs w' = fs w /\ trace w' = trace w ++ tr /\
      progress_within (transferred_size s) (transferred_size s + delta)
                      (total_size s) tr /\
      (cb = None -> tx_fail w = None ->
       forallb (fun kv => can_read (fs w) (fi_path (snd kv))) entries = true ->
       r = inr tt /\ tx_fail w' = None) /\
      (cb <> None -> total_size s = 0 -> entries <> [] ->
       r = inl ZeroDivisionError /\ delta = 0).
Proof.
  induction entries as [|[k fi] rest IH]; intros w s G.
  - exists (inr tt), w, 0, []. rewrite bump_zero, app_nil_r.
    split; [reflexivity|]. split; [unfold to_send; simpl; lia|].
    split; [exact G|].
    split; [reflexivity|]. split; [reflexivity|].
    split; [apply progress_within_nil|]. split; [auto | congruence].
  - cbn [for_each snd].
    destruct (send_file_run sid cb fi w s G)
      as (r1 & w1 & d1 & t1 & E1 & H1 & G1 & F1 & T1 & P1 & N1 & Z1).
    assert (R0 : 0 <= to_send (fs w) rest).
    { destruct (IH w s G) as (_ & _ & d & _ & _ & Hd & _). lia. }
    destruct r1 as [e|[]].
    + rewrite (bind_fail _ _ _ _ _ E1).
      exists (inl e), w1, d1, t1.
      split; [reflexivity|]. split; [unfold to_send in *; simpl; lia|].
      split; [exact G1|]. split; [exact F1|]. split; [exact T1|].
      split; [exact P1|]. split.
      * intros N Ntx C. simpl in C. apply andb_prop in C. destruct C as [C _].
        destruct (N1 N Ntx C). discriminate.
      * intros N T0 _. destruct (Z1 N T0) as [R D]. now inversion R.
    + rewrite (bind_run _ _ _ _ _ E1).
      destruct (IH w1 (bump s d1) G1)
        as (r & w' & d & t & E & Hd & G' & F' & T' & P' & N' & Z').
      rewrite F1 in *. rewrite bump_bump in G'. simpl in P'.
      exists r, w', (d1 + d), (t1 ++ t). rewrite E.
      split; [reflexivity|]. split; [unfold to_send in *; simpl; lia|].
      split; [exact G'|]. split; [exact F'|].
      split; [rewrite T', T1; now rewrite app_assoc|].
      split.
      * apply progress_within_app.
        -- eapply progress_within_weaken; [| |exact P1]; lia.
        -- eapply progress_within_weaken; [| |exact P']; lia.
      * split.
        -- intros N Ntx C. simpl in C. apply andb_prop in C. destruct C as [C C'].
           destruct (N1 N Ntx C) as [_ Ntx1]. apply N'; auto.
        -- intros N T0 _. destruct (Z1 N T0). discriminate.
Qed.
End SendFiles.

Section SendOperation.
Context {RT : Runtime}.

Lemma quiet_nil : quiet [].
Proof. intros n d m []. Qed.

Lemma quiet_cons e tr :
  (forall n d m, e <> Progress n d m) -> quiet tr -> quiet (e :: tr).
Proof. intros H Q n d m [I|I]; [eapply H; eauto | eapply Q; eauto]. Qed.

Lemma send_json_any (s0 : sock) (data : value) (w : world) :
  exists r w' tr,
    _send_json s0 data w = (r, w') /\
    sessions w' = sessions w /\ fs w' = fs w /\
    trace w' = trace w ++ tr /\ quiet tr /\
    (tx_fail w = None -> blen (encode (json_dumps data)) < 2 ^ 32 ->
     r = inr tt /\ tx_fail w' = None).
Proof.
  unfold _send_json, lift.
  pose proof (blen_nonneg (encode (json_dumps data))) as Hp.
  destruct (to_bytes4 (blen (encode (json_dumps data)))) as [e|prefix] eqn:P.
  - exists (inl e), w, []. rewrite app_nil_r.
    split; [reflexivity|]. split; [reflexivity|]. split; [reflexivity|].
    split; [reflexivity|]. split; [apply quiet_nil|].
    intros _ L. rewrite to_bytes4_ok in P by lia. discriminate.
  - unfold bind at 1.
    destruct (sendall_run s0 prefix w) as (r1 & w1 & E1 & S1 & F1 & T1 & N1).
    destruct r1 as [e|[]].
    + rewrite (bind_fail _ _ _ _ _ E1).
      exists (inl e), w1, [SendAll s0 prefix].
      split; [reflexivity|]. split; [exact S1|]. split; [exact F1|].
      split; [exact T1|]. split.
      * apply quiet_cons; [discriminate | apply quiet_nil].
      * intros N _. destruct (N1 N). discriminate.
    + rewrite (bind_run _ _ _ _ _ E1).
      destruct (sendall_run s0 (encode (json_dumps data)) w1)
        as (r2 & w2 & E2 & S2 & F2 & T2 & N2).
      exists r2, w2, [SendAll s0 prefix; SendAll s0 (encode (json_dumps data))].
      split; [exact E2|]. split; [congruence|]. split; [congruence|].
      split; [rewrite T2, T1; now rewrite <- app_assoc|]. split.
      * repeat (apply quiet_cons; [discriminate|]). apply quiet_nil.
      * intros N _. destruct (N1 N) as [_ N']. exact (N2 N').
Qed.

(** The inner block: it either completes with [True] or raises. *)
Lemma serve_client_run (env : send_env) (sid : string) (cb : option callback)
      (w : world) (s : TransferSession) :
  Dict.get (sessions w) sid = Some s ->
  exists r w' delta tr,
    serve_client env sid cb w = (r, w') /\
    0 <= delta <= to_send (fs w) (file_metadata s) /\
    Dict.get (sessions w') sid = Some (bump s delta) /\
    fs w' = fs w /\ trace w' = trace w ++ tr /\
    progress_within (transferred_size s) (transferred_size s + delta)
                    (total_size s) tr /\
    (forall b, r = inr b -> b = true) /\
    (cb <> None -> total_size s = 0 -> file_metadata s <> [] ->
     exists e, r = inl e) /\
    (cb = None -> accept_result env = None -> tx_fail w = None ->
     blen (encode (json_dumps (metadata_value s))) < 2 ^ 32 ->
     forallb (fun kv => can_read (fs w) (fi_path (snd kv))) (file_metadata s)
     = true ->
     r = inr true).
Proof.
  intros G. unfold serve_client, call.
  assert (R0 : 0 <= to_send (fs w) (file_metadata s)).
  { destruct (for_each_send_run sid cb (file_metadata s) w s G)
      as (_ & _ & d & _ & _ & Hd & _). lia. }
  rewrite bind_assoc, bind_emit.
  set (w0 := set_trace w (trace w ++ [Accept Server])).
  destruct (accept_result env) as [e|].
  { exists (inl e), w0, 0, [Accept Server]. rewrite bump_zero.
    split; [reflexivity|]. split; [lia|]. split; [exact G|].
    split; [reflexivity|]. split; [reflexivity|].
    split; [apply quiet_within, quiet_cons; [discriminate|apply quiet_nil]|].
    split; [discriminate|]. split; [eauto | discriminate]. }
  unfold bind at 1. unfold ret at 1. rewrite bind_log.
  set (w1 := set_trace w0 _).
  assert (G1 : Dict.get (sessions w1) sid = Some s) by exact G.
  rewrite (bind_run _ _ _ _ _ (get_session_run sid w1 s G1)).
  destruct (send_json_any Client (metadata_value s) w1)
    as (r2 & w2 & t2 & E2 & S2 & F2 & T2 & Q2 & N2).
  destruct r2 as [e|[]].
  { rewrite (bind_fail _ _ _ _ _ E2).
    exists (inl e), w2, 0,
           ([Accept Server; Log Info "P2P: Client connected from {addr}"] ++ t2).
    rewrite bump_zero.
    split; [reflexivity|]. split; [lia|]. split; [congruence|].
    split; [exact F2|].
    split; [rewrite T2; unfold w1, w0; simpl; now rewrite <- !app_assoc|].
    split.
    { apply quiet_within, quiet_app; [|exact Q2].
      repeat (apply quiet_cons; [discriminate|]). apply quiet_nil. }
    split; [discriminate|]. split; [eauto|].
    intros _ _ Ntx L _. destruct (N2 Ntx L). discriminate. }
  rewrite (bind_run _ _ _ _ _ E2).
  assert (G2 : Dict.get (sessions w2) sid = Some s) by congruence.
  destruct (for_each_send_run sid cb (file_metadata s) w2 s G2)
    as (r3 & w3 & d3 & t3 & E3 & H3 & G3 & F3 & T3 & P3 & N3 & Z3).
  rewrite F2 in *. change (fs w1) with (fs w) in *.
  assert (Tr : forall t, trace w3 ++ t
                         = trace w ++
                           ([Accept Server;
                             Log Info "P2P: Client connected from {addr}"]
                              ++ t2 ++ t3 ++ t)).
  { intros t. rewrite T3, T2. unfold w1, w0. simpl.
    now rewrite <- !app_assoc. }
  assert (Pw : forall t, quiet t ->
     progress_within (transferred_size s) (transferred_size s + d3)
       (total_size s)
       ([Accept Server; Log Info "P2P: Client connected from {addr}"]
          ++ t2 ++ t3 ++ t)).
  { intros t Q. apply progress_within_app.
    - apply quiet_within. repeat (apply quiet_cons; [discriminate|]).
      apply quiet_nil.
    - apply progress_within_app; [now apply quiet_within|].
      apply progress_within_app; [exact P3 | now apply quiet_within]. }
  destruct r3 as [e|[]].
  { rewrite (bind_fail _ _ _ _ _ E3).
    exists (inl e), w3, d3,
           ([Accept Server; Log Info "P2P: Client connected from {addr}"]
              ++ t2 ++ t3 ++ []).
    split; [reflexivity|]. split; [lia|]. split; [exact G3|].
    split; [exact F3|].
    split; [rewrite <- Tr; now rewrite app_nil_r|].
    split; [apply Pw, quiet_nil|].
    split; [discriminate|]. split; [eauto|].
    intros N _ Ntx L C. destruct (N2 Ntx L) as [_ Ntx2].
    destruct (N3 N Ntx2 C). discriminate. }
  rewrite (bind_run _ _ _ _ _ E3).
  rewrite !bind_emit, bind_log. unfold ret.
  eexists (inr true), _, d3, _.
  split; [reflexivity|]. split; [lia|]. split; [exact G3|].
  split; [exact F3|].
  split.
  { cbn [trace set_trace]. rewrite <- !app_assoc. apply Tr. }
  split.
  { apply Pw. repeat (apply quiet_cons; [discriminate|]). apply quiet_nil. }
  split; [now intros b [= <-]|]. split; [|reflexivity].
  intros N T0 Ne. destruct (Z3 N T0 Ne). discriminate.
Qed.
End SendOperation.

Section SendFilesDirect.
Context {RT : Runtime}.

Lemma bind_get_world {B : Type} (k : world -> M B) (w : world) :
  bind get_world k w = k w w.
Proof. reflexivity. Qed.

Lemma bind_raise {A B : Type} (e : exn) (k : A -> M B) (w : world) :
  bind (raise e) k w = (inl e, w).
Proof. reflexivity. Qed.

Lemma bind_ret {A B : Type} (a : A) (k : A -> M B) (w : world) :
  bind (ret a) k w = k a w.
Proof. reflexivity. Qed.

Ltac quiet_list :=
  repeat (apply quiet_cons; [discriminate|]); apply quiet_nil.

(** [_send_files_direct] always returns a boolean; the counter grows by
    what was sent, which is at most what the files hold. *)
Lemma send_files_direct_run (env : send_env) (sid : string)
      (cb : option callback) (w : world) (s : TransferSession) :
  Dict.get (sessions w) sid = Some s ->
  exists b w' delta tr,
    _send_files_direct env sid cb w = (inr b, w') /\
    0 <= delta <= to_send (fs w) (file_metadata s) /\
    Dict.get (sessions w') sid = Some (bump s delta) /\
    fs w' = fs w /\ trace w' = trace w ++ tr /\
    progress_within (transferred_size s) (transferred_size s + delta)
                    (total_size s) tr /\
    (cb <> None -> total_size s = 0 -> file_metadata s <> [] -> b = false) /\
    (cb = None -> bind_result env = None -> accept_result env = None ->
     tx_fail w = None ->
     blen (encode (json_dumps (metadata_value s))) < 2 ^ 32 ->
     forallb (fun kv => can_read (fs w) (fi_path (snd kv))) (file_metadata s)
     = true ->
     b = true).
Proof.
  intros G.
  assert (R0 : 0 <= to_send (fs w) (file_metadata s)).
  { destruct (for_each_send_run sid cb (file_metadata s) w s G)
      as (_ & _ & d & _ & _ & Hd & _). lia. }
  unfold _send_files_direct. unfold try_ at 1.
  rewrite !bind_emit, bind_get_world. unfold call.
  rewrite bind_assoc, bind_emit.
  cbn [local_ip set_trace].
  set (pre := [SockOpen Server; SetOpt Server "SO_REUSEADDR";
               Bind Server (local_ip w) transfer_port]).
  set (w0 := set_trace _ _).
  assert (T0 : trace w0 = trace w ++ pre).
  { unfold w0, pre. simpl. now rewrite <- !app_assoc. }
  assert (Qpre : quiet pre) by (unfold pre; quiet_list).
  destruct (bind_result env) as [e|].
  { rewrite bind_raise. unfold bind, log, emit, ret.
    eexists false, _, 0, (pre ++ [Log Error "Direct transfer error: {e}"]).
    rewrite bump_zero.
    split; [reflexivity|]. split; [lia|]. split; [exact G|].
    split; [reflexivity|].
    split; [cbn [trace set_trace]; rewrite T0; now rewrite <- app_assoc|].
    split; [apply quiet_within, quiet_app; [exact Qpre | quiet_list]|].
    split; [reflexivity | discriminate]. }
  rewrite bind_ret, !bind_emit, bind_log.
  set (mid := [Listen Server; SetTimeout Server 30;
               Log Info "P2P: Waiting for connection on {self.local_ip}:{self.transfer_port}"]).
  set (w1 := set_trace _ _).
  assert (T1 : trace w1 = trace w ++ pre ++ mid).
  { unfold w1, mid. cbn [trace set_trace]. rewrite T0.
    now rewrite <- !app_assoc. }
  assert (Qmid : quiet mid) by (unfold mid; quiet_list).
  assert (G1 : Dict.get (sessions w1) sid = Some s) by exact G.
  destruct (serve_client_run env sid cb w1 s G1)
    as (r & w2 & d & t & E & Hd & G2 & F2 & T2 & P2 & Rb & Z2 & N2).
  change (fs w1) with (fs w) in *. change (tx_fail w1) with (tx_fail w) in *.
  unfold try_. rewrite E.
  assert (Pw : forall post, quiet post ->
     progress_within (transferred_size s) (transferred_size s + d)
                     (total_size s) (pre ++ mid ++ t ++ post)).
  { intros post Q. apply progress_within_app; [now apply quiet_within|].
    apply progress_within_app; [now apply quiet_within|].
    apply progress_within_app; [exact P2 | now apply quiet_within]. }
  assert (Tr : forall post, trace w2 ++ post
                            = trace w ++ pre ++ mid ++ t ++ post).
  { intros post. rewrite T2, T1. now rewrite <- !app_assoc. }
  destruct r as [e|b].
  - assert (exists post,
       quiet post /\
       (match e with
        | SocketTimeout =>
            log Error "P2P: Connection timeout";; emit (SockClose Server);;
            ret false
        | _ => raise e
        end w2 = (inr false, set_trace w2 (trace w2 ++ post))
        \/ exists e', match e with
        | SocketTimeout =>
            log Error "P2P: Connection timeout";; emit (SockClose Server);;
            ret false
        | _ => raise e
        end w2 = (inl e', set_trace w2 (trace w2 ++ post)))) as (post & Qp & H).
    { destruct e;
        try (exists []; split; [apply quiet_nil|]; right; eexists;
             unfold raise; rewrite app_nil_r; now destruct w2).
      exists [Log Error "P2P: Connection timeout"; SockClose Server].
      split; [quiet_list|]. left.
      unfold bind, log, emit, ret. cbn [trace set_trace].
      now rewrite <- app_assoc. }
    destruct H as [H|[e' H]]; rewrite H.
    + eexists false, _, d, _.
      split; [reflexivity|]. split; [lia|]. split; [exact G2|].
      split; [exact F2|]. split; [cbn [trace set_trace]; apply Tr|].
      split; [now apply Pw|]. split; [reflexivity|].
      intros N B A Ntx L C. specialize (N2 N A Ntx L C). discriminate.
    + unfold bind, log, emit, ret. cbn [trace set_trace].
      eexists false, _, d,
        (pre ++ mid ++ t ++ post ++ [Log Error "Direct transfer error: {e}"]).
      split; [reflexivity|]. split; [lia|]. split; [exact G2|].
      split; [exact F2|].
      split; [cbn [trace set_trace]; rewrite <- app_assoc; apply Tr|].
      split; [apply Pw, quiet_app; [exact Qp | quiet_list]|].
      split; [reflexivity|].
      intros N B A Ntx L C. specialize (N2 N A Ntx L C). discriminate.
  - eexists b, w2, d, (pre ++ mid ++ t ++ []).
    split; [reflexivity|]. split; [lia|]. split; [exact G2|].
    split; [exact F2|].
    split; [rewrite <- Tr; now rewrite app_nil_r|].
    split; [apply Pw, quiet_nil|].
    split.
    + intros N T0' Ne. destruct (Z2 N T0' Ne). discriminate.
    + intros _ _ _ _ _ _. now apply Rb.
Qed.
End SendFilesDirect.

Section SendFilesTop.
Context {RT : Runtime}.

Lemma send_files_run (env : send_env) (sid : string)
      (cb : option callback) (w : world) (s : TransferSession) :
  Dict.get (sessions w) sid = Some s ->
  exists b w' delta tr,
    send_files env sid cb w = (inr b, w') /\
    0 <= delta <= to_send (fs w) (file_metadata s) /\
    Dict.get (sessions w') sid = Some (bump s delta) /\
    fs w' = fs w /\ trace w' = trace w ++ tr /\
    progress_within (transferred_size s) (transferred_size s + delta)
                    (total_size s) tr /\
    (cb <> None -> total_size s = 0 -> file_metadata s <> [] -> b = false) /\
    (cb = None -> bind_result env = None -> accept_result env = None ->
     tx_fail w = None ->
     blen (encode (json_dumps (metadata_value s))) < 2 ^ 32 ->
     forallb (fun kv => can_read (fs w) (fi_path (snd kv))) (file_metadata s)
     = true ->
     b = true).
Proof.
  intros G. unfold send_files. rewrite bind_get_world.
  unfold Dict.mem. rewrite G. cbn [negb]. unfold try_.
  destruct (webrtc_available w).
  - unfold _send_files_webrtc. rewrite bind_log.
    set (w0 := set_trace _ _).
    destruct (send_files_direct_run env sid cb w0 s G)
      as (b & w' & d & t & E & Hd & G' & F' & T' & P' & Z' & N').
    rewrite E. exists b, w', d, (Log Info "WebRTC sending not yet implemented - falling back to direct transfer" :: t).
    split; [reflexivity|]. split; [exact Hd|]. split; [exact G'|].
    split; [exact F'|].
    split; [rewrite T'; unfold w0; cbn [trace set_trace]; now rewrite <- app_assoc|].
    split; [|split; [exact Z' | exact N']].
    intros n dd m [I|I]; [discriminate | eauto].
  - destruct (send_files_direct_run env sid cb w s G)
      as (b & w' & d & t & E & R).
    rewrite E. exists b, w', d, t. split; [reflexivity | exact R].
Qed.
End SendFilesTop.

(** C10. On a registered session with a non-empty [file_metadata] and a
    [total_size] of 0, [send_files] with a progress callback returns False,
    whatever the network does (the percentage divides by [total_size]); the
    same call without a callback returns True once the peer connects and
    the sends and file opens succeed. *)
Theorem send_files_zero_total_size {RT : Runtime} (env : send_env)
        (sid : string) (w : world) (s : TransferSession) :
  Dict.get (sessions w) sid = Some s ->
  total_size s = 0 ->
  file_metadata s <> [] ->
  (forall f : callback,
      exists w', send_files env sid (Some f) w = (inr false, w')) /\
  (bind_result env = None -> accept_result env = None ->
   tx_fail w = None ->
   blen (encode (json_dumps (metadata_value s))) < 2 ^ 32 ->
   forallb (fun kv => can_read (fs w) (fi_path (snd kv))) (file_metadata s)
   = true ->
   exists w', send_files env sid None w = (inr true, w')).
Proof.
  intros G T0 Ne. split.
  - intros f.
    destruct (send_files_run env sid (Some f) w s G)
      as (b & w' & d & t & E & _ & _ & _ & _ & _ & Z & _).
    rewrite (Z ltac:(discriminate) T0 Ne) in E. eauto.
  - intros B A Ntx L C.
    destruct (send_files_run env sid None w s G)
      as (b & w' & d & t & E & _ & _ & _ & _ & _ & _ & N).
    rewrite (N eq_refl B A Ntx L C) in E. eauto.
Qed.

Lemma send_files_zero_total_size_witness :
  exists s,
    Dict.get (sessions zero_byte_world) "jt01" = Some s /\
    total_size s = 0 /\ file_metadata s <> [] /\
    (forall f : callback,
        exists w',
          @send_files Ref.runtime open_network "jt01" (Some f) zero_byte_world
          = (inr false, w')) /\
    exists w',
      @send_files Ref.runtime open_network "jt01" None zero_byte_world
      = (inr true, w').
Proof.
  eexists. split; [vm_compute; reflexivity|].
  split; [reflexivity|]. split; [discriminate|].
  match goal with
  | |- (forall f, exists w', @send_files _ _ _ _ _ = _) /\ _ =>
      pose proof (@send_files_zero_total_size Ref.runtime open_network "jt01"
                    zero_byte_world _ ltac:(vm_compute; reflexivity)
                    eq_refl ltac:(discriminate)) as [H1 H2]
  end.
  split; [exact H1|].
  apply H2; [reflexivity | reflexivity | reflexivity
            | vm_compute; reflexivity | vm_compute; reflexivity].
Defined.

(** ** The counter during the first send of a session *)

Lemma entries_sum_set (d : Dict.t file_info) (k : string) (v : file_info) :
  (forall kv, In kv d -> 0 <= fi_size (snd kv)) ->
  entries_sum (Dict.set d k v) <= entries_sum d + fi_size v.
Proof.
  unfold entries_sum. induction d as [|[k0 v0] d IH]; intros H; simpl.
  - lia.
  - pose proof (H (k0, v0) (or_introl eq_refl)) as H0. simpl in H0.
    destruct (String.eqb k k0); simpl.
    + lia.
    + assert (forall kv, In kv d -> 0 <= fi_size (snd kv))
        by (intros kv I; apply H; now right).
      specialize (IH H1). lia.
Qed.

Lemma node_of_ok (fsys : Dict.t fnode) (p : string) (node : fnode) :
  fs_ok fsys = true -> Dict.get fsys p = Some node ->
  0 <= st_size node /\ readable_size fsys p <= st_size node.
Proof.
  intros Hok G. unfold fs_ok in Hok. rewrite forallb_forall in Hok.
  specialize (Hok (p, node) (get_in _ _ _ G)). simpl in Hok.
  unfold node_ok in Hok. apply andb_prop in Hok. destruct Hok as [A B].
  apply Z.leb_le in A. unfold readable_size. rewrite G.
  destruct node as [sz [c|]]; simpl in *; [apply Z.eqb_eq in B|]; lia.
Qed.

Lemma calculate_metadata_sum (todo : list string) :
  forall self w s' w',
    fs_ok (fs w) = true -> entries_ok (fs w) self ->
    _calculate_metadata todo self w = (inr s', w') ->
    entries_ok (fs w) s'.
Proof.
  induction todo as [|p rest IH]; intros self w s' w' Hok He E.
  - simpl in E. unfold ret in E. now inversion E; subst.
  - simpl in E. rewrite bind_get_world in E.
    destruct (Dict.get (fs w) p) as [node|] eqn:G.
    + destruct (str_encode p) as [e|path_bytes].
      { rewrite lift_inl, bind_raise in E. discriminate. }
      rewrite lift_inr, bind_ret in E.
      destruct (checksum_run p w) as (c & tr1 & E1 & _).
      rewrite (bind_run _ _ _ _ _ E1) in E.
      refine (IH _ (set_trace w (trace w ++ tr1)) s' w' Hok _ E).
      destruct (node_of_ok _ _ _ Hok G) as [N0 N1].
      destruct He as [Hall Hsum]. split; simpl.
      * intros kv I. destruct kv as [k' fi'].
        apply in_set in I. destruct I as [[-> ->]|I]; [simpl; lia | now apply Hall].
      * pose proof (entries_sum_set (file_metadata self)
                      (Hashlib.MD5.hexdigest path_bytes)
                      {| fi_path := p; fi_name := basename p;
                         fi_size := st_size node;
                         fi_chunks := st_size node / 8192 + 1;
                         fi_checksum := c |}
                      (fun kv I => proj1 (Hall kv I))) as S.
        simpl in S. lia.
    + eapply IH; eauto.
Qed.

Lemma to_send_le (fsys : Dict.t fnode) (entries : Dict.t file_info) :
  (forall kv, In kv entries ->
              readable_size fsys (fi_path (snd kv)) <= fi_size (snd kv)) ->
  to_send fsys entries <= entries_sum entries.
Proof.
  unfold to_send, entries_sum. induction entries as [|kv rest IH]; intros H; simpl.
  - lia.
  - pose proof (H kv (or_introl eq_refl)).
    assert (forall kv, In kv rest ->
              readable_size fsys (fi_path (snd kv)) <= fi_size (snd kv))
      by (intros kv' I; apply H; now right).
    specialize (IH H1). lia.
Qed.

(** C2 (as the code has it). [transferred_size] is a counter of the session:
    it is 0 when [create_session] has built the session (which it does for
    every list whose existing paths can be encoded) and grows by each
    chunk sent; during the first [send_files] on a session whose files are
    as they were when it was created, every value it takes (each is reported
    by a progress call, when there is a callback) lies between 0 and
    [total_size], and so does its value when the call returns, whatever the
    network and the callback do. *)
Theorem first_send_counter_within_total {RT : Runtime} (env : send_env)
        (sid : string) (fl : list string) (cb : option callback) (w0 : world) :
  fs_ok (fs w0) = true ->
  hashable (fs w0) fl = true ->
  exists s1 w1 b s2 w2 tr,
    create_session sid fl w0 = (inr true, w1) /\
    Dict.get (sessions w1) sid = Some s1 /\ transferred_size s1 = 0 /\
    send_files env sid cb w1 = (inr b, w2) /\
    Dict.get (sessions w2) sid = Some s2 /\
    total_size s2 = total_size s1 /\
    0 <= transferred_size s2 <= total_size s2 /\
    trace w2 = trace w1 ++ tr /\
    progress_within 0 (total_size s2) (total_size s2) tr.
Proof.
  intros Hok Hh.
  assert (exists s1 w1,
             create_session sid fl w0 = (inr true, w1) /\
             Dict.get (sessions w1) sid = Some s1 /\
             transferred_size s1 = 0 /\ fs w1 = fs w0 /\
             entries_ok (fs w0) s1) as (s1 & w1 & E1 & G1 & T1 & F1 & Ok1).
  { unfold create_session, try_, bind at 1. rewrite init_is_calculate.
    destruct (calculate_metadata_run fl
                {| session_id := sid; files := fl; file_metadata := [];
                   total_size := 0; transferred_size := 0;
                   is_active := false |} w0 Hh)
      as (s & tr & E & _ & Htr & _).
    assert (Ok0 : entries_ok (fs w0)
                    {| session_id := sid; files := fl; file_metadata := [];
                       total_size := 0; transferred_size := 0;
                       is_active := false |}).
    { split; [intros kv []|]. unfold entries_sum. simpl. lia. }
    pose proof (calculate_metadata_sum fl _ w0 s _ Hok Ok0 E) as Ok.
    rewrite E. eexists s, _. split; [reflexivity|]. simpl.
    rewrite get_set_same. auto. }
  destruct (send_files_run env sid cb w1 s1 G1)
    as (b & w2 & d & tr & E2 & Hd & G2 & F2 & T2 & P2 & _).
  rewrite F1 in Hd. destruct Ok1 as [Hall Hsum].
  pose proof (to_send_le (fs w0) (file_metadata s1)
                (fun kv I => proj2 (Hall kv I))) as Hle.
  exists s1, w1, b, (bump s1 d), w2, tr.
  split; [exact E1|]. split; [exact G1|]. split; [exact T1|].
  split; [exact E2|]. split; [exact G2|]. split; [reflexivity|].
  simpl. rewrite T1 in *. split; [lia|]. split; [exact T2|].
  eapply progress_within_weaken; [| |exact P2]; lia.
Qed.

Lemma first_send_counter_within_total_witness :
  fs_ok (fs two_files) = true /\
  hashable (fs two_files) ["/data/a.txt"; "/data/b.bin"] = true /\
  exists s1 w1 b s2 w2 tr,
    create_session "jt01" ["/data/a.txt"; "/data/b.bin"] two_files
    = (inr true, w1) /\
    Dict.get (sessions w1) "jt01" = Some s1 /\ transferred_size s1 = 0 /\
    @send_files Ref.runtime open_network "jt01" None w1 = (inr b, w2) /\
    Dict.get (sessions w2) "jt01" = Some s2 /\
    total_size s2 = total_size s1 /\
    0 <= transferred_size s2 <= total_size s2 /\
    trace w2 = trace w1 ++ tr /\
    progress_within 0 (total_size s2) (total_size s2) tr.
Proof.
  assert (H : fs_ok (fs two_files) = true) by (vm_compute; reflexivity).
  assert (H' : hashable (fs two_files) ["/data/a.txt"; "/data/b.bin"] = true)
    by (vm_compute; reflexivity).
  split; [exact H|]. split; [exact H'|].
  exact (@first_send_counter_within_total Ref.runtime open_network "jt01"
           ["/data/a.txt"; "/data/b.bin"] None two_files H H').
Defined.

(** C2 as stated fails: nothing resets the counter, so a second
    [send_files] on the same session leaves [transferred_size] at twice
    [total_size]. *)
Lemma second_send_exceeds_total :
  let send := @send_files Ref.runtime open_network "jt01" None in
  let w1 := snd (send ten_byte_world) in
  let w2 := snd (send w1) in
  fst (send ten_byte_world) = inr true /\ fst (send w1) = inr true /\
  option_map (fun s => (transferred_size s, total_size s))
             (Dict.get (sessions w1) "jt01") = Some (10, 10) /\
  option_map (fun s => (transferred_size s, total_size s))
             (Dict.get (sessions w2) "jt01") = Some (20, 10) /\
  ~ (20 <= 10).
Proof.
  vm_compute. repeat split; try reflexivity. intros H. apply H. reflexivity.
Qed.

(** ** Discovery, client side *)

Lemma eqb_spec_str (v : value) :
  eq_str v "session_response" = true \/ eq_str v "session_response" = false.
Proof. destruct (eq_str v "session_response"); auto. Qed.

Section DiscoveryClient.
Context {RT : Runtime}.

Ltac trace_eq := cbn [trace set_trace]; rewrite <- ?app_assoc; reflexivity.

(* a run that ends with [None]: the trace facts, then no endpoint *)
Ltac leaf :=
  eexists _, _, _; split; [reflexivity|]; split; [trace_eq|];
  split; [cbn; lia|]; split; [cbn; lia|];
  split; [intros _; eexists; split; reflexivity|];
  split; [congruence|].

(** C7. One call of [discover_session] broadcasts at most one datagram
    (exactly one, to the discovery port, once its socket exists), under a
    5-second timeout, and calls [recvfrom] at most once; it never raises; it
    returns the advertised endpoint exactly when the one reply is a
    well-formed [session_response] for the requested session, and [None] in
    every other case (timeout, undecodable or unparseable reply, reply for
    another session). *)
Theorem discover_session_single_exchange (env : probe_env) (sid : string)
        (w : world) :
  exists r w' tr,
    discover_session env sid w = (inr r, w') /\
    trace w' = trace w ++ tr /\
    (sends tr <= 1)%nat /\ (receives tr <= 1)%nat /\
    (probe_socket env = None ->
     exists rest,
       tr = SockOpen Probe :: SetOpt Probe "SO_BROADCAST"
            :: SetTimeout Probe 5
            :: SendTo Probe (probe_datagram sid) "<broadcast>" discovery_port
            :: rest /\
       sends tr = 1%nat) /\
    (r <> VNone -> matching_reply env sid r) /\
    (probe_socket env = None -> probe_sendto env = None ->
     forall endpoint, matching_reply env sid endpoint -> r = endpoint).
Proof.
  unfold discover_session, matching_reply, probe_datagram, call.
  cbv zeta. unfold try_ at 1. rewrite bind_assoc, bind_emit.
  destruct (probe_socket env) as [e0|] eqn:S0.
  { rewrite bind_raise. unfold bind, log, emit, ret.
    eexists _, _, _. split; [reflexivity|]. split; [trace_eq|].
    split; [cbn; lia|]. split; [cbn; lia|].
    split; [discriminate|]. split; [congruence | discriminate]. }
  rewrite bind_ret, !bind_emit, bind_assoc, bind_emit.
  destruct (probe_sendto env) as [e1|] eqn:S1.
  { rewrite bind_raise. unfold bind, log, emit, ret.
    eexists _, _, _. split; [reflexivity|]. split; [trace_eq|].
    split; [cbn; lia|]. split; [cbn; lia|].
    split; [intros _; eexists; split; reflexivity|].
    split; [congruence | discriminate]. }
  rewrite bind_ret, bind_try, bind_emit.
  unfold lift, bind, log, emit, ret, raise.
  destruct (probe_reply env) as [e2|data] eqn:R.
  { destruct e2; leaf;
      intros _ _ ep (d & t & rsp & ty & rid & A & _); discriminate. }
  destruct (decode (take 1024 data)) as [e3|text] eqn:D.
  { destruct e3; leaf;
      intros _ _ ep (d & t & rsp & ty & rid & A & B & _); congruence. }
  destruct (json_loads text) as [e4|response] eqn:J.
  { destruct e4; leaf;
      intros _ _ ep (d & t & rsp & ty & rid & A & B & C & _); congruence. }
  destruct (py_get response "type") as [e5|ty] eqn:Ty.
  { destruct e5; leaf;
      intros _ _ ep (d & t & rsp & ty & rid & A & B & C & E & _); congruence. }
  destruct (eqb_spec_str ty) as [Et|Et]; rewrite Et.
  2:{ leaf.
      intros _ _ ep (d & t & rsp & ty' & rid & A & B & C & E & F & _).
      congruence. }
  destruct (py_get response "session_id") as [e6|rid] eqn:Rid.
  { destruct e6; leaf;
      intros _ _ ep (d & t & rsp & ty' & rid & A & B & C & E & F & G & _);
      congruence. }
  destruct (eq_str rid sid) eqn:Er.
  2:{ leaf.
      intros _ _ ep (d & t & rsp & ty' & rid' & A & B & C & E & F & G & H & _).
      congruence. }
  destruct (py_get response "endpoint") as [e7|endpoint] eqn:Ep.
  { destruct e7; leaf;
      intros _ _ ep (d & t & rsp & ty' & rid' & A & B & C & E & F & G & H & I);
      congruence. }
  eexists _, _, _. split; [reflexivity|]. split; [trace_eq|].
  split; [cbn; lia|]. split; [cbn; lia|].
  split; [intros _; eexists; split; reflexivity|]. split.
  - intros _. exists data, text, response, ty, rid. auto 10.
  - intros _ _ ep (d & t & rsp & ty' & rid' & A & B & C & E & F & G & H & I).
    congruence.
Qed.
End DiscoveryClient.

(** ** Discovery, server side *)

Section DiscoveryServer.
Context {RT : Runtime}.

Ltac trace_eq := cbn [trace set_trace]; rewrite <- ?app_assoc; reflexivity.

(* a run of the handler that sends nothing *)
Ltac silent :=
  eexists _, _, []; split; [reflexivity|];
  split; [now rewrite app_nil_r|]; split; [reflexivity|];
  split; [cbn; lia|]; split; [cbn; discriminate|];
  first [discriminate | intros _; split; reflexivity].

(** The handler sends at most one datagram, and sends one only to answer a
    parsed [session_discovery] query for a session of the registry, with
    the [session_response] of this host; a datagram the JSON parser rejects
    is dropped without a trace. *)
Lemma handle_discovery_message_run (message host : string) (port : Z)
      (w : world) :
  exists r w' tr,
    _handle_discovery_message message host port w = (r, w') /\
    trace w' = trace w ++ tr /\ sessions w' = sessions w /\
    (sends tr <= 1)%nat /\
    (sends tr = 1%nat ->
     exists data ty sid,
       json_loads message = inr data /\
       py_get data "type" = inr ty /\ eq_str ty "session_discovery" = true /\
       py_get data "session_id" = inr (VStr sid) /\
       Dict.mem (sessions w) sid = true /\
       tr = [SendTo Discovery (response_for w (VStr sid)) host port]) /\
    (json_loads message = inl JSONDecodeError -> r = inr tt /\ tr = []).
Proof.
  unfold _handle_discovery_message, try_, response_for.
  unfold lift at 1. unfold bind at 1.
  destruct (json_loads message) as [e|data] eqn:J.
  { destruct e; unfold ret, raise; silent. }
  unfold lift at 1. unfold bind at 1.
  destruct (py_get data "type") as [e|ty] eqn:Ty.
  { destruct e; unfold ret, raise; silent. }
  destruct (eq_str ty "session_discovery") eqn:Et.
  2:{ unfold ret. silent. }
  unfold lift at 1. unfold bind at 1.
  destruct (py_get data "session_id") as [e|sid] eqn:Sid.
  { destruct e; unfold ret, raise; silent. }
  rewrite bind_get_world. unfold lift at 1. unfold bind at 1.
  destruct (py_in sid (sessions w)) as [e|known] eqn:K.
  { destruct e; unfold ret, raise; silent. }
  destruct known.
  2:{ unfold ret. silent. }
  assert (exists name, sid = VStr name /\ Dict.mem (sessions w) name = true)
    as (name & -> & Mem).
  { destruct sid; simpl in K; try discriminate. inversion K. eauto. }
  unfold sendto, spend_send.
  destruct (tx_fail w) as [[[|n] e]|] eqn:T.
  - destruct e; eexists _, _, _; (split; [reflexivity|]);
      (split; [trace_eq|]); (split; [reflexivity|]);
      (split; [cbn; lia|]); (split; [|discriminate]);
      intros _; exists data, ty, name; auto 10.
  - eexists _, _, _. split; [reflexivity|]. split; [trace_eq|].
    split; [reflexivity|]. split; [cbn; lia|]. split; [|discriminate].
    intros _. exists data, ty, name. auto 10.
  - eexists _, _, _. split; [reflexivity|]. split; [trace_eq|].
    split; [reflexivity|]. split; [cbn; lia|]. split; [|discriminate].
    intros _. exists data, ty, name. auto 10.
Qed.

(** A datagram that decodes but is not JSON is dropped and the loop goes
    on to the next arrival. *)
Lemma discovery_loop_skips_invalid_json (data : bytes) (host : string)
      (port : Z) (rest : list arrival) (w : world) (text : string) :
  decode (take 1024 data) = inr text ->
  json_loads text = inl JSONDecodeError ->
  discovery_loop (Datagram data host port :: rest) w
  = discovery_loop rest
      (set_trace w (trace w ++ [RecvFrom Discovery 1024])).
Proof.
  intros D J. cbn [discovery_loop]. rewrite bind_try, bind_emit.
  rewrite D, lift_inr, bind_ret.
  destruct (handle_discovery_message_run text host port
              (set_trace w (trace w ++ [RecvFrom Discovery 1024])))
    as (r & w' & tr & E & T & _ & _ & _ & Z).
  destruct (Z J) as [-> ->].
  assert (w' = set_trace w (trace w ++ [RecvFrom Discovery 1024])).
  { unfold _handle_discovery_message, try_, lift, bind in E. rewrite J in E.
    unfold ret in E. now inversion E. }
  subst w'. rewrite (bind_run _ _ _ _ _ E). reflexivity.
Qed.

(** A datagram that is not valid UTF-8 ends the listener: the error is
    logged and the arrivals that follow are never read. *)
Lemma discovery_loop_breaks_on_undecodable (data : bytes) (host : string)
      (port : Z) (rest : list arrival) (w : world) :
  decode (take 1024 data) = inl UnicodeDecodeError ->
  discovery_loop (Datagram data host port :: rest) w
  = (inr rest,
     set_trace w (trace w ++ [RecvFrom Discovery 1024;
                              Log Error "Discovery service error: {e}"])).
Proof.
  intros D. cbn [discovery_loop]. rewrite bind_try, bind_emit.
  rewrite D, lift_inl, bind_raise.
  unfold bind, log, emit, ret. cbn [trace set_trace].
  now rewrite <- app_assoc.
Qed.
End DiscoveryServer.

(** C8, where the code departs from it. The listener holds session
    [jt01]. A first datagram that is not valid UTF-8 (the single byte 0xff)
    is not discarded silently: the error is logged and the loop ends, so
    the well-formed query that follows is never read and never answered;
    the same query arriving alone, or after a datagram that is text but not
    JSON, is answered. *)
Theorem discovery_listener_stops_on_invalid_utf8 :
  let query := Datagram (query_for "jt01") "192.168.1.30" 50000 in
  let run := fun arrivals =>
               @discovery_loop Ref.runtime arrivals ten_byte_world in
  Dict.mem (sessions ten_byte_world) "jt01" = true /\
  (* the query alone is answered *)
  fst (run [query]) = inr [] /\
  trace (snd (run [query]))
  = trace ten_byte_world ++
    [RecvFrom Discovery 1024;
     SendTo Discovery (@response_for Ref.runtime ten_byte_world (VStr "jt01"))
            "192.168.1.30" 50000] /\
  (* after text that is not JSON it is answered too *)
  fst (run [Datagram (encode "hello") "192.168.1.31" 50001; query]) = inr [] /\
  sends (trace (snd (run [Datagram (encode "hello") "192.168.1.31" 50001;
                          query]))) = 1%nat /\
  (* after a byte that is not UTF-8 it is never read *)
  fst (run [Datagram [xff] "192.168.1.31" 50001; query]) = inr [query] /\
  trace (snd (run [Datagram [xff] "192.168.1.31" 50001; query]))
  = trace ten_byte_world ++
    [RecvFrom Discovery 1024; Log Error "Discovery service error: {e}"] /\
  sends (trace (snd (run [Datagram [xff] "192.168.1.31" 50001; query])))
  = 0%nat.
Proof.
  cbv zeta. repeat split; vm_compute; reflexivity.
Qed.

(** ** Receiving *)

Section Receiver.
Context {RT : Runtime}.

Lemma split_colon_nonempty (text host port : string) :
  split_colon text = [host; port] -> truthy (VStr text) = true.
Proof. destruct text; [discriminate | reflexivity]. Qed.

(** The metadata check of [_receive_files_direct], from the connected
    socket on. *)
Lemma receive_files_direct_rejects (env : recv_env) (sid dir text host port : string)
      (cb : option callback) (p : Z) (w0 w1 w2 : world) (metadata : value) :
  split_colon text = [host; port] ->
  int_of_str port = inr p ->
  connect_result env = None ->
  w1 = set_trace w0
         (trace w0 ++ [SockOpen Client; SetTimeout Client 30;
                       Connect Client host p;
                       Log Info "P2P: Connected to sender at {endpoint}"]) ->
  _receive_json Client w1 = (inr metadata, w2) ->
  (truthy metadata = false \/
   exists got, py_get metadata "session_id" = inr got /\
               eq_str got sid = false) ->
  _receive_files_direct env sid dir (VStr text) cb w0
  = (inr false,
     set_trace w2 (trace w2 ++ [Log Error "Invalid session metadata";
                                SockClose Client])).
Proof.
  intros Hs Hp Hc -> Hj Hbad.
  unfold _receive_files_direct, try_.
  rewrite bind_ret, Hs, bind_ret. cbn [fst snd].
  rewrite Hp, lift_inr, bind_ret, !bind_emit.
  unfold call. rewrite bind_assoc, bind_emit, Hc, bind_ret, bind_log.
  cbn [trace set_trace].
  match goal with
  | |- context [bind (_receive_json Client) _ ?w] =>
      replace w with
        (set_trace w0
           (trace w0 ++ [SockOpen Client; SetTimeout Client 30;
                         Connect Client host p;
                         Log Info "P2P: Connected to sender at {endpoint}"]))
        by (unfold set_trace; cbn; now rewrite <- !app_assoc)
  end.
  rewrite (bind_run _ _ _ _ _ Hj).
  destruct Hbad as [Hf|(got & Hg & He)].
  - rewrite Hf. change (negb false) with true. cbv iota.
    rewrite bind_ret. cbv iota. rewrite bind_log, bind_emit.
    unfold ret, set_trace. cbn. now rewrite <- app_assoc.
  - destruct (truthy metadata).
    + change (negb true) with false. cbv iota.
      rewrite Hg, lift_inr, bind_assoc, bind_ret, bind_ret, He.
      change (negb false) with true. cbv iota.
      rewrite bind_log, bind_emit.
      unfold ret, set_trace. cbn. now rewrite <- app_assoc.
    + change (negb false) with true. cbv iota.
      rewrite bind_ret. cbv iota. rewrite bind_log, bind_emit.
      unfold ret, set_trace. cbn. now rewrite <- app_assoc.
Qed.

(** C5. When the endpoint has been discovered and the connection made, a
    metadata frame that is absent ([_receive_json] gave [None], or any other
    false value) or that carries another [session_id] makes [receive_files]
    log the error, close the connection and return False; nothing is read
    from the stream after the frame and no file is opened or written. *)
Theorem receive_files_rejects_bad_metadata (env : recv_env)
        (sid dir text host port : string) (cb : option callback) (p : Z)
        (w w0 w2 : world) (metadata : value) :
  discover_session (probe env) sid w = (inr (VStr text), w0) ->
  split_colon text = [host; port] ->
  int_of_str port = inr p ->
  connect_result env = None ->
  _receive_json Client (connected w0 host p) = (inr metadata, w2) ->
  (truthy metadata = false \/
   exists got, py_get metadata "session_id" = inr got /\
               eq_str got sid = false) ->
  receive_files env sid dir cb w
  = (inr false,
     set_trace w2 (trace w2 ++ [Log Error "Invalid session metadata";
                                SockClose Client])).
Proof.
  intros Hd Hs Hp Hc Hj Hbad.
  unfold receive_files, try_.
  rewrite (bind_run _ _ _ _ _ Hd).
  rewrite (split_colon_nonempty _ _ _ Hs). cbn [negb].
  rewrite bind_get_world. unfold connected in Hj.
  destruct (webrtc_available w0) eqn:Wa.
  - unfold _receive_files_webrtc. rewrite bind_log.
    erewrite receive_files_direct_rejects; eauto.
    unfold set_trace; cbn. now rewrite <- !app_assoc.
  - erewrite receive_files_direct_rejects; eauto.
Qed.
End Receiver.

Lemma receive_files_rejects_bad_metadata_witness :
  let w := truncated_stream "other" in
  let w0 := snd (@discover_session Ref.runtime (probe answering) "jt01" w) in
  let w2 := snd (@_receive_json Ref.runtime Client
                   (connected w0 "192.168.1.20" 45679)) in
  (exists got,
      py_get (one_file_of_five "other") "session_id" = inr got /\
      eq_str got "jt01" = false) /\
  @receive_files Ref.runtime answering "jt01" "/downloads" None w
  = (inr false,
     set_trace w2 (trace w2 ++ [Log Error "Invalid session metadata";
                                SockClose Client])) /\
  stream w2 = encode "he".
Proof.
  intros w w0 w2.
  assert (Hbad : exists got,
             py_get (one_file_of_five "other") "session_id" = inr got /\
             eq_str got "jt01" = false).
  { eexists. split; reflexivity. }
  split; [exact Hbad|]. split.
  - apply (@receive_files_rejects_bad_metadata Ref.runtime answering "jt01"
             "/downloads" "192.168.1.20:45679" "192.168.1.20" "45679" None
             45679 w w0 w2 (one_file_of_five "other")).
    + vm_compute. reflexivity.
    + reflexivity.
    + reflexivity.
    + reflexivity.
    + vm_compute. reflexivity.
    + right. exact Hbad.
  - vm_compute. reflexivity.
Defined.

(** A zero-length read leaves the file loop by [break]: the loop returns
    normally with what it has. *)
Lemma recv_loop_breaks_when_closed {RT : Runtime} (fuel : nat)
      (cb : option callback) (total : value) (name : string)
      (file_size bytes_received received_size : Z) (w : world) :
  rx_end w = None -> stream w = [] -> bytes_received < file_size ->
  exists w',
    recv_loop (S fuel) cb total name file_size bytes_received received_size w
    = (inr received_size, w') /\
    trace w' = trace w ++ [Recv Client (Z.min 8192 (file_size - bytes_received))].
Proof.
  intros He Hs Hlt. cbn [recv_loop].
  destruct (bytes_received <? file_size) eqn:C; [|lia].
  destruct (recv_closed Client (Z.min 8192 (file_size - bytes_received)) w
              ltac:(lia) Hs He) as (w' & R & _ & T & _).
  rewrite (bind_run _ _ _ _ _ R). exists w'. split; [reflexivity | exact T].
Qed.

(** C1, where the code departs from it. The sender announces one file of
    five bytes, delivers two and closes. The zero-length read that follows
    ends the file loop by [break]; [receive_files] then closes the socket,
    logs success and returns True, leaving a two-byte file. *)
Theorem receive_files_truncated_file_returns_true :
  let r := @receive_files Ref.runtime answering "jt01" "/downloads" None
             (truncated_stream "jt01") in
  stream (truncated_stream "jt01")
  = @frame_of Ref.runtime (one_file_of_five "jt01") ++ encode "he" /\
  rx_end (truncated_stream "jt01") = None /\
  fst r = inr true /\ fst r <> inr false /\
  skipn 13 (trace (snd r))
  = [Mkdir "/downloads"; OpenWrite "/downloads" "a.txt";
     Recv Client 5; Write (encode "he"); Recv Client 3;
     SockClose Client;
     Log Info "P2P: File reception completed successfully"].
Proof.
  cbv zeta. split; [vm_compute; reflexivity|]. split; [reflexivity|].
  split; [vm_compute; reflexivity|].
  split; [vm_compute; discriminate|]. vm_compute. reflexivity.
Qed.

(** ** Checksum verification *)

Lemma md5_hexdigest_length (c : bytes) :
  String.length (Hashlib.MD5.hexdigest c) = 32%nat.
Proof.
  unfold Hashlib.MD5.hexdigest.
  destruct (Hashlib.run Hashlib.MD5.step (Hashlib.le_bytes 8)
                        Hashlib.MD5.init c) as [[[a b] c'] d].
  reflexivity.
Qed.

Lemma lower_length (s : string) : String.length (lower s) = String.length s.
Proof. induction s; simpl; auto. Qed.

Lemma lower_md5_nonempty (c : bytes) :
  String.eqb (lower (Hashlib.MD5.hexdigest c)) (lower "") = false.
Proof.
  apply String.eqb_neq. intros E.
  apply (f_equal String.length) in E.
  rewrite lower_length, md5_hexdigest_length in E. discriminate.
Qed.

Lemma fileinfo_checksum_run (path : string) (w : world) :
  exists actual tr,
    FileInfo_checksum path w = (inr actual, set_trace w (trace w ++ tr)) /\
    (actual <> "" ->
     exists node c,
       Dict.get (fs w) path = Some node /\ st_size node < 104857600 /\
       content node = Some c /\ actual = Hashlib.MD5.hexdigest c) /\
    (forall node c,
        Dict.get (fs w) path = Some node -> st_size node < 104857600 ->
        content node = Some c -> actual = Hashlib.MD5.hexdigest c).
Proof.
  unfold FileInfo_checksum. rewrite bind_get_world.
  destruct (Dict.get (fs w) path) as [node|] eqn:G.
  2:{ exists "", []. unfold ret. rewrite app_nil_r.
      split; [now destruct w|]. split; [congruence | discriminate]. }
  unfold try_. change (100 * 1024 * 1024) with 104857600.
  destruct (st_size node <? 104857600) eqn:L.
  2:{ exists "", []. unfold ret. rewrite app_nil_r.
      split; [now destruct w|]. split; [congruence|].
      intros n c [= <-] Hlt. apply Z.ltb_ge in L. lia. }
  apply Z.ltb_lt in L.
  unfold FileInfo__calculate_checksum, try_.
  destruct (read_file_run path w) as [(c & nd & G' & C & E)|[U E]].
  - rewrite (bind_run _ _ _ _ _ E). unfold ret.
    exists (Hashlib.MD5.hexdigest c), [OpenRead path].
    split; [reflexivity|]. split.
    + intros _. exists node, c. rewrite G in G'. inversion G'; subst. auto.
    + intros n c0 [= <-] _ C0. rewrite G in G'. inversion G'; subst. congruence.
  - rewrite (bind_fail _ _ _ _ _ E). unfold bind, log, emit, ret.
    exists "", [Log Error "Error calculating checksum: {e}"].
    split; [reflexivity|]. split; [congruence|].
    intros n c [= <-] _ C0. destruct U as [N|(nd & G' & C)]; [congruence|].
    rewrite G in G'. inversion G'; subst. congruence.
Qed.

(** C9 (as the code has it). [FileManager.verify_file_integrity] succeeds
    trivially, without opening the file, when the expected checksum is
    empty; otherwise it recomputes the MD5 digest of the file (when it
    exists and is smaller than 100 MB) and succeeds exactly when the digest
    and the expected value are the same string, letter case included.
    [utils.verify_checksum] compares the recomputed digest to the expected
    value case-insensitively, and has no shortcut: an empty expected
    checksum fails. *)
Theorem checksum_verification (path expected : string) (w : world) :
  verify_file_integrity path "" w
  = (inr true,
     set_trace w (trace w ++ [Log Warning "No checksum provided for verification"]))
  /\
  (expected <> "" ->
   exists b w',
     verify_file_integrity path expected w = (inr b, w') /\
     (b = true <->
      exists node c,
        Dict.get (fs w) path = Some node /\ st_size node < 104857600 /\
        content node = Some c /\ Hashlib.MD5.hexdigest c = expected))
  /\
  (forall node c,
      Dict.get (fs w) path = Some node -> content node = Some c ->
      verify_checksum path expected "md5" w
      = (inr (String.eqb (lower (Hashlib.MD5.hexdigest c)) (lower expected)),
         set_trace w (trace w ++ [OpenRead path])) /\
      verify_checksum path expected "sha256" w
      = (inr (String.eqb (lower (Hashlib.SHA256.hexdigest c)) (lower expected)),
         set_trace w (trace w ++ [OpenRead path])) /\
      fst (verify_checksum path "" "md5" w) = inr false).
Proof.
  split; [reflexivity|]. split.
  - intros Ne. unfold verify_file_integrity.
    apply String.eqb_neq in Ne. rewrite Ne. unfold try_.
    destruct (fileinfo_checksum_run path w) as (actual & tr & E & Hsome & Hall).
    rewrite (bind_run _ _ _ _ _ E).
    apply String.eqb_neq in Ne. cbv beta zeta.
    destruct (String.eqb actual expected) eqn:Q.
    + apply String.eqb_eq in Q. subst actual.
      unfold bind, ret. eexists true, _. split; [reflexivity|].
      split; [intros _|reflexivity].
      destruct (Hsome Ne) as (node & c & G & L & C & A). eauto 10.
    + unfold bind, log, emit, ret.
      eexists false, _. split; [reflexivity|].
      split; [discriminate|].
      intros (node & c & G & L & C & A).
      rewrite <- (Hall node c G L C) in A. apply String.eqb_neq in Q.
      contradiction.
  - intros node c G C.
    assert (R : read_file path w
                = (inr c, set_trace w (trace w ++ [OpenRead path]))).
    { unfold read_file. rewrite bind_get_world, G. destruct node as [sz ct].
      simpl in C. subst ct. reflexivity. }
    unfold verify_checksum, try_. cbn [String.eqb Ascii.eqb Bool.eqb].
    rewrite !(bind_run _ _ _ _ _ R). unfold ret.
    split; [reflexivity|]. split; [reflexivity|].
    cbn [fst]. now rewrite lower_md5_nonempty.
Qed.

(** C9 as stated fails on both verifiers: [verify_file_integrity] rejects
    the right digest written in upper case (a case-insensitive comparison
    accepts it, as [verify_checksum] does), and [verify_checksum] rejects an
    empty expected checksum instead of succeeding trivially. *)
Lemma verify_file_integrity_is_case_sensitive :
  let upper_digest := "D41D8CD98F00B204E9800998ECF8427E" in
  lower upper_digest = Hashlib.MD5.hexdigest [] /\
  fst (verify_file_integrity "/downloads/empty.bin" upper_digest
         empty_file_world) = inr false /\
  fst (verify_checksum "/downloads/empty.bin" upper_digest "md5"
         empty_file_world) = inr true /\
  fst (verify_checksum "/downloads/empty.bin" "" "md5" empty_file_world)
  = inr false /\
  fst (verify_file_integrity "/downloads/empty.bin" "" empty_file_world)
  = inr true.
Proof.
  cbv zeta. repeat split; vm_compute; reflexivity.
Qed.

(** ** The loops never run out of fuel *)

Section Fuel.
Context {RT : Runtime}.

(** What one [recv] can yield: an error only when the stream says so. *)
Lemma recv_outcome (s : sock) (n : Z) (w : world) :
  0 < n ->
  exists r w',
    recv s n w = (r, w') /\ rx_end w' = rx_end w /\
    (forall e, r = inl e -> rx_end w = Some e).
Proof.
  intros Hn. unfold recv, bind, emit.
  destruct (n <? 0) eqn:E1; [lia|]. destruct (n =? 0) eqn:E2; [lia|].
  cbn [set_trace rx rx_end].
  destruct (drop_empty (rx w)) as [|seg rest].
  - destruct (rx_end w) as [e|] eqn:R; eexists _, _;
      (split; [reflexivity|]); (split; [exact R|]); congruence.
  - eexists _, _. split; [reflexivity|]. split; [reflexivity | discriminate].
Qed.

Lemma receive_json_loop_fuel (s : sock) (length : Z) :
  forall (fuel : nat) (acc : bytes) (w : world),
    length - blen acc <= Z.of_nat fuel ->
    rx_end w <> Some FuelExhausted ->
    fst (_receive_json_loop fuel s length acc w) <> inl FuelExhausted.
Proof.
  induction fuel as [|fuel IH]; intros acc w Hf He; cbn [_receive_json_loop];
    destruct (blen acc <? length) eqn:C; try (unfold ret; cbn; discriminate).
  - lia.
  - apply Z.ltb_lt in C.
    destruct (recv_outcome s (length - blen acc) w ltac:(lia))
      as (r & w1 & R & E1 & Er).
    destruct r as [e|chunk].
    + rewrite (bind_fail _ _ _ _ _ R). cbn. intros [= ->].
      now rewrite (Er _ eq_refl) in He.
    + rewrite (bind_run _ _ _ _ _ R).
      destruct chunk as [|b chunk]; [unfold ret; cbn; discriminate|].
      apply IH; [|now rewrite E1].
      rewrite blen_app. unfold blen at 2. cbn [List.length]. lia.
Qed.

Lemma report_received_outcome (cb : option callback) (received : Z)
      (total : value) (msg : string) (w : world) :
  exists r w',
    report_received cb received total msg w = (r, w') /\
    rx_end w' = rx_end w /\ r <> inl FuelExhausted.
Proof.
  unfold report_received, report. destruct cb as [f|].
  - unfold lift, bind. destruct (py_number total) as [e|den] eqn:P.
    + eexists _, _. split; [reflexivity|]. split; [reflexivity|].
      destruct total; simpl in P; inversion P; discriminate.
    + destruct (den =? 0).
      * eexists _, _. split; [reflexivity|]. split; [reflexivity|discriminate].
      * unfold emit, ret, raise. destruct (f received den msg);
          eexists _, _; (split; [reflexivity|]);
          (split; [reflexivity|discriminate]).
  - eexists _, _. split; [reflexivity|]. split; [reflexivity|discriminate].
Qed.

Lemma recv_loop_fuel (cb : option callback) (total : value) (name : string)
      (file_size : Z) :
  forall (fuel : nat) (bytes_received received_size : Z) (w : world),
    file_size - bytes_received <= Z.of_nat fuel ->
    rx_end w <> Some FuelExhausted ->
    fst (recv_loop fuel cb total name file_size bytes_received received_size w)
    <> inl FuelExhausted.
Proof.
  induction fuel as [|fuel IH]; intros br rs w Hf He; cbn [recv_loop];
    destruct (br <? file_size) eqn:C; try (unfold ret; cbn; discriminate).
  - lia.
  - apply Z.ltb_lt in C.
    destruct (recv_outcome Client (Z.min 8192 (file_size - br)) w ltac:(lia))
      as (r & w1 & R & E1 & Er).
    destruct r as [e|chunk].
    + rewrite (bind_fail _ _ _ _ _ R). cbn. intros [= ->].
      now rewrite (Er _ eq_refl) in He.
    + rewrite (bind_run _ _ _ _ _ R).
      destruct chunk as [|b chunk]; [unfold ret; cbn; discriminate|].
      rewrite bind_emit.
      destruct (report_received_outcome cb (rs + blen (b :: chunk)) total
                  (String.append "Receiving " name)
                  (set_trace w1 (trace w1 ++ [Write (b :: chunk)])))
        as (r2 & w2 & R2 & E2 & N2).
      destruct r2 as [e|[]].
      * rewrite (bind_fail _ _ _ _ _ R2). cbn. congruence.
      * rewrite (bind_run _ _ _ _ _ R2).
        apply IH; [|rewrite E2; cbn [rx_end set_trace]; now rewrite E1].
        unfold blen. cbn [List.length]. lia.
Qed.
Lemma sendall_outcome (s : sock) (data : bytes) (w : world) :
  exists r w',
    sendall s data w = (r, w') /\ sessions w' = sessions w /\
    (forall e, r = inl e -> exists n, tx_fail w = Some (n, e)) /\
    (forall n e, tx_fail w' = Some (n, e) -> exists n', tx_fail w = Some (n', e)).
Proof.
  unfold sendall, spend_send.
  destruct (tx_fail w) as [[[|n] e]|] eqn:T; eexists _, _;
    (split; [reflexivity|]); (split; [reflexivity|]); cbn [tx_fail set_trace set_tx_fail].
  - split; [intros e' [= <-]; eauto | rewrite T; intros n e' [= <- <-]; eauto].
  - split; [discriminate | intros n' e' [= <- <-]; eauto].
  - split; [discriminate | rewrite T; discriminate].
Qed.

Lemma send_loop_fuel (sid : string) (cb : option callback) (name : string)
      (size : Z) :
  forall (fuel : nat) (f : bytes) (sent : Z) (w : world),
    (List.length f < fuel)%nat ->
    (forall n, tx_fail w <> Some (n, FuelExhausted)) ->
    fst (send_loop fuel sid cb name f size sent w) <> inl FuelExhausted.
Proof.
  induction fuel as [|fuel IH]; intros f sent w L Htx; [lia|].
  cbn [send_loop]. destruct (sent <? size); [|unfold ret; cbn; discriminate].
  destruct (take 8192 f) as [|b ch] eqn:T; [unfold ret; cbn; discriminate|].
  pose proof (blen_take_drop 8192 f ltac:(lia)) as Hsplit. rewrite T in Hsplit.
  destruct (sendall_outcome Client (b :: ch) w) as (r1 & w1 & E1 & S1 & Er & Et).
  destruct r1 as [e|[]].
  { rewrite (bind_fail _ _ _ _ _ E1). cbn. intros [= ->].
    destruct (Er _ eq_refl) as (n & Hn). exact (Htx n Hn). }
  rewrite (bind_run _ _ _ _ _ E1).
  unfold add_transferred at 1, get_session at 1.
  rewrite !bind_assoc, bind_get_world.
  destruct (Dict.get (sessions w1) sid) as [s|] eqn:G;
    [|rewrite bind_raise; cbn; discriminate].
  rewrite bind_ret. unfold bind at 1.
  set (w2 := set_sessions w1 _).
  assert (G2 : Dict.get (sessions w2) sid = Some (bump s (blen (b :: ch)))).
  { unfold w2. simpl. apply get_set_same. }
  rewrite (bind_run _ _ _ _ _ (get_session_run sid w2 _ G2)).
  destruct (report_run cb (transferred_size (bump s (blen (b :: ch))))
              (total_size (bump s (blen (b :: ch))))
              (String.append "Sending " name) w2)
    as (r3 & tr3 & E3 & _ & C3 & Z3).
  destruct r3 as [e|[]].
  { rewrite (bind_fail _ _ _ _ _ E3). cbn. intros [= ->].
    unfold report in E3. destruct cb as [g|]; [|discriminate].
    destruct (_ =? 0); [discriminate|].
    unfold bind, emit, ret, raise in E3.
    destruct (g _ _ _); discriminate. }
  rewrite (bind_run _ _ _ _ _ E3).
  apply IH.
  - unfold blen in Hsplit. cbn [List.length] in Hsplit.
    unfold drop in *. lia.
  - intros n Hn. cbn [tx_fail set_trace set_sessions w2] in Hn.
    unfold w2 in Hn. cbn [tx_fail set_sessions] in Hn.
    destruct (Et _ _ Hn) as (n' & Hn'). exact (Htx n' Hn').
Qed.
End Fuel.

(** * Further properties

    ** [sanitize_filename] *)

Lemma replace_fold (set : list ascii) :
  in_chars set "_"%char = false ->
  forall s,
    fold_left (fun acc char => replace_char char "_"%char acc) set s
    = smap (fun c => if in_chars set c then "_"%char else c) s.
Proof.
  induction set as [|ch set IH]; intros Hu s.
  - simpl. induction s as [|c s IHs]; simpl; [reflexivity | now rewrite <- IHs].
  - simpl in Hu. apply orb_false_elim in Hu. destruct Hu as [Hne Hu].
    simpl. rewrite (IH Hu). clear IH.
    induction s as [|c s IHs]; simpl; [reflexivity|]. rewrite IHs. f_equal.
    destruct (Ascii.eqb c ch) eqn:E; simpl.
    + fold (in_chars set "_"%char). now rewrite Hu.
    + reflexivity.
Qed.

Lemma smap_chars f s : chars (smap f s) = map f (chars s).
Proof. induction s; simpl; [reflexivity | now f_equal]. Qed.

Lemma lstrip_suffix set s : exists pre, s = pre ++ lstrip set s.
Proof.
  induction s as [|c s IH]; simpl.
  - now exists [].
  - destruct (in_chars set c).
    + destruct IH as (pre & E). exists (c :: pre). simpl. now f_equal.
    + now exists [].
Qed.

Lemma lstrip_head set s c rest :
  lstrip set s = c :: rest -> in_chars set c = false.
Proof.
  induction s as [|x s IH]; simpl; [discriminate|].
  destruct (in_chars set x) eqn:E; [exact IH|]. now intros [= <- <-].
Qed.

Lemma lstrip_fixed set s :
  (forall c rest, s = c :: rest -> in_chars set c = false) -> lstrip set s = s.
Proof.
  destruct s as [|c s]; [reflexivity|]. intros H. simpl.
  now rewrite (H c s eq_refl).
Qed.

Lemma Forall_suffix {A : Type} (P : A -> Prop) (pre l : list A) :
  Forall P (pre ++ l) -> Forall P l.
Proof. intros H. apply Forall_app in H. tauto. Qed.

Lemma Forall_lstrip P set s : Forall P s -> Forall P (lstrip set s).
Proof.
  intros H. destruct (lstrip_suffix set s) as (pre & E).
  rewrite E in H. eapply Forall_suffix; eauto.
Qed.

Lemma Forall_rstrip P set s : Forall P s -> Forall P (rstrip set s).
Proof.
  intros H. unfold rstrip. apply Forall_rev, Forall_lstrip, Forall_rev, H.
Qed.

(** What [strip] leaves starts and ends outside the set. *)
Lemma strip_ends set s :
  let r := rstrip set (lstrip set s) in
  (forall c, hd_error r = Some c -> in_chars set c = false) /\
  (forall c, hd_error (rev r) = Some c -> in_chars set c = false).
Proof.
  cbv zeta. split.
  - intros c H. unfold rstrip in H.
    destruct (lstrip_suffix set (rev (lstrip set s))) as (pre & E).
    apply (f_equal (@rev ascii)) in E. rewrite rev_involutive, rev_app_distr in E.
    remember (rev (lstrip set (rev (lstrip set s)))) as r eqn:R.
    destruct r as [|x r]; [discriminate|]. simpl in H. injection H as ->.
    simpl in E. eapply lstrip_head. exact E.
  - intros c H. unfold rstrip in H. rewrite rev_involutive in H.
    destruct (lstrip set (rev (lstrip set s))) as [|x r] eqn:L; [discriminate|].
    simpl in H. injection H as ->. eapply lstrip_head. exact L.
Qed.

Lemma strip_fixed set (l : list ascii) :
  (forall c, hd_error l = Some c -> in_chars set c = false) ->
  (forall c, hd_error (rev l) = Some c -> in_chars set c = false) ->
  rstrip set (lstrip set l) = l.
Proof.
  intros H1 H2. rewrite lstrip_fixed.
  - unfold rstrip. rewrite lstrip_fixed; [apply rev_involutive|].
    intros c rest E. apply H2. now rewrite E.
  - intros c rest E. apply H1. now rewrite E.
Qed.

Lemma map_fixed {A : Type} (f : A -> A) (l : list A) :
  Forall (fun x => f x = x) l -> map f l = l.
Proof. induction 1; simpl; [reflexivity | now f_equal]. Qed.

Lemma chars_inj s t : chars s = chars t -> s = t.
Proof.
  intros H. apply (f_equal string_of_list_ascii) in H.
  unfold chars in H. now rewrite !string_of_list_ascii_of_string in H.
Qed.

(** A non-empty name without invalid characters that neither starts nor
    ends with a space or a dot is left as it is. *)
Lemma sanitize_filename_fixed (l : list ascii) :
  l <> [] ->
  Forall (fun c => in_chars invalid_chars c = false) l ->
  (forall c, hd_error l = Some c -> in_chars [" "; "."]%char c = false) ->
  (forall c, hd_error (rev l) = Some c -> in_chars [" "; "."]%char c = false) ->
  sanitize_filename (string_of_list_ascii l) = string_of_list_ascii l.
Proof.
  intros Hne Hall H1 H2. unfold sanitize_filename.
  rewrite replace_fold by reflexivity.
  assert (E : smap (fun c => if in_chars invalid_chars c then "_"%char else c)
                   (string_of_list_ascii l) = string_of_list_ascii l).
  { apply chars_inj. rewrite smap_chars. unfold chars.
    rewrite list_ascii_of_string_of_list_ascii. apply map_fixed.
    eapply Forall_impl; [|exact Hall]. intros c Hc. cbv beta in *. now rewrite Hc. }
  rewrite E. unfold strip. rewrite list_ascii_of_string_of_list_ascii.
  rewrite strip_fixed by assumption.
  destruct l as [|c l]; [contradiction | reflexivity].
Qed.

(** X1: [sanitize_filename] always returns a usable name: it is not empty,
    holds none of the nine invalid characters (so no path separator),
    neither starts nor ends with a space or a dot, and sanitizing it again
    changes nothing. *)
Theorem sanitize_filename_safe (filename : string) :
  let r := chars (sanitize_filename filename) in
  r <> [] /\
  Forall (fun c => in_chars invalid_chars c = false) r /\
  (forall c, hd_error r = Some c -> in_chars [" "; "."]%char c = false) /\
  (forall c, hd_error (rev r) = Some c -> in_chars [" "; "."]%char c = false) /\
  sanitize_filename (sanitize_filename filename) = sanitize_filename filename.
Proof.
  cbv zeta.
  assert (Core : chars (sanitize_filename filename) <> [] /\
     Forall (fun c => in_chars invalid_chars c = false)
            (chars (sanitize_filename filename)) /\
     (forall c, hd_error (chars (sanitize_filename filename)) = Some c ->
                in_chars [" "; "."]%char c = false) /\
     (forall c, hd_error (rev (chars (sanitize_filename filename))) = Some c ->
                in_chars [" "; "."]%char c = false)).
  { unfold sanitize_filename. rewrite replace_fold by reflexivity.
    set (g := fun c => if in_chars invalid_chars c then "_"%char else c).
    unfold strip.
    set (l := rstrip [" "; "."]%char
                (lstrip [" "; "."]%char (list_ascii_of_string (smap g filename)))).
    destruct (String.eqb (string_of_list_ascii l) "") eqn:E.
    - split; [discriminate|]. split; [repeat constructor|].
      split; intros c [= <-]; reflexivity.
    - unfold chars. rewrite list_ascii_of_string_of_list_ascii.
      split; [intros N; rewrite N in E; discriminate|].
      split.
      + apply Forall_rstrip, Forall_lstrip. fold (chars (smap g filename)).
        rewrite smap_chars. apply Forall_map, Forall_forall. intros c _.
        unfold g. destruct (in_chars invalid_chars c) eqn:I; [reflexivity | exact I].
      + apply strip_ends. }
  destruct Core as (A & B & C & D).
  split; [exact A|]. split; [exact B|]. split; [exact C|]. split; [exact D|].
  rewrite <- (string_of_list_ascii_of_string (sanitize_filename filename)).
  now apply sanitize_filename_fixed.
Qed.

(** ** Share URLs *)

Lemma contains_app c a b :
  contains c (String.append a b) = (contains c a || contains c b)%bool.
Proof.
  unfold contains, chars. induction a as [|x a IH]; simpl; [reflexivity|].
  now rewrite IH, orb_assoc.
Qed.

Lemma split_on_none sep s : contains sep s = false -> split_on sep s = [s].
Proof.
  unfold contains, chars. induction s as [|c s IH]; simpl; [reflexivity|].
  intros H. apply orb_false_elim in H. destruct H as [Hc Hs].
  rewrite Ascii.eqb_sym, Hc, (IH Hs). reflexivity.
Qed.

Lemma split_on_app sep a b :
  contains sep a = false ->
  split_on sep (String.append a (String sep b)) = a :: split_on sep b.
Proof.
  unfold contains, chars. induction a as [|c a IH]; simpl.
  - intros _. now rewrite Ascii.eqb_refl.
  - intros H. apply orb_false_elim in H. destruct H as [Hc Ha].
    rewrite Ascii.eqb_sym, Hc, (IH Ha). reflexivity.
Qed.

(** X2: a share URL built by [create_share_url] is read back by
    [parse_share_url] as exactly the two parameters session and app, as long
    as neither the session id nor the application name holds a question mark
    or an ampersand. *)
Theorem share_url_round_trip (session_id app_name : string) :
  contains "?" session_id = false -> contains "&" session_id = false ->
  contains "?" app_name = false -> contains "&" app_name = false ->
  parse_share_url (create_share_url session_id app_name)
  = Some [("session", session_id); ("app", app_name)].
Proof.
  intros Hq1 Ha1 Hq2 Ha2. unfold parse_share_url, create_share_url.
  change (String.prefix "justtouch://"
            (String.append "justtouch://share?session="
               (String.append session_id (String.append "&app=" app_name))))
    with true.
  cbn [negb].
  change (String.append "justtouch://share?session="
            (String.append session_id (String.append "&app=" app_name)))
    with (String.append "justtouch://share"
            (String "?" (String.append (String.append "session=" session_id)
                           (String "&" (String.append "app=" app_name))))).
  rewrite split_on_app by reflexivity.
  rewrite split_on_none.
  2:{ rewrite contains_app.
      change (contains "?" (String "&" (String.append "app=" app_name)))
        with (contains "?" app_name).
      change (contains "?" (String.append "session=" session_id))
        with (contains "?" session_id).
      now rewrite Hq1, Hq2. }
  rewrite split_on_app.
  2:{ change (contains "&" (String.append "session=" session_id))
        with (contains "&" session_id). exact Ha1. }
  rewrite split_on_none.
  2:{ change (contains "&" (String.append "app=" app_name))
        with (contains "&" app_name). exact Ha2. }
  reflexivity.
Qed.

Lemma share_url_round_trip_witness :
  parse_share_url (create_share_url "jt0123456789abcdef" "JustTouch")
  = Some [("session", "jt0123456789abcdef"); ("app", "JustTouch")].
Proof.
  apply share_url_round_trip; reflexivity.
Defined.

Lemma split_on_found sep s :
  contains sep s = true -> exists a b rest, split_on sep s = a :: b :: rest.
Proof.
  unfold contains, chars. induction s as [|c s IH]; simpl; [discriminate|].
  intros H. rewrite Ascii.eqb_sym.
  destruct (Ascii.eqb sep c) eqn:E.
  - destruct (split_on sep s) as [|h t] eqn:S.
    + destruct s; simpl in S; [discriminate|].
      destruct (Ascii.eqb a sep); [discriminate|].
      destruct (split_on sep s); discriminate.
    + now exists EmptyString, h, t.
  - simpl in H. destruct (IH H) as (a & b & rest & ->).
    now exists (String c a), b, rest.
Qed.

(** X3: a question mark in the session id makes the share URL unreadable:
    [parse_share_url] then finds more than two parts and returns nothing. *)
Theorem share_url_question_mark_unreadable (session_id app_name : string) :
  contains "?" session_id = true ->
  parse_share_url (create_share_url session_id app_name) = None.
Proof.
  intros H. unfold parse_share_url, create_share_url.
  change (String.prefix "justtouch://"
            (String.append "justtouch://share?session="
               (String.append session_id (String.append "&app=" app_name))))
    with true.
  cbn [negb].
  change (String.append "justtouch://share?session="
            (String.append session_id (String.append "&app=" app_name)))
    with (String.append "justtouch://share"
            (String "?" (String.append "session="
               (String.append session_id (String.append "&app=" app_name))))).
  rewrite split_on_app by reflexivity.
  destruct (split_on_found "?" (String.append "session="
                 (String.append session_id (String.append "&app=" app_name))))
    as (a & b & rest & ->).
  - change (contains "?" (String.append "session="
              (String.append session_id (String.append "&app=" app_name))))
      with (contains "?" (String.append session_id (String.append "&app=" app_name))).
    now rewrite contains_app, H.
  - reflexivity.
Qed.

Lemma share_url_question_mark_unreadable_witness :
  parse_share_url (create_share_url "jt?" "JustTouch") = None.
Proof.
  apply share_url_question_mark_unreadable. reflexivity.
Defined.

(** ** NFC text records *)

Lemma lor2_byte (n : Z) : 0 <= n < 256 -> 0 <= Z.lor 2 n < 256.
Proof.
  intros [H0 H1]. split; [apply Z.lor_nonneg; lia|].
  assert (P : 0 < Z.lor 2 n).
  { assert (Z.lor 2 n <> 0) by (rewrite Z.lor_eq_0_iff; lia).
    assert (0 <= Z.lor 2 n) by (apply Z.lor_nonneg; lia). lia. }
  change 256 with (2 ^ 8). apply Z.log2_lt_pow2; [exact P|].
  rewrite Z.log2_lor by lia. change (Z.log2 2) with 1.
  destruct (Z.eq_dec n 0) as [->|Hn]; [cbn; lia|].
  assert (Z.log2 n < 8) by (apply Z.log2_lt_pow2; [lia | exact H1]). lia.
Qed.

Lemma decode_encode (bs : bytes) (s : string) :
  decode bs = inr s -> encode s = bs.
Proof.
  unfold decode, encode. destruct (utf8_valid _ _); [|discriminate].
  intros [= <-]. apply list_byte_of_string_of_list_byte.
Qed.

Lemma blen_drop (n : Z) (bs : bytes) :
  0 <= n <= blen bs -> blen (drop n bs) = blen bs - n.
Proof.
  intros H. unfold blen, drop in *. rewrite length_skipn. lia.
Qed.

Lemma create_nfc_payload_run (text language : string) (w : world) :
  forallb (fun b => b2z b <? 128) (encode language) = true ->
  blen (encode language) < 256 ->
  create_nfc_payload text language w
  = (inr (z2b (Z.lor 2 (blen (encode language)))
            :: encode language ++ encode text), w).
Proof.
  intros Ha Hl. unfold create_nfc_payload, try_, bind. rewrite Ha.
  unfold ret at 1. cbv zeta.
  pose proof (lor2_byte (blen (encode language))
                (conj (blen_nonneg _) Hl)) as [L0 L1].
  apply Z.leb_le in L0. apply Z.ltb_lt in L1. rewrite L0, L1. reflexivity.
Qed.

(** X4: an NFC text payload built by [create_nfc_payload] is not read back
    by [extract_nfc_data]: the reader takes the first byte of the language
    code for the length of the language code, so for every ASCII language
    code whose first byte is not its length minus one (every real code:
    en, fr, en-US, ...) the result differs from the text that was
    written, whatever the text. *)
Theorem nfc_text_not_read_back (text language : string) (l0 : byte)
    (rest : bytes) (w : world) :
  encode language = l0 :: rest ->
  forallb (fun b => b2z b <? 128) (encode language) = true ->
  blen (encode language) < 256 ->
  b2z l0 + 1 <> blen (encode language) ->
  exists payload r w',
    create_nfc_payload text language w = (inr payload, w) /\
    payload = z2b (Z.lor 2 (blen (encode language)))
                :: encode language ++ encode text /\
    extract_nfc_data payload w = (inr r, w') /\
    r <> Some text.
Proof.
  intros El Ha Hl Hf.
  rewrite (create_nfc_payload_run text language w Ha Hl).
  set (p := z2b (Z.lor 2 (blen (encode language)))
              :: encode language ++ encode text).
  cut (exists r w', extract_nfc_data p w = (inr r, w') /\ r <> Some text).
  { intros (r & w' & E & N). exists p, r, w'. auto. }
  assert (Hp : blen p = 1 + blen (encode language) + blen (encode text)).
  { unfold p. change (blen (?x :: ?l)) with (Z.of_nat (S (List.length l))).
    rewrite Nat2Z.inj_succ. fold (blen (encode language ++ encode text)).
    rewrite blen_app. lia. }
  assert (B0 : 0 <= b2z l0) by (unfold b2z; lia).
  unfold extract_nfc_data, try_.
  destruct (blen p <? 3) eqn:E3.
  { exists None, w. split; [reflexivity | discriminate]. }
  cbv zeta.
  replace (nth 1 p x00) with l0 by (unfold p; rewrite El; reflexivity).
  destruct (blen p <? 2 + b2z l0) eqn:E2.
  { exists None, w. split; [reflexivity | discriminate]. }
  apply Z.ltb_ge in E2.
  unfold bind, lift.
  destruct (decode (drop (2 + b2z l0) p)) as [e|t] eqn:D.
  - eexists None, _. split; [reflexivity | discriminate].
  - exists (Some t), w. split; [reflexivity|]. intros [= ->].
    apply decode_encode in D. apply (f_equal blen) in D.
    rewrite blen_drop in D by lia. lia.
Qed.

Lemma nfc_text_not_read_back_witness :
  exists payload r w',
    create_nfc_payload "hello" "en" empty_world = (inr payload, empty_world) /\
    payload = z2b (Z.lor 2 (blen (encode "en")))
                :: encode "en" ++ encode "hello" /\
    extract_nfc_data payload empty_world = (inr r, w') /\
    r <> Some "hello".
Proof.
  apply (nfc_text_not_read_back "hello" "en" "e"%byte ["n"%byte] empty_world).
  - reflexivity.
  - reflexivity.
  - vm_compute. reflexivity.
  - vm_compute. discriminate.
Defined.

(** X5: with the default language en, a text of fewer than 100 bytes is
    lost without any error: [extract_nfc_data] reads the letter e (101) as
    the language length, finds the payload too short and returns nothing,
    logging nothing. *)
Theorem nfc_default_language_short_text (text : string) (w : world) :
  blen (encode text) < 100 ->
  exists payload,
    create_nfc_payload text "en" w = (inr payload, w) /\
    extract_nfc_data payload w = (inr None, w).
Proof.
  intros H. eexists. split.
  - apply create_nfc_payload_run; [reflexivity | vm_compute; reflexivity].
  - set (p := _ :: _).
    assert (Hp : blen p = 3 + blen (encode text)).
    { unfold p. change (encode "en") with ["e"%byte; "n"%byte].
      unfold blen. cbn [List.length app]. lia. }
    unfold extract_nfc_data, try_.
    destruct (blen p <? 3); [reflexivity|]. cbv zeta.
    change (nth 1 p x00) with "e"%byte.
    change (b2z "e"%byte) with 101.
    assert (E : (blen p <? 2 + 101) = true) by (apply Z.ltb_lt; lia).
    rewrite E. reflexivity.
Qed.

Lemma nfc_default_language_short_text_witness :
  exists payload,
    create_nfc_payload "jt0123456789abcdef" "en" empty_world
      = (inr payload, empty_world) /\
    extract_nfc_data payload empty_world = (inr None, empty_world).
Proof.
  apply nfc_default_language_short_text. vm_compute. reflexivity.
Defined.

(** ** [chunk_file] *)

Lemma full_but_last_head size c rest :
  full_but_last size (c :: rest) -> 0 < size -> 0 < blen c.
Proof. destruct rest; simpl; lia. Qed.

Lemma chunk_loop_spec (size : Z) (Hs : 0 < size) :
  forall fuel f, (List.length f < fuel)%nat ->
    exists chunks,
      chunk_loop fuel size f = inr chunks /\
      List.concat chunks = f /\
      full_but_last size chunks /\
      Z.of_nat (List.length chunks) = (blen f + size - 1) / size.
Proof.
  induction fuel as [|fuel IH]; intros f Hf; [lia|].
  cbn [chunk_loop]. unfold file_read.
  assert (N1 : (size <? -1) = false) by (apply Z.ltb_ge; lia).
  assert (N : (size <? 0) = false) by (apply Z.ltb_ge; lia).
  rewrite N1, N.
  destruct (take size f) as [|b ch] eqn:T.
  - assert (f = []).
    { destruct f as [|x f]; [reflexivity|].
      unfold take in T. destruct (Z.to_nat size) eqn:Z; [lia | discriminate]. }
    subst f. exists []. split; [reflexivity|]. cbn.
    rewrite Z.div_small by lia. auto.
  - rewrite <- T.
    pose proof (blen_take size f ltac:(lia)) as Lt.
    pose proof (blen_take_drop size f ltac:(lia)) as Ltd.
    assert (Pos : 0 < blen (take size f)).
    { rewrite T. unfold blen. cbn [List.length]. lia. }
    destruct (IH (drop size f)) as (rest & -> & C & F & N').
    { unfold blen in *. lia. }
    exists (take size f :: rest). split; [reflexivity|].
    split; [|split].
    + cbn [List.concat]. rewrite C. apply take_drop.
    + cbn [full_but_last].
      destruct rest as [|c' rest'].
      * lia.
      * split; [|exact F].
        pose proof (full_but_last_head _ _ _ F Hs) as P'.
        assert (0 < blen (drop size f)).
        { rewrite <- C. cbn [List.concat]. rewrite blen_app.
          pose proof (blen_nonneg (List.concat rest')). lia. }
        lia.
    + cbn [List.length]. rewrite Nat2Z.inj_succ, N'.
      destruct (Z_le_gt_dec (blen f) size) as [Le|Gt].
      * replace (blen (drop size f)) with 0 by lia.
        rewrite (Z.div_small (0 + size - 1)) by lia.
        apply Z.div_unique with (r := blen f - 1); lia.
      * replace (blen f + size - 1) with (blen (drop size f) + size - 1 + 1 * size)
          by lia.
        rewrite Z.div_add by lia. lia.
Qed.

Lemma read_file_content (file_path : string) (w : world) (node : fnode)
    (c : bytes) :
  Dict.get (fs w) file_path = Some node -> content node = Some c ->
  read_file file_path w
  = (inr c, set_trace w (trace w ++ [OpenRead file_path])).
Proof.
  intros G C. unfold read_file, bind, get_world. cbv beta. rewrite G.
  destruct node as [sz ct]. cbn in C. subst ct. reflexivity.
Qed.







(** ** Session identifiers *)

Lemma hex_digit_in (n : Z) : in_chars hex_chars (Hashlib.hex_digit n) = true.
Proof.
  unfold Hashlib.hex_digit. generalize (Z.to_nat n). intros k.
  do 16 (destruct k as [|k]; [reflexivity|]). destruct k; reflexivity.
Qed.

Lemma hex_digit_plain (n : Z) : is_continuation (Hashlib.hex_digit n) = false.
Proof.
  unfold Hashlib.hex_digit. generalize (Z.to_nat n). intros k.
  do 16 (destruct k as [|k]; [reflexivity|]). destruct k; reflexivity.
Qed.

Lemma hex_string_chars (l : list Z) :
  let s := fold_right Hashlib.hex_byte EmptyString l in
  List.length (chars s) = (2 * List.length l)%nat /\
  Forall (fun c => in_chars hex_chars c = true) (chars s) /\
  Forall (fun c => is_continuation c = false) (chars s).
Proof.
  cbv zeta. induction l as [|v l (L & H & P)].
  - cbn. auto.
  - cbn [fold_right Hashlib.hex_byte chars list_ascii_of_string List.length].
    fold (chars (fold_right Hashlib.hex_byte EmptyString l)).
    split; [rewrite L; lia|].
    split; repeat constructor;
      auto using hex_digit_in, hex_digit_plain.
Qed.

Lemma str_take_plain (n : nat) (s : string) :
  Forall (fun c => is_continuation c = false) (chars s) ->
  chars (str_take n s) = firstn n (chars s).
Proof.
  revert s. induction n as [|n IH]; intros s H; [reflexivity|].
  destruct s as [|c s]; [reflexivity|].
  cbn [str_take chars list_ascii_of_string firstn].
  cbn [chars list_ascii_of_string] in H. inversion H as [|? ? Hc Hs]; subst.
  fold (chars s) in Hs.
  assert (K : keep_continuation s = EmptyString /\ skip_continuation s = s).
  { destruct s as [|d s]; [auto|].
    cbn [chars list_ascii_of_string] in Hs. inversion Hs as [|? ? Hd _]; subst.
    cbn. now rewrite Hd. }
  destruct K as [-> ->]. cbn [String.append]. f_equal.
  fold (chars (str_take n s)). apply IH, Hs.
Qed.

Lemma sha256_round_length w st i :
  List.length st = 8%nat ->
  List.length (Hashlib.SHA256.round w st i) = 8%nat.
Proof.
  intros H. do 9 (destruct st as [|? st]; try discriminate). reflexivity.
Qed.

Lemma sha256_step_length st blk :
  List.length st = 8%nat ->
  List.length (Hashlib.SHA256.step st blk) = 8%nat.
Proof.
  intros H. unfold Hashlib.SHA256.step. cbv zeta.
  rewrite length_map, length_combine.
  assert (L : forall l s, List.length s = 8%nat ->
            List.length (fold_left (Hashlib.SHA256.round
               (fold_left Hashlib.SHA256.extend (seq 16 48)
                  (Hashlib.words Hashlib.be_word 16 blk))) l s) = 8%nat).
  { induction l as [|i l IHl]; intros s Hs; [exact Hs|].
    cbn [fold_left]. apply IHl, sha256_round_length, Hs. }
  rewrite (L _ _ H), H. reflexivity.
Qed.

Lemma sha256_state_length (m : bytes) :
  List.length (Hashlib.run Hashlib.SHA256.step (Hashlib.be_bytes 8)
                 Hashlib.SHA256.init m) = 8%nat.
Proof.
  unfold Hashlib.run. cbv zeta.
  generalize (Hashlib.pad (Hashlib.be_bytes 8) (map b2z m)). intros p.
  generalize (Nat.div (List.length p) 64). intros n.
  assert (I : List.length Hashlib.SHA256.init = 8%nat) by reflexivity.
  revert I. generalize Hashlib.SHA256.init. revert p.
  induction n as [|n IH]; intros p st I; [exact I|].
  cbn [Hashlib.blocks]. apply IH, sha256_step_length, I.
Qed.

Lemma sha256_hexdigest_chars (m : bytes) :
  List.length (chars (Hashlib.SHA256.hexdigest m)) = 64%nat /\
  Forall (fun c => in_chars hex_chars c = true)
         (chars (Hashlib.SHA256.hexdigest m)) /\
  Forall (fun c => is_continuation c = false)
         (chars (Hashlib.SHA256.hexdigest m)).
Proof.
  unfold Hashlib.SHA256.hexdigest.
  destruct (hex_string_chars
              (flat_map (Hashlib.be_bytes 4)
                 (Hashlib.run Hashlib.SHA256.step (Hashlib.be_bytes 8)
                    Hashlib.SHA256.init m))) as (L & H & P).
  split; [|auto]. rewrite L.
  generalize (sha256_state_length m).
  generalize (Hashlib.run Hashlib.SHA256.step (Hashlib.be_bytes 8)
                Hashlib.SHA256.init m).
  intros st S8. do 9 (destruct st as [|? st]; try discriminate). reflexivity.
Qed.

Lemma string_length_chars (s : string) :
  String.length s = List.length (chars s).
Proof. induction s as [|c s IH]; simpl; congruence. Qed.

(** X8: whatever the clock, the random token and the UUID are, the session
    id that [generate_session_id] returns is the two letters jt followed by
    exactly sixteen lower-case hexadecimal digits, eighteen characters in
    all. *)
Theorem generate_session_id_format (now : Z) (random_bytes uuid4 : string) :
  exists h,
    generate_session_id now random_bytes uuid4 = String.append "jt" h /\
    List.length (chars h) = 16%nat /\
    Forall (fun c => in_chars hex_chars c = true) (chars h) /\
    String.length (generate_session_id now random_bytes uuid4) = 18%nat.
Proof.
  unfold generate_session_id. cbv zeta.
  set (d := Hashlib.SHA256.hexdigest _).
  destruct (sha256_hexdigest_chars
              (encode (String.append (str_of_int now)
                 (String.append "-" (String.append random_bytes
                    (String.append "-" (str_take 8 uuid4)))))))
    as (L & H & P).
  fold d in L, H, P.
  assert (C : chars (str_take 16 d) = firstn 16 (chars d))
    by (apply str_take_plain, P).
  assert (L16 : List.length (chars (str_take 16 d)) = 16%nat).
  { rewrite C, length_firstn, L. reflexivity. }
  exists (str_take 16 d). split; [reflexivity|]. split; [exact L16|]. split.
  - rewrite C. rewrite <- (firstn_skipn 16 (chars d)) in H.
    apply Forall_app in H. apply H.
  - cbn [String.append String.length]. f_equal. f_equal.
    rewrite string_length_chars. exact L16.
Qed.

(** ** The session registry *)

Lemma get_none_keys {V : Type} (d : Dict.t V) k :
  Dict.get d k = None <-> ~ In k (keys d).
Proof.
  induction d as [|[k0 v0] d IH]; simpl; [tauto|].
  destruct (String.eqb k k0) eqn:E.
  - apply String.eqb_eq in E. subst. split; [discriminate | tauto].
  - apply String.eqb_neq in E. rewrite IH. split.
    + intros H [A|A]; [congruence | tauto].
    + tauto.
Qed.

Lemma del_get_other {V : Type} (d : Dict.t V) k k' :
  k' <> k -> Dict.get (Dict.del d k) k' = Dict.get d k'.
Proof.
  intros N. induction d as [|[k0 v0] d IH]; simpl; [reflexivity|].
  destruct (String.eqb k k0) eqn:E; simpl.
  - apply String.eqb_eq in E. subst k0.
    destruct (String.eqb k' k) eqn:E'; [|reflexivity].
    apply String.eqb_eq in E'. contradiction.
  - now rewrite IH.
Qed.

Lemma del_keys_incl {V : Type} (d : Dict.t V) k x :
  In x (keys (Dict.del d k)) -> In x (keys d).
Proof.
  induction d as [|[k0 v0] d IH]; simpl; [tauto|].
  destruct (String.eqb k k0); simpl; tauto.
Qed.

Lemma del_distinct {V : Type} (d : Dict.t V) k :
  distinct_keys d -> distinct_keys (Dict.del d k).
Proof.
  unfold distinct_keys. induction d as [|[k0 v0] d IH]; simpl; [auto|].
  intros H. inversion H as [|? ? Hn Hd]; subst.
  destruct (String.eqb k k0); simpl; [exact Hd|].
  constructor; [|auto]. intros I. apply Hn. eapply del_keys_incl, I.
Qed.

Lemma del_get_same {V : Type} (d : Dict.t V) k :
  distinct_keys d -> Dict.get (Dict.del d k) k = None.
Proof.
  unfold distinct_keys. induction d as [|[k0 v0] d IH]; simpl; [auto|].
  intros H. inversion H as [|? ? Hn Hd]; subst.
  destruct (String.eqb k k0) eqn:E; simpl.
  - apply String.eqb_eq in E. subst k0. now apply get_none_keys.
  - rewrite E. auto.
Qed.

Lemma set_keys {V : Type} (d : Dict.t V) k v :
  keys (Dict.set d k v) = if Dict.mem d k then keys d else keys d ++ [k].
Proof.
  unfold Dict.mem. induction d as [|[k0 v0] d IH]; simpl; [reflexivity|].
  destruct (String.eqb k k0) eqn:E; simpl; [reflexivity|].
  rewrite IH. now destruct (Dict.get d k).
Qed.

Lemma set_distinct {V : Type} (d : Dict.t V) k v :
  distinct_keys d -> distinct_keys (Dict.set d k v).
Proof.
  unfold distinct_keys. rewrite set_keys. unfold Dict.mem.
  destruct (Dict.get d k) eqn:G; [auto|]. intros H.
  apply get_none_keys in G.
  apply NoDup_rev in H. rewrite <- (rev_involutive (keys d ++ [k])).
  apply NoDup_rev. rewrite rev_app_distr. simpl. constructor; [|exact H].
  now rewrite <- in_rev.
Qed.

(** X9: [cleanup_session] forgets the session and nothing else: the id is
    no longer registered, every other session is as before, a second
    cleanup does nothing at all, and a later [send_files] for the id fails
    with the not-found message before any socket is created. *)
Theorem cleanup_session_forgets {RT : Runtime} (sid : string) (w : world) :
  distinct_keys (sessions w) ->
  exists w',
    cleanup_session sid w = (inr tt, w') /\
    Dict.get (sessions w') sid = None /\
    (forall k, k <> sid -> Dict.get (sessions w') k = Dict.get (sessions w) k) /\
    distinct_keys (sessions w') /\
    fs w' = fs w /\
    cleanup_session sid w' = (inr tt, w') /\
    (forall env cb,
        send_files env sid cb w'
        = (inr false,
           set_trace w' (trace w' ++ [Log Error "Session {session_id} not found"]))).
Proof.
  intros D. unfold cleanup_session at 1. rewrite bind_get_world.
  assert (After : forall w', Dict.get (sessions w') sid = None ->
            cleanup_session sid w' = (inr tt, w') /\
            (forall env cb,
               send_files env sid cb w'
               = (inr false,
                  set_trace w' (trace w' ++
                    [Log Error "Session {session_id} not found"])))).
  { intros w' G. split.
    - unfold cleanup_session. rewrite bind_get_world. unfold Dict.mem.
      rewrite G. reflexivity.
    - intros env cb. unfold send_files. rewrite bind_get_world.
      unfold Dict.mem. rewrite G. cbn [negb]. rewrite bind_log. reflexivity. }
  unfold Dict.mem. destruct (Dict.get (sessions w) sid) eqn:G.
  - eexists. split; [reflexivity|].
    cbn [sessions set_trace set_sessions fs].
    assert (G' : Dict.get (Dict.del (sessions w) sid) sid = None)
      by (apply del_get_same, D).
    split; [exact G'|].
    split; [intros k Hk; now apply del_get_other|].
    split; [apply del_distinct, D|]. split; [reflexivity|].
    apply After. exact G'.
  - exists w. split; [reflexivity|]. split; [exact G|].
    split; [reflexivity|]. split; [exact D|]. split; [reflexivity|].
    apply After, G.
Qed.

Lemma cleanup_session_forgets_witness :
  exists w',
    cleanup_session "jt01" ten_byte_world = (inr tt, w') /\
    Dict.get (sessions w') "jt01" = None /\
    (forall k, k <> "jt01" ->
               Dict.get (sessions w') k = Dict.get (sessions ten_byte_world) k) /\
    distinct_keys (sessions w') /\
    fs w' = fs ten_byte_world /\
    cleanup_session "jt01" w' = (inr tt, w') /\
    (forall env cb,
        @send_files Ref.runtime env "jt01" cb w'
        = (inr false,
           set_trace w' (trace w' ++ [Log Error "Session {session_id} not found"]))).
Proof.
  apply (@cleanup_session_forgets Ref.runtime).
  vm_compute. repeat constructor. intros [].
Defined.

(** X10: for a list whose existing paths can all be encoded,
    [create_session] registers the session under its id and touches no
    other entry: the new session starts with [transferred_size] 0 even when
    it replaces a session that had already sent data, the other sessions
    are as before, and cleaning the id up again gives back the lookups of a
    registry that never held it. *)
Theorem create_session_registers (sid : string) (fl : list string) (w : world) :
  distinct_keys (sessions w) ->
  hashable (fs w) fl = true ->
  exists s w',
    create_session sid fl w = (inr true, w') /\
    Dict.get (sessions w') sid = Some s /\
    session_id s = sid /\ transferred_size s = 0 /\
    (forall k, k <> sid -> Dict.get (sessions w') k = Dict.get (sessions w) k) /\
    distinct_keys (sessions w') /\
    fs w' = fs w /\
    exists w'',
      cleanup_session sid w' = (inr tt, w'') /\
      forall k, Dict.get (sessions w'') k
                = if String.eqb k sid then None else Dict.get (sessions w) k.
Proof.
  intros D Hh.
  destruct (create_session_run w sid fl Hh) as (s & tr & E & Hid & Ht & _).
  eexists s, _. split; [exact E|].
  cbn [sessions set_trace set_sessions fs].
  split; [apply get_set_same|]. split; [exact Hid|]. split; [exact Ht|].
  split; [intros k Hk; now apply get_set_other|].
  split; [apply set_distinct, D|]. split; [reflexivity|].
  unfold cleanup_session. rewrite bind_get_world.
  cbn [sessions set_trace set_sessions]. rewrite mem_set_same.
  eexists. split; [reflexivity|].
  cbn [sessions set_trace set_sessions]. intros k.
  destruct (String.eqb k sid) eqn:K.
  - apply String.eqb_eq in K. subst k. apply del_get_same, set_distinct, D.
  - apply String.eqb_neq in K. rewrite del_get_other by exact K.
    now apply get_set_other.
Qed.

Lemma create_session_registers_witness :
  hashable (fs ten_byte_world) ["/data/a.txt"] = true /\
  exists s w',
    create_session "jt02" ["/data/a.txt"] ten_byte_world = (inr true, w') /\
    Dict.get (sessions w') "jt02" = Some s /\
    session_id s = "jt02" /\ transferred_size s = 0 /\
    (forall k, k <> "jt02" ->
               Dict.get (sessions w') k = Dict.get (sessions ten_byte_world) k) /\
    distinct_keys (sessions w') /\
    fs w' = fs ten_byte_world /\
    exists w'',
      cleanup_session "jt02" w' = (inr tt, w'') /\
      forall k, Dict.get (sessions w'') k
                = if String.eqb k "jt02" then None
                  else Dict.get (sessions ten_byte_world) k.
Proof.
  split; [vm_compute; reflexivity|].
  apply create_session_registers.
  - vm_compute. repeat constructor. intros [].
  - vm_compute. reflexivity.
Defined.

Lemma calculate_metadata_distinct todo :
  forall self w s' w',
    distinct_keys (file_metadata self) ->
    _calculate_metadata todo self w = (inr s', w') ->
    distinct_keys (file_metadata s').
Proof.
  induction todo as [|p rest IH]; intros self w s' w' D E.
  - simpl in E. unfold ret in E. now inversion E; subst.
  - simpl in E. rewrite bind_get_world in E.
    destruct (Dict.get (fs w) p) as [node|].
    + destruct (str_encode p) as [e|path_bytes].
      { rewrite lift_inl, bind_raise in E. discriminate. }
      rewrite lift_inr, bind_ret in E.
      destruct (checksum_run p w) as (c & tr1 & E1 & _).
      rewrite (bind_run _ _ _ _ _ E1) in E.
      refine (IH _ _ s' w' _ E).
      cbn [file_metadata add_file]. apply set_distinct, D.
    + eapply IH; eauto.
Qed.

Lemma zsum_repeat (x : Z) (n : nat) :
  zsum (repeat x n) = Z.of_nat n * x.
Proof.
  induction n as [|n IH]; [reflexivity|].
  cbn [repeat zsum fold_right]. fold (zsum (repeat x n)). rewrite IH. lia.
Qed.

Lemma single_key {V : Type} (d : Dict.t V) (k0 : string) :
  distinct_keys d -> d <> [] -> (forall k v, In (k, v) d -> k = k0) ->
  exists v, d = [(k0, v)].
Proof.
  intros D N A. destruct d as [|[k1 v1] d]; [contradiction|].
  assert (k1 = k0) by (apply (A k1 v1); now left). subst k1.
  destruct d as [|[k2 v2] d]; [now exists v1|].
  assert (k2 = k0) by (apply (A k2 v2); right; now left). subst k2.
  unfold distinct_keys in D. cbn in D. inversion D as [|? ? Hn _]; subst.
  exfalso. apply Hn. now left.
Qed.

(** X11: a path listed several times is counted every time in
    [total_size] but has a single entry in [file_metadata] (the key is the
    MD5 of the path), so only one copy is ever announced and sent: for an
    existing file of size n, with a path that can be encoded, listed k
    times the session has total_size k*n and exactly one metadata entry,
    of size n. *)
Theorem create_session_duplicate_paths (sid p : string) (k : nat)
    (w : world) (node : fnode) :
  Dict.get (fs w) p = Some node -> encodable p = true -> (0 < k)%nat ->
  exists s w' fi,
    create_session sid (repeat p k) w = (inr true, w') /\
    Dict.get (sessions w') sid = Some s /\
    total_size s = Z.of_nat k * st_size node /\
    file_metadata s = [(file_id p, fi)] /\
    fi_size fi = st_size node /\
    entries_sum (file_metadata s) = st_size node.
Proof.
  intros G Enc K.
  assert (Hh : hashable (fs w) (repeat p k) = true).
  { apply hashable_spec. intros q I _. apply repeat_spec in I. now subst q. }
  destruct (create_session_run w sid (repeat p k) Hh)
    as (s & tr & E & _ & _ & Ht & Hb & Hm & _).
  assert (D : distinct_keys (file_metadata s)).
  { destruct (calculate_metadata_run (repeat p k)
                {| session_id := sid; files := repeat p k; file_metadata := [];
                   total_size := 0; transferred_size := 0; is_active := false |}
                w Hh) as (s' & tr' & E' & _).
    assert (D' : distinct_keys (file_metadata s')).
    { eapply calculate_metadata_distinct; [|exact E']. constructor. }
    unfold create_session, try_, bind at 1 in E.
    rewrite init_is_calculate, E' in E.
    cbn in E.
    assert (E2 : Dict.get (Dict.set (sessions w) sid s') sid
                 = Dict.get (Dict.set (sessions w) sid s) sid)
      by (injection E; intros; congruence).
    rewrite !get_set_same in E2. injection E2 as <-. exact D'. }
  assert (Hin : In p (repeat p k)) by (destruct k; [lia | now left]).
  assert (Hmem : Dict.mem (file_metadata s) (file_id p) = true).
  { apply Hm; [exact Hin|]. unfold Dict.mem. now rewrite G. }
  destruct (single_key (file_metadata s) (file_id p) D) as (fi & Efi).
  { intros N. rewrite N in Hmem. discriminate. }
  { intros k0 v I. destruct (Hb k0 v I) as (q & nd & Iq & _ & -> & _).
    apply repeat_spec in Iq. now subst q. }
  assert (Hs : fi_size fi = st_size node).
  { destruct (Hb (file_id p) fi) as (q & nd & Iq & Gq & _ & _ & _ & Sz & _).
    { rewrite Efi. now left. }
    apply repeat_spec in Iq. subst q. rewrite G in Gq. injection Gq as <-.
    exact Sz. }
  eexists s, _, fi. split; [exact E|].
  cbn [sessions set_trace set_sessions].
  split; [apply get_set_same|].
  split.
  { rewrite Ht, map_repeat, zsum_repeat. unfold size_of. now rewrite G. }
  split; [exact Efi|]. split; [exact Hs|].
  rewrite Efi. unfold entries_sum. cbn. lia.
Qed.

Lemma create_session_duplicate_paths_witness :
  exists s w' fi,
    create_session "jt01" (repeat "/data/a.txt" 2) two_files = (inr true, w') /\
    Dict.get (sessions w') "jt01" = Some s /\
    total_size s = Z.of_nat 2 * st_size (regular (repeat "a"%byte 10)) /\
    file_metadata s = [(file_id "/data/a.txt", fi)] /\
    fi_size fi = st_size (regular (repeat "a"%byte 10)) /\
    entries_sum (file_metadata s) = st_size (regular (repeat "a"%byte 10)).
Proof.
  apply (create_session_duplicate_paths "jt01" "/data/a.txt" 2 two_files).
  - reflexivity.
  - reflexivity.
  - lia.
Defined.

(** ** What the sender puts on the wire *)

Lemma sent_app (s : sock) (a b : list event) :
  sent s (a ++ b) = sent s a ++ sent s b.
Proof.
  induction a as [|e a IH]; [reflexivity|].
  destruct e; cbn [app sent]; try exact IH.
  destruct s, s0; try exact IH; now rewrite IH, app_assoc.
Qed.

Lemma sendall_ok (s : sock) (data : bytes) (w : world) :
  tx_fail w = None ->
  sendall s data w = (inr tt, set_trace w (trace w ++ [SendAll s data])).
Proof. intros H. unfold sendall, spend_send. now rewrite H. Qed.

Lemma report_ok (cb : option callback) (num den : Z) (msg : string) (w : world) :
  callback_ok cb den ->
  exists tr,
    report cb num den msg w = (inr tt, set_trace w (trace w ++ tr)) /\
    sent Client tr = [].
Proof.
  intros H. unfold report. destruct cb as [f|].
  - destruct H as [Hd Hf]. apply Z.eqb_neq in Hd. rewrite Hd.
    rewrite bind_emit, Hf. exists [Progress num den msg]. auto.
  - exists []. rewrite app_nil_r. split; [now destruct w | reflexivity].
Qed.

Section SenderStream.
Context {RT : Runtime}.
Variables (sid : string) (cb : option callback).

Lemma send_loop_stream (name : string) (size : Z) :
  forall (fuel : nat) (f : bytes) (sent0 : Z) (w : world) (s : TransferSession),
    Dict.get (sessions w) sid = Some s ->
    (List.length f < fuel)%nat ->
    callback_ok cb (total_size s) -> tx_fail w = None ->
    blen f <= size - sent0 ->
    exists w' tr,
      send_loop fuel sid cb name f size sent0 w = (inr tt, w') /\
      Dict.get (sessions w') sid = Some (bump s (blen f)) /\
      fs w' = fs w /\ tx_fail w' = None /\
      trace w' = trace w ++ tr /\ sent Client tr = f.
Proof.
  induction fuel as [|fuel IH]; intros f sent0 w s G L Hcb Htx Hsz; [lia|].
  assert (Stop : f = [] -> exists w' tr,
             ret tt w = (inr tt, w') /\
             Dict.get (sessions w') sid = Some (bump s (blen f)) /\
             fs w' = fs w /\ tx_fail w' = None /\
             trace w' = trace w ++ tr /\ sent Client tr = f).
  { intros ->. exists w, []. change (blen []) with 0.
    rewrite bump_zero, app_nil_r. repeat split; auto. }
  pose proof (blen_nonneg f) as Hf.
  cbn [send_loop]. destruct (sent0 <? size) eqn:C.
  2:{ apply Z.ltb_ge in C. apply Stop.
      destruct f; [reflexivity|]. unfold blen in *. cbn [List.length] in *. lia. }
  destruct (take 8192 f) as [|b ch] eqn:T.
  { apply Stop. destruct f; [reflexivity | discriminate]. }
  rewrite <- T.
  pose proof (blen_take 8192 f ltac:(lia)) as Lt.
  pose proof (blen_take_drop 8192 f ltac:(lia)) as Ltd.
  assert (Pos : 0 < blen (take 8192 f)).
  { rewrite T. unfold blen. cbn [List.length]. lia. }
  rewrite (bind_run _ _ _ _ _ (sendall_ok Client (take 8192 f) w Htx)).
  set (w1 := set_trace w (trace w ++ [SendAll Client (take 8192 f)])).
  assert (G1 : Dict.get (sessions w1) sid = Some s) by exact G.
  rewrite (bind_run _ _ _ _ _
             (add_transferred_run sid (blen (take 8192 f)) w1 s G1)).
  set (w2 := set_sessions w1 _).
  assert (G2 : Dict.get (sessions w2) sid = Some (bump s (blen (take 8192 f))))
    by (unfold w2; cbn [sessions set_sessions]; apply get_set_same).
  rewrite (bind_run _ _ _ _ _ (get_session_run sid w2 _ G2)).
  destruct (report_ok cb (transferred_size (bump s (blen (take 8192 f))))
              (total_size (bump s (blen (take 8192 f))))
              (String.append "Sending " name) w2 Hcb) as (trp & Ep & Sp).
  rewrite (bind_run _ _ _ _ _ Ep).
  set (w3 := set_trace w2 (trace w2 ++ trp)).
  destruct (IH (drop 8192 f) (sent0 + blen (take 8192 f)) w3
               (bump s (blen (take 8192 f))))
    as (w' & tr & E & G' & F' & X' & T' & S').
  - exact G2.
  - unfold blen in *. lia.
  - exact Hcb.
  - exact Htx.
  - lia.
  - exists w', ([SendAll Client (take 8192 f)] ++ trp ++ tr).
    split; [exact E|]. split.
    { rewrite G', bump_bump. do 2 f_equal. lia. }
    split; [exact F'|]. split; [exact X'|]. split.
    { rewrite T'. unfold w3, w2, w1. cbn [trace set_trace set_sessions].
      now rewrite <- !app_assoc. }
    rewrite !sent_app, Sp, S'. cbn [sent app].
    rewrite app_nil_r. apply take_drop.
Qed.

Lemma send_file_stream (fi : file_info) (w : world) (s : TransferSession) :
  Dict.get (sessions w) sid = Some s ->
  callback_ok cb (total_size s) -> tx_fail w = None ->
  can_read (fs w) (fi_path fi) = true ->
  blen (content_of (fs w) (fi_path fi)) <= fi_size fi ->
  exists w' tr,
    send_file sid cb fi w = (inr tt, w') /\
    Dict.get (sessions w') sid
    = Some (bump s (blen (content_of (fs w) (fi_path fi)))) /\
    fs w' = fs w /\ tx_fail w' = None /\
    trace w' = trace w ++ tr /\
    sent Client tr = content_of (fs w) (fi_path fi).
Proof.
  intros G Hcb Htx Hr Hsz. unfold send_file.
  rewrite (bind_run _ _ _ _ _ (get_session_run sid w s G)).
  destruct (report_ok cb (transferred_size s) (total_size s)
              (String.append "Sending " (fi_name fi)) w Hcb) as (trp & Ep & Sp).
  rewrite (bind_run _ _ _ _ _ Ep).
  set (w1 := set_trace w (trace w ++ trp)).
  unfold can_read in Hr. unfold content_of in *.
  destruct (Dict.get (fs w) (fi_path fi)) as [[sz [c|]]|] eqn:Gf;
    try discriminate.
  assert (R : read_file (fi_path fi) w1
              = (inr c, set_trace w1 (trace w1 ++ [OpenRead (fi_path fi)]))).
  { unfold read_file, bind, get_world. cbv beta.
    unfold w1. cbn [fs set_trace]. now rewrite Gf. }
  rewrite (bind_run _ _ _ _ _ R).
  set (w2 := set_trace w1 _).
  destruct (send_loop_stream (fi_name fi) (fi_size fi) (S (List.length c)) c 0
              w2 s) as (w' & tr & E & G' & F' & X' & T' & S').
  - exact G.
  - lia.
  - exact Hcb.
  - exact Htx.
  - lia.
  - exists w', (trp ++ [OpenRead (fi_path fi)] ++ tr).
    split; [exact E|]. split; [exact G'|]. split; [exact F'|].
    split; [exact X'|]. split.
    { rewrite T'. unfold w2, w1. cbn [trace set_trace].
      now rewrite <- !app_assoc. }
    rewrite !sent_app, Sp, S'. reflexivity.
Qed.

Lemma for_each_send_stream :
  forall (entries : Dict.t file_info) (w : world) (s : TransferSession),
    Dict.get (sessions w) sid = Some s ->
    callback_ok cb (total_size s) -> tx_fail w = None ->
    files_intact (fs w) entries ->
    exists w' tr,
      for_each entries (fun kv => send_file sid cb (snd kv)) w = (inr tt, w') /\
      Dict.get (sessions w') sid
      = Some (bump s (blen (payload (fs w) entries))) /\
      fs w' = fs w /\ tx_fail w' = None /\
      trace w' = trace w ++ tr /\
      sent Client tr = payload (fs w) entries.
Proof.
  induction entries as [|[k fi] rest IH]; intros w s G Hcb Htx Hi.
  - exists w, []. change (blen (payload (fs w) [])) with 0.
    rewrite bump_zero, app_nil_r. repeat split; auto.
  - cbn [for_each snd].
    destruct (Hi (k, fi) (or_introl eq_refl)) as [Hr Hsz]. cbn [snd] in Hr, Hsz.
    destruct (send_file_stream fi w s G Hcb Htx Hr Hsz)
      as (w1 & t1 & E1 & G1 & F1 & X1 & T1 & S1).
    rewrite (bind_run _ _ _ _ _ E1).
    destruct (IH w1 (bump s (blen (content_of (fs w) (fi_path fi)))))
      as (w' & t2 & E2 & G2 & F2 & X2 & T2 & S2).
    + exact G1.
    + exact Hcb.
    + exact X1.
    + rewrite F1. intros kv I. apply Hi. now right.
    + rewrite F1 in *.
      exists w', (t1 ++ t2). split; [exact E2|]. split.
      { rewrite G2, bump_bump. unfold payload. cbn [map List.concat snd].
        now rewrite blen_app. }
      split; [congruence|]. split; [exact X2|]. split.
      { rewrite T2, T1. now rewrite <- app_assoc. }
      rewrite sent_app, S1, S2. reflexivity.
Qed.

Lemma serve_client_stream (env : send_env) (w : world) (s : TransferSession) :
  Dict.get (sessions w) sid = Some s ->
  callback_ok cb (total_size s) ->
  accept_result env = None -> tx_fail w = None ->
  blen (encode (json_dumps (metadata_value s))) < 2 ^ 32 ->
  files_intact (fs w) (file_metadata s) ->
  exists w' tr,
    serve_client env sid cb w = (inr true, w') /\
    Dict.get (sessions w') sid
    = Some (bump s (blen (payload (fs w) (file_metadata s)))) /\
    fs w' = fs w /\ tx_fail w' = None /\
    trace w' = trace w ++ tr /\
    sent Client tr
    = frame_of (metadata_value s) ++ payload (fs w) (file_metadata s).
Proof.
  intros G Hcb Ha Htx Hlen Hi. unfold serve_client, call. rewrite Ha.
  rewrite bind_assoc, bind_emit, bind_ret, bind_log.
  set (w1 := set_trace _ _).
  assert (G1 : Dict.get (sessions w1) sid = Some s) by exact G.
  rewrite (bind_run _ _ _ _ _ (get_session_run sid w1 s G1)).
  rewrite (bind_run _ _ _ _ _
             (send_json_run Client (metadata_value s) w1 Hlen Htx)).
  set (w2 := set_trace w1 _).
  destruct (for_each_send_stream (file_metadata s) w2 s)
    as (w3 & t3 & E3 & G3 & F3 & X3 & T3 & S3).
  - exact G.
  - exact Hcb.
  - exact Htx.
  - exact Hi.
  - rewrite (bind_run _ _ _ _ _ E3). rewrite !bind_emit, bind_log.
    unfold ret. change (fs w2) with (fs w) in *.
    eexists _, _. split; [reflexivity|].
    cbn [sessions fs tx_fail trace set_trace].
    split; [exact G3|]. split; [exact F3|]. split; [exact X3|]. split.
    + rewrite T3. unfold w2, w1. cbn [trace set_trace].
      rewrite <- !app_assoc. reflexivity.
    + cbn [app]. cbn [sent].
      rewrite !sent_app, S3. cbn [sent]. rewrite !app_nil_r.
      unfold frame_of. now rewrite <- app_assoc.
Qed.

End SenderStream.

(** What [send_files] puts on the connection when nothing fails. *)
Lemma send_files_wire {RT : Runtime} (env : send_env) (sid : string)
    (cb : option callback) (w : world) (s : TransferSession) :
  Dict.get (sessions w) sid = Some s ->
  callback_ok cb (total_size s) ->
  bind_result env = None -> accept_result env = None -> tx_fail w = None ->
  blen (encode (json_dumps (metadata_value s))) < 2 ^ 32 ->
  files_intact (fs w) (file_metadata s) ->
  exists w' tr,
    send_files env sid cb w = (inr true, w') /\
    trace w' = trace w ++ tr /\
    sent Client tr
    = frame_of (metadata_value s) ++ payload (fs w) (file_metadata s) /\
    Dict.get (sessions w') sid
    = Some (bump s (blen (payload (fs w) (file_metadata s)))) /\
    fs w' = fs w.
Proof.
  intros G Hcb Hb Ha Htx Hlen Hi.
  assert (Direct : forall w0 pre,
            sessions w0 = sessions w -> fs w0 = fs w -> tx_fail w0 = None ->
            local_ip w0 = local_ip w ->
            trace w0 = trace w ++ pre -> sent Client pre = [] ->
            exists w' tr,
              _send_files_direct env sid cb w0 = (inr true, w') /\
              trace w' = trace w ++ tr /\
              sent Client tr
              = frame_of (metadata_value s)
                  ++ payload (fs w) (file_metadata s) /\
              Dict.get (sessions w') sid
              = Some (bump s (blen (payload (fs w) (file_metadata s)))) /\
              fs w' = fs w).
  { intros w0 pre S0 F0 X0 L0 T0 P0.
    unfold _send_files_direct. unfold try_ at 1.
    rewrite !bind_emit, bind_get_world. unfold call. rewrite Hb.
    rewrite bind_assoc, bind_emit, bind_ret, !bind_emit, bind_log.
    set (w1 := set_trace _ _).
    destruct (serve_client_stream sid cb env w1 s)
      as (w2 & t2 & E2 & G2 & F2 & X2 & T2 & S2).
    - unfold w1. cbn [sessions set_trace]. now rewrite S0.
    - exact Hcb.
    - exact Ha.
    - exact X0.
    - exact Hlen.
    - unfold w1. cbn [fs set_trace]. now rewrite F0.
    - unfold try_. rewrite E2.
      change (fs w1) with (fs w0) in *. rewrite F0 in *.
      eexists w2, _. split; [reflexivity|]. split.
      + rewrite T2. unfold w1. cbn [trace set_trace]. rewrite T0.
        rewrite <- !app_assoc. reflexivity.
      + split; [|split; [exact G2 | exact F2]].
        rewrite !sent_app, P0, S2. reflexivity. }
  unfold send_files. rewrite bind_get_world. unfold Dict.mem. rewrite G.
  cbn [negb]. unfold try_ at 1.
  destruct (webrtc_available w).
  - unfold _send_files_webrtc. rewrite bind_log.
    destruct (Direct (set_trace w (trace w ++
                [Log Info "WebRTC sending not yet implemented - falling back to direct transfer"]))
                [Log Info "WebRTC sending not yet implemented - falling back to direct transfer"])
      as (w' & tr & E & R); try reflexivity; try exact Htx.
    rewrite E. exists w', tr. split; [reflexivity | exact R].
  - destruct (Direct w []) as (w' & tr & E & R); try reflexivity; try exact Htx.
    { now rewrite app_nil_r. }
    rewrite E. exists w', tr. split; [reflexivity | exact R].
Qed.

(** X12: the sender's wire format. When the listening socket binds, a
    client connects, no send fails, the metadata fits the 4-byte prefix,
    the progress callback (if any) returns and every file of the session
    can be read and holds no more than its metadata entry says,
    [send_files] returns True and the bytes sent on the connection are
    exactly the metadata frame followed by the contents of the files in
    the order of [file_metadata], with no separator; [transferred_size]
    has grown by the number of file bytes sent. *)
Theorem send_files_stream {RT : Runtime} (env : send_env) (sid : string)
    (cb : option callback) (w : world) (s : TransferSession) :
  Dict.get (sessions w) sid = Some s ->
  callback_ok cb (total_size s) ->
  bind_result env = None -> accept_result env = None -> tx_fail w = None ->
  blen (encode (json_dumps (metadata_value s))) < 2 ^ 32 ->
  files_intact (fs w) (file_metadata s) ->
  exists w' tr,
    send_files env sid cb w = (inr true, w') /\
    trace w' = trace w ++ tr /\
    sent Client tr
    = frame_of (metadata_value s) ++ payload (fs w) (file_metadata s) /\
    Dict.get (sessions w') sid
    = Some (bump s (blen (payload (fs w) (file_metadata s)))) /\
    fs w' = fs w.
Proof. exact (send_files_wire env sid cb w s). Qed.

Lemma send_files_stream_witness :
  let s := session_of ten_byte_world "jt01" in
  exists w' tr,
    @send_files Ref.runtime open_network "jt01" None ten_byte_world
      = (inr true, w') /\
    trace w' = trace ten_byte_world ++ tr /\
    sent Client tr
    = @frame_of Ref.runtime (metadata_value s)
        ++ payload (fs ten_byte_world) (file_metadata s) /\
    Dict.get (sessions w') "jt01"
    = Some (bump s (blen (payload (fs ten_byte_world) (file_metadata s)))) /\
    fs w' = fs ten_byte_world.
Proof.
  intros s.
  apply (@send_files_stream Ref.runtime open_network "jt01" None
           ten_byte_world s).
  - vm_compute. reflexivity.
  - exact I.
  - reflexivity.
  - reflexivity.
  - reflexivity.
  - vm_compute. reflexivity.
  - intros kv [<-|[]]. vm_compute. split; [reflexivity | discriminate].
Defined.

(** ** What the receiver writes *)

Lemma written_bytes_skip (a b : list event) :
  no_file a = true -> written_bytes (a ++ b) = written_bytes b.
Proof.
  induction a as [|e a IH]; [reflexivity|]. cbn [no_file forallb].
  intros H. apply andb_prop in H. destruct H as [He Ha].
  destruct e; try discriminate; exact (IH Ha).
Qed.

Lemma written_skip (a b : list event) :
  no_open a = true -> written (a ++ b) = written b.
Proof.
  induction a as [|e a IH]; [reflexivity|]. cbn [no_open forallb].
  intros H. apply andb_prop in H. destruct H as [He Ha].
  destruct e; try discriminate; exact (IH Ha).
Qed.

Lemma written_bytes_app (a b : list event) :
  no_open a = true ->
  written_bytes (a ++ b) = written_bytes a ++ written_bytes b.
Proof.
  induction a as [|e a IH]; [reflexivity|]. cbn [no_open forallb].
  intros H. apply andb_prop in H. destruct H as [He Ha].
  destruct e; try discriminate; cbn [app written_bytes];
    try exact (IH Ha).
  rewrite (IH Ha). now rewrite app_assoc.
Qed.

Lemma no_file_no_open (a : list event) : no_file a = true -> no_open a = true.
Proof.
  unfold no_file, no_open. rewrite !forallb_forall. intros H e I.
  specialize (H e I). apply andb_prop in H. tauto.
Qed.

Lemma no_open_app (a b : list event) :
  no_open a = true -> no_open b = true -> no_open (a ++ b) = true.
Proof. unfold no_open. rewrite forallb_app. intros -> ->. reflexivity. Qed.

Lemma take_app_plus (a b : bytes) (k : Z) :
  0 <= k -> take (blen a + k) (a ++ b) = a ++ take k b.
Proof.
  intros H. unfold take, blen.
  replace (Z.to_nat (Z.of_nat (List.length a) + k))
    with (List.length a + Z.to_nat k)%nat by lia.
  apply firstn_app_2.
Qed.

Lemma drop_app_plus (a b : bytes) (k : Z) :
  0 <= k -> drop (blen a + k) (a ++ b) = drop k b.
Proof.
  intros H. unfold drop, blen.
  replace (Z.to_nat (Z.of_nat (List.length a) + k))
    with (List.length a + Z.to_nat k)%nat by lia.
  rewrite skipn_app, skipn_all2 by lia.
  replace (List.length a + Z.to_nat k - List.length a)%nat
    with (Z.to_nat k) by lia.
  reflexivity.
Qed.

Lemma report_received_ok (cb : option callback) (n t : Z) (msg : string)
      (w : world) :
  callback_ok cb t ->
  exists tr,
    report_received cb n (VInt t) msg w = (inr tt, set_trace w (trace w ++ tr)) /\
    no_file tr = true.
Proof.
  intros H. unfold report_received. destruct cb as [f|].
  - cbn [py_number]. rewrite lift_inr, bind_ret. unfold report.
    destruct H as [Hd Hf]. apply Z.eqb_neq in Hd. rewrite Hd.
    rewrite bind_emit, Hf. exists [Progress n t msg]. auto.
  - exists []. rewrite app_nil_r. split; [now destruct w | reflexivity].
Qed.

Section ReceiverWrites.
Context {RT : Runtime}.
Variables (cb : option callback) (t : Z).
Hypothesis Hcb : callback_ok cb t.

Lemma recv_loop_complete (name : string) (file_size : Z) :
  forall (fuel : nat) (br rs : Z) (w : world),
    file_size - br <= Z.of_nat fuel ->
    file_size - br <= blen (stream w) ->
    exists w' tr,
      recv_loop fuel cb (VInt t) name file_size br rs w
      = (inr (rs + Z.max 0 (file_size - br)), w') /\
      stream w' = drop (file_size - br) (stream w) /\
      read_on w w' /\ trace w' = trace w ++ tr /\
      no_open tr = true /\
      written_bytes tr = take (file_size - br) (stream w).
Proof.
  induction fuel as [|fuel IH]; intros br rs w Hf Hs.
  - cbn [recv_loop]. destruct (br <? file_size) eqn:C; [lia|].
    apply Z.ltb_ge in C. exists w, []. unfold ret, take, drop.
    replace (Z.to_nat (file_size - br)) with 0%nat by lia.
    replace (Z.max 0 (file_size - br)) with 0 by lia.
    rewrite Z.add_0_r, app_nil_r. cbn [firstn skipn].
    repeat split; auto using read_on_refl.
  - cbn [recv_loop]. destruct (br <? file_size) eqn:C.
    2:{ apply Z.ltb_ge in C. exists w, []. unfold ret, take, drop.
        replace (Z.to_nat (file_size - br)) with 0%nat by lia.
        replace (Z.max 0 (file_size - br)) with 0 by lia.
        rewrite Z.add_0_r, app_nil_r. cbn [firstn skipn].
        repeat split; auto using read_on_refl. }
    apply Z.ltb_lt in C.
    assert (Hne : stream w <> []).
    { intros E. rewrite E in Hs. unfold blen in Hs at 1. simpl in Hs. lia. }
    destruct (recv_data Client (Z.min 8192 (file_size - br)) w ltac:(lia) Hne)
      as (chunk & w1 & R & Hc & Hl & Hst & _ & Tr1 & Hr).
    rewrite (bind_run _ _ _ _ _ R).
    destruct chunk as [|b chunk]; [contradiction|].
    set (ch := b :: chunk) in *.
    assert (Pos : 0 < blen ch) by (unfold ch, blen; cbn [List.length]; lia).
    rewrite bind_emit.
    set (w2 := set_trace w1 (trace w1 ++ [Write ch])).
    destruct (report_received_ok cb (rs + blen ch) t
                (String.append "Receiving " name) w2 Hcb) as (trp & Ep & Np).
    rewrite (bind_run _ _ _ _ _ Ep).
    set (w3 := set_trace w2 (trace w2 ++ trp)).
    assert (S3 : stream w3 = stream w1) by reflexivity.
    assert (Ls : blen (stream w) = blen ch + blen (stream w1))
      by (rewrite Hst, blen_app; reflexivity).
    destruct (IH (br + blen ch) (rs + blen ch) w3)
      as (w' & tr & E & St & Ro & Tr & No & Wb).
    + lia.
    + rewrite S3. lia.
    + exists w', ([Recv Client (Z.min 8192 (file_size - br)); Write ch]
                    ++ trp ++ tr).
      split.
      { rewrite E. do 2 f_equal. lia. }
      split.
      { rewrite St, S3, Hst.
        replace (file_size - br) with (blen ch + (file_size - (br + blen ch)))
          by lia.
        rewrite drop_app_plus by lia. reflexivity. }
      split.
      { eapply read_on_trans; [exact Hr|].
        eapply read_on_trans; [|exact Ro]. unfold read_on. cbn. auto 10. }
      split.
      { rewrite Tr. unfold w3, w2. cbn [trace set_trace]. rewrite Tr1.
        now rewrite <- !app_assoc. }
      split.
      { cbn [app no_open forallb is_open negb andb].
        apply no_open_app; [now apply no_file_no_open | exact No]. }
      cbn [app written_bytes].
      rewrite written_bytes_skip by exact Np. rewrite Wb, S3, Hst.
      replace (take (file_size - br) (ch ++ stream w1))
        with (take (blen ch + (file_size - (br + blen ch))) (ch ++ stream w1))
        by (f_equal; lia).
      rewrite take_app_plus by lia. reflexivity.
Qed.

Lemma receive_file_complete (env : recv_env) (dir : string) (fi : file_info)
      (rs : Z) (w : world) :
  open_result env (fi_name fi) = None ->
  fi_size fi <= blen (stream w) ->
  exists w' tr,
    receive_file env dir cb (VInt t) (file_info_value fi) rs w
    = (inr (rs + Z.max 0 (fi_size fi)), w') /\
    stream w' = drop (fi_size fi) (stream w) /\
    read_on w w' /\ trace w' = trace w ++ tr /\
    (forall b, written_bytes b = [] ->
       written (tr ++ b)
       = (dir, fi_name fi, take (fi_size fi) (stream w)) :: written b /\
       written_bytes (tr ++ b) = []).
Proof.
  intros Ho Hs. unfold receive_file.
  change (py_getitem (file_info_value fi) "name") with
    (@inr exn value (VStr (fi_name fi))).
  change (py_getitem (file_info_value fi) "size") with
    (@inr exn value (VInt (fi_size fi))).
  rewrite !lift_inr, !bind_ret.
  destruct (report_received_ok cb rs t
              (String.append "Receiving " (fi_name fi)) w Hcb)
    as (trp & Ep & Np).
  rewrite (bind_run _ _ _ _ _ Ep).
  unfold call. rewrite bind_assoc, bind_emit, Ho, bind_ret.
  cbn [py_number]. rewrite lift_inr, bind_ret.
  set (w2 := set_trace _ _).
  destruct (recv_loop_complete (fi_name fi) (fi_size fi)
              (Z.to_nat (fi_size fi)) 0 rs w2)
    as (w' & tr & E & St & Ro & Tr & No & Wb).
  - lia.
  - change (stream w2) with (stream w). lia.
  - rewrite Z.sub_0_r in *. change (stream w2) with (stream w) in *.
    exists w', (trp ++ [OpenWrite dir (fi_name fi)] ++ tr).
    split; [exact E|]. split; [exact St|]. split.
    { eapply read_on_trans; [|exact Ro]. unfold read_on. cbn. auto 10. }
    split.
    { rewrite Tr. unfold w2. cbn [trace set_trace].
      now rewrite <- !app_assoc. }
    intros b Hb. rewrite <- !app_assoc. split.
    + rewrite written_skip by now apply no_file_no_open.
      cbn [app written]. rewrite written_bytes_app by exact No.
      rewrite Wb, Hb, app_nil_r. now rewrite written_skip by exact No.
    + rewrite written_bytes_skip by exact Np. reflexivity.
Qed.

Lemma receive_each_complete (env : recv_env) (dir : string) :
  forall (entries : Dict.t file_info) (rs : Z) (w : world),
    (forall kv, In kv entries ->
                open_result env (fi_name (snd kv)) = None /\
                0 <= fi_size (snd kv)) ->
    entries_sum entries <= blen (stream w) ->
    exists w' tr,
      receive_each env dir cb (VInt t)
        (map (fun kv => (fst kv, file_info_value (snd kv))) entries) rs w
      = (inr (rs + entries_sum entries), w') /\
      stream w' = drop (entries_sum entries) (stream w) /\
      read_on w w' /\ trace w' = trace w ++ tr /\
      (forall b, written_bytes b = [] ->
         written (tr ++ b) = slices dir entries (stream w) ++ written b /\
         written_bytes (tr ++ b) = []).
Proof.
  induction entries as [|[k fi] rest IH]; intros rs w Ho Hs.
  - exists w, []. unfold entries_sum. cbn [map fold_right receive_each].
    unfold ret, drop. cbn [Z.to_nat skipn slices app].
    rewrite Z.add_0_r, app_nil_r.
    repeat split; auto using read_on_refl.
  - destruct (Ho (k, fi) (or_introl eq_refl)) as [Hop Hsz]. cbn [snd] in Hop, Hsz.
    assert (Hrest : 0 <= entries_sum rest).
    { clear - Ho. induction rest as [|kv rest IHr]; [unfold entries_sum; cbn; lia|].
      unfold entries_sum in *. cbn [map fold_right].
      pose proof (proj2 (Ho kv (or_intror (or_introl eq_refl)))).
      assert (0 <= fold_right Z.add 0 (map (fun kv0 => fi_size (snd kv0)) rest)).
      { apply IHr. intros kv0 [I|I]; apply Ho; [now left | right; now right]. }
      lia. }
    assert (Esum : entries_sum ((k, fi) :: rest) = fi_size fi + entries_sum rest)
      by reflexivity.
    rewrite Esum in *.
    cbn [map receive_each fst snd].
    destruct (receive_file_complete env dir fi rs w Hop ltac:(lia))
      as (w1 & t1 & E1 & S1 & R1 & T1 & W1).
    rewrite (bind_run _ _ _ _ _ E1).
    destruct (IH (rs + Z.max 0 (fi_size fi)) w1)
      as (w' & t2 & E2 & S2 & R2 & T2 & W2).
    + intros kv I. apply Ho. now right.
    + rewrite S1. unfold blen, drop in *. rewrite length_skipn. lia.
    + exists w', (t1 ++ t2). split.
      { rewrite E2. do 2 f_equal. lia. }
      split.
      { rewrite S2, S1. unfold drop. rewrite skipn_skipn. f_equal. lia. }
      split; [eapply read_on_trans; eauto|]. split.
      { rewrite T2, T1. now rewrite <- app_assoc. }
      intros b Hb. rewrite <- app_assoc.
      destruct (W2 b Hb) as [Wa Wb].
      destruct (W1 (t2 ++ b) Wb) as [Wc Wd].
      split; [|exact Wd].
      rewrite Wc, Wa, S1. reflexivity.
Qed.

End ReceiverWrites.


Lemma recv_trace (s : sock) (n : Z) (w : world) :
  trace (snd (recv s n w)) = trace w ++ [Recv s n].
Proof.
  unfold recv, bind, emit.
  destruct (n <? 0); [reflexivity|]. destruct (n =? 0); [reflexivity|].
  cbn [set_trace rx rx_end].
  destruct (drop_empty (rx w)); [destruct (rx_end w)|]; reflexivity.
Qed.

Lemma slices_app (dir : string) (tail : bytes) :
  forall (entries : Dict.t file_info) (data : bytes),
    (forall kv, In kv entries -> 0 <= fi_size (snd kv)) ->
    entries_sum entries <= blen data ->
    slices dir entries (data ++ tail) = slices dir entries data.
Proof.
  induction entries as [|[k fi] rest IH]; intros data Hp Hs; [reflexivity|].
  assert (Esum : entries_sum ((k, fi) :: rest) = fi_size fi + entries_sum rest)
    by reflexivity.
  rewrite Esum in Hs.
  pose proof (Hp (k, fi) (or_introl eq_refl)) as H0. cbn [snd] in H0.
  assert (Hrest : 0 <= entries_sum rest).
  { clear - Hp. induction rest as [|kv rest IHr]; [unfold entries_sum; cbn; lia|].
    unfold entries_sum in *. cbn [map fold_right].
    pose proof (Hp kv (or_intror (or_introl eq_refl))).
    assert (0 <= fold_right Z.add 0 (map (fun kv0 => fi_size (snd kv0)) rest)).
    { apply IHr. intros kv0 [I|I]; apply Hp; [now left | right; now right]. }
    lia. }
  cbn [slices]. unfold take, drop, blen in *.
  rewrite firstn_app, skipn_app.
  replace (Z.to_nat (fi_size fi) - List.length data)%nat with 0%nat by lia.
  cbn [firstn skipn]. rewrite app_nil_r. f_equal.
  apply IH.
  - intros kv I. apply Hp. now right.
  - rewrite length_skipn. lia.
Qed.

Section ReceiverComplete.
Context {RT : Runtime}.

Lemma receive_json_loop_trace (s : sock) (length : Z) :
  forall (fuel : nat) (acc : bytes) (w : world),
  exists t,
    trace (snd (_receive_json_loop fuel s length acc w)) = trace w ++ t /\
    no_file t = true.
Proof.
  induction fuel as [|fuel IH]; intros acc w; cbn [_receive_json_loop];
    destruct (blen acc <? length);
    try (exists []; rewrite app_nil_r; split; reflexivity).
  pose proof (recv_trace s (length - blen acc) w) as Tr.
  unfold bind at 1.
  destruct (recv s (length - blen acc) w) as [[e|chunk] w1]; cbn [snd] in Tr.
  - exists [Recv s (length - blen acc)]. auto.
  - destruct chunk as [|b chunk].
    + exists [Recv s (length - blen acc)]. auto.
    + destruct (IH (acc ++ b :: chunk) w1) as (t & E & N).
      exists (Recv s (length - blen acc) :: t). split.
      * rewrite E, Tr. now rewrite <- app_assoc.
      * exact N.
Qed.

Lemma receive_json_trace (s : sock) (w : world) :
  exists t,
    trace (snd (_receive_json s w)) = trace w ++ t /\ no_file t = true.
Proof.
  unfold _receive_json. pose proof (recv_trace s 4 w) as Tr.
  unfold bind at 1. destruct (recv s 4 w) as [[e|lb] w1]; cbn [snd] in Tr.
  - exists [Recv s 4]. auto.
  - destruct (blen lb <? 4); [exists [Recv s 4]; auto|].
    cbv zeta.
    destruct (receive_json_loop_trace s (from_bytes lb)
                (Z.to_nat (from_bytes lb)) [] w1) as (t & E & N).
    unfold bind at 1.
    destruct (_receive_json_loop _ s _ [] w1) as [[e|[jd|]] w2]; cbn [snd] in E.
    + exists (Recv s 4 :: t). split; [|exact N].
      cbn [snd]. rewrite E, Tr. now rewrite <- app_assoc.
    + exists (Recv s 4 :: t). split; [|exact N].
      assert (X : snd ((text <- lift (decode jd);; lift (json_loads text)) w2)
                  = w2).
      { unfold bind, lift. destruct (decode jd); [reflexivity|].
        destruct (json_loads _); reflexivity. }
      rewrite X, E, Tr. now rewrite <- app_assoc.
    + exists (Recv s 4 :: t). split; [|exact N].
      cbn [snd ret]. unfold ret. cbn [snd]. rewrite E, Tr.
      now rewrite <- app_assoc.
Qed.

(** The whole of [_receive_files_direct] on a stream that holds the
    metadata frame of [s] and at least the announced bytes. *)
Lemma receive_files_direct_complete (env : recv_env)
      (sid dir text host port : string) (cb : option callback) (p : Z)
      (w0 : world) (s : TransferSession) (seg : bytes) (rest : list bytes)
      (data tail : bytes) :
  split_colon text = [host; port] ->
  int_of_str port = inr p ->
  connect_result env = None -> mkdir_result env = None ->
  (forall kv, In kv (file_metadata s) ->
              open_result env (fi_name (snd kv)) = None /\
              0 <= fi_size (snd kv)) ->
  session_id s = sid ->
  round_trips (metadata_value s) ->
  blen (encode (json_dumps (metadata_value s))) < 2 ^ 32 ->
  callback_ok cb (total_size s) ->
  drop_empty (rx w0) = seg :: rest -> 4 <= blen seg ->
  stream w0 = frame_of (metadata_value s) ++ data ++ tail ->
  blen data = entries_sum (file_metadata s) ->
  exists w' tr,
    _receive_files_direct env sid dir (VStr text) cb w0 = (inr true, w') /\
    stream w' = tail /\ trace w' = trace w0 ++ tr /\
    written tr = slices dir (file_metadata s) data.
Proof.
  intros Hs Hp Hc Hm Ho Hid (txt & Hdec & Hload) Hlen Hcb Hd Hseg Hst Hdata.
  unfold _receive_files_direct, try_.
  rewrite bind_ret, Hs, bind_ret. cbn [fst snd].
  rewrite Hp, lift_inr, bind_ret, !bind_emit.
  unfold call. rewrite bind_assoc, bind_emit, Hc, bind_ret, bind_log.
  cbn [trace set_trace].
  set (w1 := set_trace _ _).
  set (pre := [SockOpen Client; SetTimeout Client 30; Connect Client host p;
               Log Info "P2P: Connected to sender at {endpoint}"]).
  assert (T1 : trace w1 = trace w0 ++ pre).
  { unfold w1, pre. cbn [trace set_trace]. now rewrite <- !app_assoc. }
  destruct (receive_json_frame Client (encode (json_dumps (metadata_value s)))
              (data ++ tail) w1 seg rest Hlen Hd Hseg)
    as (w2 & Ej & S2 & R2).
  { change (stream w1) with (stream w0). rewrite Hst. unfold frame_of.
    now rewrite <- app_assoc. }
  destruct (receive_json_trace Client w1) as (t2 & T2 & N2).
  rewrite Ej in T2. cbn [snd] in T2.
  rewrite Hdec, Hload in Ej.
  rewrite (bind_run _ _ _ _ _ Ej).
  change (truthy (metadata_value s)) with true. cbn [negb].
  change (py_get (metadata_value s) "session_id")
    with (@inr exn value (VStr (session_id s))).
  rewrite lift_inr, bind_assoc, bind_ret, bind_ret.
  cbn [eq_str]. rewrite Hid, String.eqb_refl. cbn [negb].
  change (py_getitem (metadata_value s) "files")
    with (@inr exn value
            (VDict (map (fun kv => (fst kv, file_info_value (snd kv)))
                        (file_metadata s)))).
  change (py_getitem (metadata_value s) "total_size")
    with (@inr exn value (VInt (total_size s))).
  rewrite !lift_inr, !bind_ret.
  rewrite bind_assoc, bind_emit, Hm, bind_ret.
  cbn [py_items]. rewrite lift_inr, bind_ret.
  set (w3 := set_trace w2 _).
  destruct (receive_each_complete cb (total_size s) Hcb env dir
              (file_metadata s) 0 w3 Ho)
    as (w4 & t4 & E4 & S4 & R4 & T4 & W4).
  { change (stream w3) with (stream w2). rewrite S2, blen_app.
    pose proof (blen_nonneg tail). lia. }
  rewrite (bind_run _ _ _ _ _ E4). rewrite bind_emit, bind_log. unfold ret.
  change (stream w3) with (stream w2) in *. rewrite S2 in *.
  eexists _, (pre ++ t2 ++ [Mkdir dir] ++ t4
                ++ [SockClose Client;
                    Log Info "P2P: File reception completed successfully"]).
  split; [reflexivity|]. split.
  { change (stream (set_trace (set_trace w4 ?a) ?b)) with (stream w4).
    rewrite S4, <- Hdata. unfold drop, blen. rewrite Nat2Z.id.
    rewrite skipn_app, skipn_all, Nat.sub_diag. reflexivity. }
  split.
  { cbn [trace set_trace]. rewrite T4. unfold w3. cbn [trace set_trace].
    rewrite T2, T1. now rewrite <- !app_assoc. }
  rewrite written_skip by reflexivity.
  rewrite written_skip by (now apply no_file_no_open).
  rewrite written_skip by reflexivity.
  destruct (W4 [SockClose Client;
                Log Info "P2P: File reception completed successfully"]
               eq_refl) as [Wa _].
  rewrite Wa. cbn [written]. rewrite app_nil_r.
  apply slices_app; [intros kv I; apply Ho, I | lia].
Qed.

(** [receive_files] on a stream that holds the frame and the announced
    bytes. *)
Lemma receive_files_complete (env : recv_env)
    (sid dir text host port : string) (cb : option callback) (p : Z)
    (w w0 : world) (s : TransferSession) (seg : bytes) (rest : list bytes)
    (data tail : bytes) :
  discover_session (probe env) sid w = (inr (VStr text), w0) ->
  split_colon text = [host; port] ->
  int_of_str port = inr p ->
  connect_result env = None -> mkdir_result env = None ->
  (forall kv, In kv (file_metadata s) ->
              open_result env (fi_name (snd kv)) = None /\
              0 <= fi_size (snd kv)) ->
  session_id s = sid ->
  round_trips (metadata_value s) ->
  blen (encode (json_dumps (metadata_value s))) < 2 ^ 32 ->
  callback_ok cb (total_size s) ->
  drop_empty (rx w0) = seg :: rest -> 4 <= blen seg ->
  stream w0 = frame_of (metadata_value s) ++ data ++ tail ->
  blen data = entries_sum (file_metadata s) ->
  exists w' tr,
    receive_files env sid dir cb w = (inr true, w') /\
    stream w' = tail /\ trace w' = trace w0 ++ tr /\
    written tr = slices dir (file_metadata s) data.
Proof.
  intros Hdisc Hs Hp Hc Hm Ho Hid Hrt Hlen Hcb Hd Hseg Hst Hdata.
  unfold receive_files, try_.
  rewrite (bind_run _ _ _ _ _ Hdisc).
  rewrite (split_colon_nonempty _ _ _ Hs). cbn [negb].
  rewrite bind_get_world.
  destruct (webrtc_available w0) eqn:Wa.
  - unfold _receive_files_webrtc. rewrite bind_log.
    set (w1 := set_trace w0 _).
    destruct (receive_files_direct_complete env sid dir text host port cb p
                w1 s seg rest data tail Hs Hp Hc Hm Ho Hid Hrt Hlen Hcb
                Hd Hseg Hst Hdata) as (w' & tr & E & S & T & W).
    rewrite E.
    exists w', (Log Info "WebRTC receiving not yet implemented - falling back to direct transfer" :: tr).
    split; [reflexivity|]. split; [exact S|]. split.
    + rewrite T. unfold w1. cbn [trace set_trace]. now rewrite <- app_assoc.
    + exact W.
  - destruct (receive_files_direct_complete env sid dir text host port cb p
                w0 s seg rest data tail Hs Hp Hc Hm Ho Hid Hrt Hlen Hcb
                Hd Hseg Hst Hdata) as (w' & tr & E & S & T & W).
    rewrite E. exists w', tr. auto.
Qed.

(** X13: the receiver's side of the wire format. Once discovery has given
    an endpoint and the connection is made, if the stream holds the
    metadata frame of the session (in one piece for its first four bytes)
    followed by at least the announced number of bytes, then, however the
    stream is cut into segments, [receive_files] returns True, creates
    each announced file under the name it was given and writes to it
    exactly the next [size] bytes of the stream, and reads nothing beyond
    the last announced byte. *)
Theorem receive_files_writes_announced (env : recv_env)
    (sid dir text host port : string) (cb : option callback) (p : Z)
    (w w0 : world) (s : TransferSession) (seg : bytes) (rest : list bytes)
    (data tail : bytes) :
  discover_session (probe env) sid w = (inr (VStr text), w0) ->
  split_colon text = [host; port] ->
  int_of_str port = inr p ->
  connect_result env = None -> mkdir_result env = None ->
  (forall kv, In kv (file_metadata s) ->
              open_result env (fi_name (snd kv)) = None /\
              0 <= fi_size (snd kv)) ->
  session_id s = sid ->
  round_trips (metadata_value s) ->
  blen (encode (json_dumps (metadata_value s))) < 2 ^ 32 ->
  callback_ok cb (total_size s) ->
  drop_empty (rx w0) = seg :: rest -> 4 <= blen seg ->
  stream w0 = frame_of (metadata_value s) ++ data ++ tail ->
  blen data = entries_sum (file_metadata s) ->
  exists w' tr,
    receive_files env sid dir cb w = (inr true, w') /\
    stream w' = tail /\ trace w' = trace w0 ++ tr /\
    written tr = slices dir (file_metadata s) data.
Proof.
  exact (receive_files_complete env sid dir text host port cb p w w0 s seg
           rest data tail).
Qed.
End ReceiverComplete.

Lemma receive_files_writes_announced_witness :
  let s := session_of ten_byte_world "jt01" in
  let frame := @frame_of Ref.runtime (metadata_value s) in
  let w := with_rx empty_world
             [frame ++ take 3 (repeat "a"%byte 10);
              drop 3 (repeat "a"%byte 10)] in
  let w0 := snd (@discover_session Ref.runtime (probe answering) "jt01" w) in
  exists w' tr,
    @receive_files Ref.runtime answering "jt01" "/downloads" None w
      = (inr true, w') /\
    stream w' = [] /\ trace w' = trace w0 ++ tr /\
    written tr = slices "/downloads" (file_metadata s) (repeat "a"%byte 10).
Proof.
  intros s frame w w0.
  apply (@receive_files_writes_announced Ref.runtime answering "jt01"
           "/downloads" "192.168.1.20:45679" "192.168.1.20" "45679" None 45679
           w w0 s (frame ++ take 3 (repeat "a"%byte 10))
           [drop 3 (repeat "a"%byte 10)] (repeat "a"%byte 10) []).
  - vm_compute. reflexivity.
  - reflexivity.
  - reflexivity.
  - reflexivity.
  - reflexivity.
  - intros kv [<-|[]]. split; [reflexivity | vm_compute; discriminate].
  - reflexivity.
  - eexists; split; [vm_compute; reflexivity | vm_compute; reflexivity].
  - vm_compute. reflexivity.
  - exact I.
  - vm_compute. reflexivity.
  - vm_compute. discriminate.
  - vm_compute. reflexivity.
  - vm_compute. reflexivity.
Defined.

(** ** Sender and receiver together *)

Lemma payload_slices (fsys : Dict.t fnode) (dir : string) :
  forall entries : Dict.t file_info,
    files_unchanged fsys entries ->
    blen (payload fsys entries) = entries_sum entries /\
    slices dir entries (payload fsys entries)
    = map (fun kv => (dir, fi_name (snd kv), content_of fsys (fi_path (snd kv))))
          entries.
Proof.
  induction entries as [|[k fi] rest IH]; intros H; [split; reflexivity|].
  destruct (H (k, fi) (or_introl eq_refl)) as [_ Hs]. cbn [snd] in Hs.
  destruct IH as [L S]; [intros kv I; apply H; now right|].
  unfold payload in *. cbn [map List.concat slices snd]. split.
  - rewrite blen_app, L, Hs. reflexivity.
  - rewrite <- Hs. unfold take, drop, blen. rewrite Nat2Z.id.
    rewrite firstn_app, firstn_all, Nat.sub_diag. cbn [firstn].
    rewrite app_nil_r.
    rewrite skipn_app, skipn_all, Nat.sub_diag. cbn [skipn app].
    now rewrite S.
Qed.

(** Sender and receiver side by side: what is sent is what is read, and
    the receiver opens and writes one file per entry. *)
Lemma transfer_wire {RT : Runtime} (senv : send_env) (renv : recv_env)
    (sid dir text host port : string) (scb rcb : option callback) (p : Z)
    (ws wr wr0 : world) (s : TransferSession) (seg : bytes)
    (rest : list bytes) :
  Dict.get (sessions ws) sid = Some s -> session_id s = sid ->
  callback_ok scb (total_size s) ->
  bind_result senv = None -> accept_result senv = None -> tx_fail ws = None ->
  blen (encode (json_dumps (metadata_value s))) < 2 ^ 32 ->
  round_trips (metadata_value s) ->
  files_unchanged (fs ws) (file_metadata s) ->
  discover_session (probe renv) sid wr = (inr (VStr text), wr0) ->
  split_colon text = [host; port] -> int_of_str port = inr p ->
  connect_result renv = None -> mkdir_result renv = None ->
  (forall name, open_result renv name = None) ->
  callback_ok rcb (total_size s) ->
  drop_empty (rx wr0) = seg :: rest -> 4 <= blen seg ->
  stream wr0
  = frame_of (metadata_value s) ++ payload (fs ws) (file_metadata s) ->
  exists ws' sent_trace wr' tr,
    send_files senv sid scb ws = (inr true, ws') /\
    trace ws' = trace ws ++ sent_trace /\
    sent Client sent_trace = stream wr0 /\
    receive_files renv sid dir rcb wr = (inr true, wr') /\
    stream wr' = [] /\ trace wr' = trace wr0 ++ tr /\
    written tr
    = map (fun kv => (dir, fi_name (snd kv),
                      content_of (fs ws) (fi_path (snd kv))))
          (file_metadata s).
Proof.
  intros G Hid Hscb Hb Ha Htx Hlen Hrt Hu Hdisc Hs Hp Hc Hm Ho Hrcb Hd Hseg
         Hst.
  destruct (send_files_wire senv sid scb ws s G Hscb Hb Ha Htx Hlen)
    as (ws' & trs & E & T & S & _).
  { intros kv I. destruct (Hu kv I) as [R L]. split; [exact R | lia]. }
  destruct (payload_slices (fs ws) dir (file_metadata s) Hu) as [L Sl].
  destruct (receive_files_complete renv sid dir text host port rcb p wr wr0 s
              seg rest (payload (fs ws) (file_metadata s)) [])
    as (wr' & tr & Er & Sr & Tr & Wr); auto.
  - intros kv I. split; [apply Ho|].
    destruct (Hu kv I) as [_ <-]. apply blen_nonneg.
  - rewrite Hst, app_nil_r. reflexivity.
  - exists ws', trs, wr', tr. rewrite <- Sl, Hst, S. auto 10.
Qed.

Section FilesAfter.
Context {A : Type} (dir : string) (name : A -> string) (c : A -> bytes).

Lemma file_after_absent (l : list A) (n : string) :
  ~ In n (map name l) ->
  file_after (map (fun a => (dir, name a, c a)) l) dir n = None.
Proof.
  induction l as [|a l IH]; intros N; [reflexivity|].
  cbn [map file_after]. rewrite IH by (intros I; apply N; now right).
  destruct (String.eqb (name a) n) eqn:E.
  - apply String.eqb_eq in E. exfalso. apply N. now left.
  - now rewrite andb_false_r.
Qed.

Lemma file_after_distinct (l : list A) :
  NoDup (map name l) ->
  forall a, In a l ->
    file_after (map (fun a => (dir, name a, c a)) l) dir (name a)
    = Some (c a).
Proof.
  induction l as [|a0 l IH]; intros D a I; [destruct I|].
  cbn [map] in D. inversion D as [|? ? N D']; subst.
  cbn [map file_after]. destruct I as [<-|I].
  - rewrite file_after_absent by exact N. now rewrite !String.eqb_refl.
  - now rewrite (IH D' a I).
Qed.
End FilesAfter.

(** X14: a transfer end to end. A sender whose files are as they were when
    the session was created, and a receiver that has discovered it and is
    handed the sender's bytes (cut into segments in any way that leaves the
    first four bytes together): [send_files] and [receive_files] both
    return True, the receiver opens one file per metadata entry, in order,
    under the entry's name, and writes to it exactly the bytes of the
    sender's file; nothing of the stream is left unread. When the names of
    the entries are pairwise distinct, every one of these files holds,
    after the transfer, exactly the bytes of the sender's file. *)
Theorem transfer_end_to_end {RT : Runtime} (senv : send_env) (renv : recv_env)
    (sid dir text host port : string) (scb rcb : option callback) (p : Z)
    (ws wr wr0 : world) (s : TransferSession) (seg : bytes)
    (rest : list bytes) :
  Dict.get (sessions ws) sid = Some s -> session_id s = sid ->
  callback_ok scb (total_size s) ->
  bind_result senv = None -> accept_result senv = None -> tx_fail ws = None ->
  blen (encode (json_dumps (metadata_value s))) < 2 ^ 32 ->
  round_trips (metadata_value s) ->
  files_unchanged (fs ws) (file_metadata s) ->
  NoDup (map (fun kv => fi_name (snd kv)) (file_metadata s)) ->
  discover_session (probe renv) sid wr = (inr (VStr text), wr0) ->
  split_colon text = [host; port] -> int_of_str port = inr p ->
  connect_result renv = None -> mkdir_result renv = None ->
  (forall name, open_result renv name = None) ->
  callback_ok rcb (total_size s) ->
  drop_empty (rx wr0) = seg :: rest -> 4 <= blen seg ->
  stream wr0
  = frame_of (metadata_value s) ++ payload (fs ws) (file_metadata s) ->
  exists ws' sent_trace wr' tr,
    send_files senv sid scb ws = (inr true, ws') /\
    trace ws' = trace ws ++ sent_trace /\
    sent Client sent_trace = stream wr0 /\
    receive_files renv sid dir rcb wr = (inr true, wr') /\
    stream wr' = [] /\ trace wr' = trace wr0 ++ tr /\
    written tr
    = map (fun kv => (dir, fi_name (snd kv),
                      content_of (fs ws) (fi_path (snd kv))))
          (file_metadata s) /\
    forall kv, In kv (file_metadata s) ->
      file_after (written tr) dir (fi_name (snd kv))
      = Some (content_of (fs ws) (fi_path (snd kv))).
Proof.
  intros G Hid Hscb Hb Ha Htx Hlen Hrt Hu Hn Hdisc Hs Hp Hc Hm Ho Hrcb Hd
         Hseg Hst.
  destruct (transfer_wire senv renv sid dir text host port scb rcb p ws wr
              wr0 s seg rest G Hid Hscb Hb Ha Htx Hlen Hrt Hu Hdisc Hs Hp Hc
              Hm Ho Hrcb Hd Hseg Hst)
    as (ws' & trs & wr' & tr & E & T & S & Er & Sr & Tr & Wr).
  exists ws', trs, wr', tr.
  split; [exact E|]. split; [exact T|]. split; [exact S|].
  split; [exact Er|]. split; [exact Sr|]. split; [exact Tr|].
  split; [exact Wr|].
  intros kv I. rewrite Wr.
  exact (file_after_distinct dir (fun kv => fi_name (snd kv))
           (fun kv => content_of (fs ws) (fi_path (snd kv)))
           (file_metadata s) Hn kv I).
Qed.

Lemma transfer_end_to_end_witness :
  let s := session_of ten_byte_world "jt01" in
  let bytes_sent :=
    @frame_of Ref.runtime (metadata_value s) ++ repeat "a"%byte 10 in
  let wr := with_rx empty_world [take 100 bytes_sent; drop 100 bytes_sent] in
  let wr0 := snd (@discover_session Ref.runtime (probe answering) "jt01" wr) in
  exists ws' sent_trace wr' tr,
    @send_files Ref.runtime open_network "jt01" None ten_byte_world
      = (inr true, ws') /\
    trace ws' = trace ten_byte_world ++ sent_trace /\
    sent Client sent_trace = stream wr0 /\
    @receive_files Ref.runtime answering "jt01" "/downloads" None wr
      = (inr true, wr') /\
    stream wr' = [] /\ trace wr' = trace wr0 ++ tr /\
    written tr
    = map (fun kv => ("/downloads", fi_name (snd kv),
                      content_of (fs ten_byte_world) (fi_path (snd kv))))
          (file_metadata s) /\
    forall kv, In kv (file_metadata s) ->
      file_after (written tr) "/downloads" (fi_name (snd kv))
      = Some (content_of (fs ten_byte_world) (fi_path (snd kv))).
Proof.
  intros s bytes_sent wr wr0.
  apply (@transfer_end_to_end Ref.runtime open_network answering "jt01"
           "/downloads" "192.168.1.20:45679" "192.168.1.20" "45679" None None
           45679 ten_byte_world wr wr0 s (take 100 bytes_sent)
           [drop 100 bytes_sent]).
  - vm_compute. reflexivity.
  - reflexivity.
  - exact I.
  - reflexivity.
  - reflexivity.
  - reflexivity.
  - vm_compute. reflexivity.
  - eexists; split; [vm_compute; reflexivity | vm_compute; reflexivity].
  - intros kv [<-|[]]. split; vm_compute; reflexivity.
  - vm_compute. repeat constructor. intros [].
  - vm_compute. reflexivity.
  - reflexivity.
  - reflexivity.
  - reflexivity.
  - reflexivity.
  - reflexivity.
  - exact I.
  - vm_compute. reflexivity.
  - vm_compute. discriminate.
  - vm_compute. reflexivity.
Defined.

(** X28: two files of one name. The receiver opens every entry under its
    name in the one download directory, so when two entries of the session
    have the same name (the same file name in two directories of the
    sender) the second open empties what the first has written: the
    transfer succeeds on both sides, and the file left under that name
    holds the bytes of the second file only. *)
Theorem transfer_same_name_keeps_last {RT : Runtime} (senv : send_env)
    (renv : recv_env) (sid dir text host port : string)
    (scb rcb : option callback) (p : Z) (ws wr wr0 : world)
    (s : TransferSession) (seg : bytes) (rest : list bytes)
    (k1 k2 : string) (f1 f2 : file_info) :
  Dict.get (sessions ws) sid = Some s -> session_id s = sid ->
  file_metadata s = [(k1, f1); (k2, f2)] -> fi_name f1 = fi_name f2 ->
  callback_ok scb (total_size s) ->
  bind_result senv = None -> accept_result senv = None -> tx_fail ws = None ->
  blen (encode (json_dumps (metadata_value s))) < 2 ^ 32 ->
  round_trips (metadata_value s) ->
  files_unchanged (fs ws) (file_metadata s) ->
  discover_session (probe renv) sid wr = (inr (VStr text), wr0) ->
  split_colon text = [host; port] -> int_of_str port = inr p ->
  connect_result renv = None -> mkdir_result renv = None ->
  (forall name, open_result renv name = None) ->
  callback_ok rcb (total_size s) ->
  drop_empty (rx wr0) = seg :: rest -> 4 <= blen seg ->
  stream wr0
  = frame_of (metadata_value s) ++ payload (fs ws) (file_metadata s) ->
  exists ws' wr' tr,
    send_files senv sid scb ws = (inr true, ws') /\
    receive_files renv sid dir rcb wr = (inr true, wr') /\
    trace wr' = trace wr0 ++ tr /\
    written tr
    = [(dir, fi_name f1, content_of (fs ws) (fi_path f1));
       (dir, fi_name f1, content_of (fs ws) (fi_path f2))] /\
    file_after (written tr) dir (fi_name f1)
    = Some (content_of (fs ws) (fi_path f2)).
Proof.
  intros G Hid Hfm Hname Hscb Hb Ha Htx Hlen Hrt Hu Hdisc Hs Hp Hc Hm Ho Hrcb
         Hd Hseg Hst.
  destruct (transfer_wire senv renv sid dir text host port scb rcb p ws wr
              wr0 s seg rest G Hid Hscb Hb Ha Htx Hlen Hrt Hu Hdisc Hs Hp Hc
              Hm Ho Hrcb Hd Hseg Hst)
    as (ws' & trs & wr' & tr & E & T & S & Er & Sr & Tr & Wr).
  rewrite Hfm in Wr. cbn [map snd] in Wr. rewrite <- Hname in Wr.
  exists ws', wr', tr.
  split; [exact E|]. split; [exact Er|]. split; [exact Tr|].
  split; [exact Wr|]. rewrite Wr. cbn [file_after].
  now rewrite !String.eqb_refl.
Qed.

Lemma transfer_same_name_keeps_last_witness :
  let s := session_of same_name_world "jt01" in
  let bytes_sent :=
    @frame_of Ref.runtime (metadata_value s) ++ encode "firstsecond" in
  let wr := with_rx empty_world [take 100 bytes_sent; drop 100 bytes_sent] in
  let wr0 := snd (@discover_session Ref.runtime (probe answering) "jt01" wr) in
  let f1 := {| fi_path := "/a/x.txt"; fi_name := "x.txt"; fi_size := 5;
               fi_chunks := 1;
               fi_checksum := Hashlib.MD5.hexdigest (encode "first") |} in
  let f2 := {| fi_path := "/b/x.txt"; fi_name := "x.txt"; fi_size := 6;
               fi_chunks := 1;
               fi_checksum := Hashlib.MD5.hexdigest (encode "second") |} in
  content_of (fs same_name_world) "/a/x.txt" = encode "first" /\
  content_of (fs same_name_world) "/b/x.txt" = encode "second" /\
  exists ws' wr' tr,
    @send_files Ref.runtime open_network "jt01" None same_name_world
      = (inr true, ws') /\
    @receive_files Ref.runtime answering "jt01" "/downloads" None wr
      = (inr true, wr') /\
    trace wr' = trace wr0 ++ tr /\
    written tr
    = [("/downloads", fi_name f1,
        content_of (fs same_name_world) (fi_path f1));
       ("/downloads", fi_name f1,
        content_of (fs same_name_world) (fi_path f2))] /\
    file_after (written tr) "/downloads" (fi_name f1)
    = Some (content_of (fs same_name_world) (fi_path f2)).
Proof.
  intros s bytes_sent wr wr0 f1 f2.
  split; [vm_compute; reflexivity|]. split; [vm_compute; reflexivity|].
  apply (@transfer_same_name_keeps_last Ref.runtime open_network answering
           "jt01" "/downloads" "192.168.1.20:45679" "192.168.1.20" "45679"
           None None 45679 same_name_world wr wr0 s (take 100 bytes_sent)
           [drop 100 bytes_sent]
           (file_id "/a/x.txt") (file_id "/b/x.txt") f1 f2).
  - vm_compute. reflexivity.
  - vm_compute. reflexivity.
  - vm_compute. reflexivity.
  - reflexivity.
  - exact I.
  - reflexivity.
  - reflexivity.
  - vm_compute. reflexivity.
  - vm_compute. reflexivity.
  - eexists; split; [vm_compute; reflexivity | vm_compute; reflexivity].
  - intros kv Hkv.
    assert (Hm : file_metadata s
                 = [(file_id "/a/x.txt", f1); (file_id "/b/x.txt", f2)])
      by (vm_compute; reflexivity).
    rewrite Hm in Hkv. destruct Hkv as [<-|[<-|[]]];
      split; vm_compute; reflexivity.
  - vm_compute. reflexivity.
  - reflexivity.
  - reflexivity.
  - reflexivity.
  - reflexivity.
  - reflexivity.
  - exact I.
  - vm_compute. reflexivity.
  - vm_compute. discriminate.
  - vm_compute. reflexivity.
Defined.

(** ** Discovery, both sides *)

Lemma take_all (n : Z) (bs : bytes) : blen bs <= n -> take n bs = bs.
Proof. intros H. unfold take, blen in *. apply firstn_all2. lia. Qed.

Section DiscoveryExchange.
Context {RT : Runtime}.

Lemma handle_discovery_query (sid text host : string) (port : Z) (w : world) :
  json_loads text = inr (discovery_query sid) ->
  Dict.mem (sessions w) sid = true -> tx_fail w = None ->
  _handle_discovery_message text host port w
  = (inr tt,
     set_trace w (trace w ++
       [SendTo Discovery (encode (json_dumps (discovery_reply w sid)))
               host port])).
Proof.
  intros Hl Hm Htx. unfold _handle_discovery_message, try_.
  rewrite Hl, lift_inr, bind_ret.
  change (py_get (discovery_query sid) "type")
    with (@inr exn value (VStr "session_discovery")).
  rewrite lift_inr, bind_ret.
  change (eq_str (VStr "session_discovery") "session_discovery") with true.
  cbv iota.
  change (py_get (discovery_query sid) "session_id")
    with (@inr exn value (VStr sid)).
  rewrite lift_inr, bind_ret, bind_get_world.
  cbn [py_in]. rewrite Hm, lift_inr, bind_ret. cbv iota zeta.
  unfold sendto, spend_send. rewrite Htx. reflexivity.
Qed.

(** X15: discovery end to end. A manager that holds session [sid] answers
    the probe that [discover_session] broadcasts with one datagram naming
    its own address and the transfer port 45679, and goes on listening;
    given that datagram as the reply, [discover_session] returns exactly
    that endpoint and closes its socket. Both messages must fit one
    1024-byte datagram. *)
Theorem discovery_end_to_end (sid host : string) (port : Z) (env : probe_env)
    (wsrv wcl : world) (later : list arrival) :
  Dict.mem (sessions wsrv) sid = true -> tx_fail wsrv = None ->
  round_trips (discovery_query sid) ->
  round_trips (discovery_reply wsrv sid) ->
  blen (encode (json_dumps (discovery_query sid))) <= 1024 ->
  blen (encode (json_dumps (discovery_reply wsrv sid))) <= 1024 ->
  probe_socket env = None -> probe_sendto env = None ->
  probe_reply env = inr (encode (json_dumps (discovery_reply wsrv sid))) ->
  (exists wsrv',
      discovery_loop
        (Datagram (encode (json_dumps (discovery_query sid))) host port :: later)
        wsrv
      = discovery_loop later wsrv' /\
      sessions wsrv' = sessions wsrv /\
      trace wsrv'
      = trace wsrv ++
        [RecvFrom Discovery 1024;
         SendTo Discovery (encode (json_dumps (discovery_reply wsrv sid)))
                host port]) /\
  (exists wcl',
      discover_session env sid wcl
      = (inr (VStr (String.append (local_ip wsrv)
                      (String.append ":" (str_of_int transfer_port)))), wcl') /\
      trace wcl'
      = trace wcl ++
        [SockOpen Probe; SetOpt Probe "SO_BROADCAST"; SetTimeout Probe 5;
         SendTo Probe (encode (json_dumps (discovery_query sid)))
                "<broadcast>" discovery_port;
         RecvFrom Probe 1024; SockClose Probe;
         Log Info "P2P: Discovered session at {endpoint}"]).
Proof.
  intros Hm Htx (qt & Qd & Ql) (rt & Rd & Rl) Lq Lr Hs Hst Hr. split.
  - cbn [discovery_loop]. unfold try_ at 1.
    set (w1 := set_trace wsrv (trace wsrv ++ [RecvFrom Discovery 1024])).
    assert (Body :
      (emit (RecvFrom Discovery 1024) ;;
       message <- lift (decode (take 1024
                          (encode (json_dumps (discovery_query sid))))) ;;
       _handle_discovery_message message host port ;; ret true) wsrv
      = (inr true,
         set_trace w1 (trace w1 ++
           [SendTo Discovery (encode (json_dumps (discovery_reply wsrv sid)))
                   host port]))).
    { rewrite bind_emit. fold w1. rewrite take_all by exact Lq.
      rewrite Qd, lift_inr, bind_ret.
      rewrite (bind_run _ _ _ _ _
                 (handle_discovery_query sid qt host port w1 Ql Hm Htx)).
      reflexivity. }
    unfold bind at 1. rewrite Body. eexists. split; [reflexivity|].
    split; [reflexivity|]. unfold w1. cbn [trace set_trace].
    now rewrite <- app_assoc.
  - unfold discover_session. unfold try_ at 1. cbv zeta.
    fold (discovery_query sid).
    unfold call. rewrite Hs, Hst.
    rewrite bind_assoc, bind_emit, bind_ret, !bind_emit.
    rewrite bind_assoc, bind_emit, bind_ret.
    set (w1 := set_trace _ _).
    unfold bind at 1. unfold try_ at 1.
    rewrite bind_emit, Hr, lift_inr, bind_ret.
    rewrite take_all by exact Lr.
    rewrite Rd, lift_inr, bind_ret, Rl, lift_inr, bind_ret.
    change (py_get (discovery_reply wsrv sid) "type")
      with (@inr exn value (VStr "session_response")).
    rewrite lift_inr, bind_ret.
    change (eq_str (VStr "session_response") "session_response") with true.
    cbv iota.
    change (py_get (discovery_reply wsrv sid) "session_id")
      with (@inr exn value (VStr sid)).
    rewrite lift_inr, bind_ret. cbn [eq_str]. rewrite String.eqb_refl.
    change (py_get (discovery_reply wsrv sid) "endpoint")
      with (@inr exn value
              (VStr (String.append (local_ip wsrv)
                       (String.append ":" (str_of_int transfer_port))))).
    rewrite lift_inr, bind_ret, bind_emit, bind_log.
    unfold ret. eexists. split; [reflexivity|].
    unfold w1. cbn [trace set_trace]. now rewrite <- !app_assoc.
Qed.
End DiscoveryExchange.

Lemma discovery_end_to_end_witness :
  (exists wsrv',
      @discovery_loop Ref.runtime
        [Datagram (encode (@json_dumps Ref.runtime (discovery_query "jt01")))
                  "192.168.1.30" 50000]
        ten_byte_world
      = @discovery_loop Ref.runtime [] wsrv' /\
      sessions wsrv' = sessions ten_byte_world /\
      trace wsrv'
      = trace ten_byte_world ++
        [RecvFrom Discovery 1024;
         SendTo Discovery
           (encode (@json_dumps Ref.runtime
                      (discovery_reply ten_byte_world "jt01")))
           "192.168.1.30" 50000]) /\
  (exists wcl',
      @discover_session Ref.runtime (probe answering) "jt01" empty_world
      = (inr (VStr (String.append (local_ip ten_byte_world)
                      (String.append ":" (str_of_int transfer_port)))), wcl') /\
      trace wcl'
      = trace empty_world ++
        [SockOpen Probe; SetOpt Probe "SO_BROADCAST"; SetTimeout Probe 5;
         SendTo Probe (encode (@json_dumps Ref.runtime (discovery_query "jt01")))
                "<broadcast>" discovery_port;
         RecvFrom Probe 1024; SockClose Probe;
         Log Info "P2P: Discovered session at {endpoint}"]).
Proof.
  apply (@discovery_end_to_end Ref.runtime "jt01" "192.168.1.30" 50000
           (probe answering) ten_byte_world empty_world []).
  - vm_compute. reflexivity.
  - reflexivity.
  - eexists; split; [vm_compute; reflexivity | vm_compute; reflexivity].
  - eexists; split; [vm_compute; reflexivity | vm_compute; reflexivity].
  - vm_compute. discriminate.
  - vm_compute. discriminate.
  - reflexivity.
  - reflexivity.
  - vm_compute. reflexivity.
Defined.

Section DiscoveryFailures.
Context {RT : Runtime}.

(** X16: a reply that is not UTF-8, or that is JSON but not an object,
    makes [discover_session] fail through its outer handler: it logs the
    discovery error and returns None without ever closing the socket it
    opened (the close calls sit on the paths for a timeout, for invalid
    JSON and for an answer that was read). *)
Theorem discover_session_bad_reply_leaves_socket_open (env : probe_env)
    (sid : string) (w : world) (data : bytes) :
  probe_socket env = None -> probe_sendto env = None ->
  probe_reply env = inr data ->
  (decode (take 1024 data) = inl UnicodeDecodeError \/
   exists text v,
     decode (take 1024 data) = inr text /\ json_loads text = inr v /\
     py_get v "type" = inl AttributeError) ->
  discover_session env sid w
  = (inr VNone,
     set_trace w
       (trace w ++
        [SockOpen Probe; SetOpt Probe "SO_BROADCAST"; SetTimeout Probe 5;
         SendTo Probe (encode (json_dumps (discovery_query sid)))
                "<broadcast>" discovery_port;
         RecvFrom Probe 1024;
         Log Error "Session discovery error: {e}"])).
Proof.
  intros Hs Hst Hr Hbad.
  unfold discover_session. unfold try_ at 1. cbv zeta.
  fold (discovery_query sid).
  unfold call. rewrite Hs, Hst.
  rewrite bind_assoc, bind_emit, bind_ret, !bind_emit.
  rewrite bind_assoc, bind_emit, bind_ret.
  set (w1 := set_trace _ _).
  unfold bind at 1. unfold try_ at 1.
  rewrite bind_emit, Hr, lift_inr, bind_ret.
  destruct Hbad as [Hd|(text & v & Hd & Hl & Hg)].
  - rewrite Hd, lift_inl, bind_raise. unfold raise.
    rewrite bind_log. unfold ret, w1. cbn [trace set_trace].
    now rewrite <- !app_assoc.
  - rewrite Hd, lift_inr, bind_ret, Hl, lift_inr, bind_ret, Hg.
    rewrite lift_inl, bind_raise. unfold raise.
    rewrite bind_log. unfold ret, w1. cbn [trace set_trace].
    now rewrite <- !app_assoc.
Qed.

End DiscoveryFailures.

Lemma discover_session_bad_reply_leaves_socket_open_witness :
  @discover_session Ref.runtime
    {| probe_socket := None; probe_sendto := None;
       probe_reply := inr [xff] |} "jt01" empty_world
  = (inr VNone,
     set_trace empty_world
       (trace empty_world ++
        [SockOpen Probe; SetOpt Probe "SO_BROADCAST"; SetTimeout Probe 5;
         SendTo Probe (encode (@json_dumps Ref.runtime (discovery_query "jt01")))
                "<broadcast>" discovery_port;
         RecvFrom Probe 1024;
         Log Error "Session discovery error: {e}"])).
Proof.
  apply (@discover_session_bad_reply_leaves_socket_open Ref.runtime
           {| probe_socket := None; probe_sendto := None;
              probe_reply := inr [xff] |} "jt01" empty_world [xff]).
  - reflexivity.
  - reflexivity.
  - reflexivity.
  - left. vm_compute. reflexivity.
Defined.

Section DiscoveryListener.
Context {RT : Runtime}.

Lemma discovery_step_continue (a : arrival) (rest : list arrival) (w : world) :
  harmless w a ->
  discovery_loop (a :: rest) w
  = discovery_loop rest (set_trace w (trace w ++ [RecvFrom Discovery 1024])).
Proof.
  intros H. cbn [discovery_loop]. unfold try_ at 1.
  destruct a as [data host port| |e|]; cbn [harmless] in H; try contradiction.
  - destruct H as (text & Hd & Hj).
    unfold bind at 1. rewrite bind_emit, Hd, lift_inr, bind_ret.
    set (w1 := set_trace w _).
    assert (Hh : _handle_discovery_message text host port w1 = (inr tt, w1)).
    { unfold _handle_discovery_message, try_.
      destruct Hj as [Hl|(sid & Hl & Hm)].
      - rewrite Hl, lift_inl, bind_raise. reflexivity.
      - rewrite Hl, lift_inr, bind_ret.
        change (py_get (discovery_query sid) "type")
          with (@inr exn value (VStr "session_discovery")).
        rewrite lift_inr, bind_ret.
        change (eq_str (VStr "session_discovery") "session_discovery")
          with true.
        cbv iota.
        change (py_get (discovery_query sid) "session_id")
          with (@inr exn value (VStr sid)).
        rewrite lift_inr, bind_ret, bind_get_world.
        cbn [py_in]. change (sessions w1) with (sessions w).
        rewrite Hm, lift_inr, bind_ret. reflexivity. }
    rewrite (bind_run _ _ _ _ _ Hh). reflexivity.
  - unfold bind at 1. rewrite bind_emit. reflexivity.
Qed.

(** X17: the discovery listener lets noise pass. Timeouts, datagrams whose
    text is not JSON and queries for sessions that are not registered, in
    any number and order, are each read and dropped: nothing is sent,
    nothing is logged, and the listener is still running for what comes
    next; when [stop] then closes the socket the loop ends, again without a
    log line. *)
Theorem discovery_listener_ignores_noise (arrivals later : list arrival)
    (w : world) :
  Forall (harmless w) arrivals ->
  discovery_loop (arrivals ++ Stopped :: later) w
  = (inr later,
     set_trace w
       (trace w ++ repeat (RecvFrom Discovery 1024) (S (List.length arrivals)))).
Proof.
  revert w. induction arrivals as [|a rest IH]; intros w H.
  - cbn [app discovery_loop List.length repeat]. unfold try_ at 1.
    unfold bind at 1. rewrite bind_emit. reflexivity.
  - inversion H as [|? ? Ha Hrest]; subst.
    cbn [app]. rewrite (discovery_step_continue a _ w Ha).
    rewrite IH by exact Hrest.
    cbn [trace set_trace List.length repeat]. rewrite <- app_assoc.
    reflexivity.
Qed.

(** X18: valid JSON that is not an object stops the discovery listener.
    The handler only catches [JSONDecodeError]; the [AttributeError] raised
    by [data.get] on a number, a string or a list reaches the loop, which
    logs a discovery service error and breaks: the arrivals that follow
    are never read, so the manager no longer answers any probe. *)
Theorem discovery_listener_stops_on_non_object_json (data : bytes)
    (host text : string) (port : Z) (v : value) (later : list arrival)
    (w : world) :
  decode (take 1024 data) = inr text -> json_loads text = inr v ->
  py_get v "type" = inl AttributeError ->
  discovery_loop (Datagram data host port :: later) w
  = (inr later,
     set_trace w
       (trace w ++ [RecvFrom Discovery 1024;
                    Log Error "Discovery service error: {e}"])).
Proof.
  intros Hd Hl Hg. cbn [discovery_loop]. unfold try_ at 1.
  unfold bind at 1. rewrite bind_emit, Hd, lift_inr, bind_ret.
  set (w1 := set_trace w _).
  assert (Hh : _handle_discovery_message text host port w1
               = (inl AttributeError, w1)).
  { unfold _handle_discovery_message, try_.
    rewrite Hl, lift_inr, bind_ret, Hg, lift_inl, bind_raise. reflexivity. }
  rewrite (bind_fail _ _ _ _ _ Hh). rewrite bind_log. unfold ret.
  unfold w1. cbn [trace set_trace]. now rewrite <- app_assoc.
Qed.
End DiscoveryListener.

Lemma discovery_listener_ignores_noise_witness :
  @discovery_loop Ref.runtime
    ([Idle; Datagram (encode "hello") "192.168.1.30" 50000;
      Datagram (encode (Ref.dumps (discovery_query "other")))
               "192.168.1.30" 50000]
       ++ Stopped :: [Idle])
    ten_byte_world
  = (inr [Idle],
     set_trace ten_byte_world
       (trace ten_byte_world ++ repeat (RecvFrom Discovery 1024) 4)).
Proof.
  apply (@discovery_listener_ignores_noise Ref.runtime
           [Idle; Datagram (encode "hello") "192.168.1.30" 50000;
            Datagram (encode (Ref.dumps (discovery_query "other")))
                     "192.168.1.30" 50000]
           [Idle] ten_byte_world).
  constructor; [exact I|].
  constructor.
  { eexists. split; [vm_compute; reflexivity|]. left. vm_compute. reflexivity. }
  constructor; [|constructor].
  eexists. split; [vm_compute; reflexivity|]. right. exists "other".
  split; vm_compute; reflexivity.
Defined.

Lemma discovery_listener_stops_on_non_object_json_witness :
  @discovery_loop Ref.runtime
    [Datagram (encode "1") "192.168.1.30" 50000;
     Datagram (query_for "jt01") "192.168.1.30" 50000]
    ten_byte_world
  = (inr [Datagram (query_for "jt01") "192.168.1.30" 50000],
     set_trace ten_byte_world
       (trace ten_byte_world ++ [RecvFrom Discovery 1024;
                                 Log Error "Discovery service error: {e}"])).
Proof.
  apply (@discovery_listener_stops_on_non_object_json Ref.runtime
           (encode "1") "192.168.1.30" "1" 50000 (VInt 1)).
  - vm_compute. reflexivity.
  - vm_compute. reflexivity.
  - reflexivity.
Defined.

(** ** The sender without a client *)

(** X19: when no client connects, [send_files] returns False, sends
    nothing and leaves the session as it was, so the send can be tried
    again. Only the timeout of [accept] closes the listening socket; for
    any other error of [accept] the direct-transfer error is logged and
    the socket is not closed. *)
Theorem send_files_without_client {RT : Runtime} (env : send_env)
    (sid : string) (cb : option callback) (w : world) (s : TransferSession)
    (e : exn) :
  Dict.get (sessions w) sid = Some s ->
  bind_result env = None -> accept_result env = Some e ->
  exists tr,
    send_files env sid cb w = (inr false, set_trace w (trace w ++ tr)) /\
    sent Client tr = [] /\
    tr = (if webrtc_available w
          then [Log Info "WebRTC sending not yet implemented - falling back to direct transfer"]
          else [])
         ++ [SockOpen Server; SetOpt Server "SO_REUSEADDR";
             Bind Server (local_ip w) transfer_port; Listen Server;
             SetTimeout Server 30;
             Log Info "P2P: Waiting for connection on {self.local_ip}:{self.transfer_port}";
             Accept Server]
         ++ match e with
            | SocketTimeout =>
                [Log Error "P2P: Connection timeout"; SockClose Server]
            | _ => [Log Error "Direct transfer error: {e}"]
            end.
Proof.
  intros G Hb Ha.
  assert (Direct : forall w0,
    local_ip w0 = local_ip w ->
    _send_files_direct env sid cb w0
    = (inr false,
       set_trace w0
         (trace w0 ++
          [SockOpen Server; SetOpt Server "SO_REUSEADDR";
           Bind Server (local_ip w) transfer_port; Listen Server;
           SetTimeout Server 30;
           Log Info "P2P: Waiting for connection on {self.local_ip}:{self.transfer_port}";
           Accept Server]
          ++ match e with
             | SocketTimeout =>
                 [Log Error "P2P: Connection timeout"; SockClose Server]
             | _ => [Log Error "Direct transfer error: {e}"]
             end))).
  { intros w0 L0. unfold _send_files_direct. unfold try_ at 1.
    rewrite !bind_emit, bind_get_world. unfold call. rewrite Hb.
    rewrite bind_assoc, bind_emit, bind_ret, !bind_emit, bind_log.
    unfold try_ at 1. unfold serve_client, call. rewrite Ha.
    rewrite bind_assoc, bind_emit, bind_raise.
    cbn [local_ip set_trace]. rewrite L0.
    destruct e; unfold raise; try rewrite bind_log; try rewrite bind_emit;
      unfold ret; cbn [trace set_trace]; rewrite <- !app_assoc; reflexivity. }
  unfold send_files. rewrite bind_get_world. unfold Dict.mem. rewrite G.
  cbn [negb]. unfold try_ at 1.
  destruct (webrtc_available w).
  - unfold _send_files_webrtc. rewrite bind_log. rewrite Direct by reflexivity.
    eexists. split.
    + cbn [trace set_trace]. rewrite <- app_assoc. reflexivity.
    + split; [destruct e; reflexivity | reflexivity].
  - rewrite Direct by reflexivity. eexists. split; [reflexivity|].
    split; [destruct e; reflexivity | reflexivity].
Qed.

Lemma send_files_without_client_witness :
  exists tr,
    @send_files Ref.runtime
      {| bind_result := None; accept_result := Some SocketTimeout |}
      "jt01" None ten_byte_world
    = (inr false, set_trace ten_byte_world (trace ten_byte_world ++ tr)) /\
    sent Client tr = [] /\
    tr = (if webrtc_available ten_byte_world
          then [Log Info "WebRTC sending not yet implemented - falling back to direct transfer"]
          else [])
         ++ [SockOpen Server; SetOpt Server "SO_REUSEADDR";
             Bind Server (local_ip ten_byte_world) transfer_port; Listen Server;
             SetTimeout Server 30;
             Log Info "P2P: Waiting for connection on {self.local_ip}:{self.transfer_port}";
             Accept Server]
         ++ [Log Error "P2P: Connection timeout"; SockClose Server].
Proof.
  apply (@send_files_without_client Ref.runtime
           {| bind_result := None; accept_result := Some SocketTimeout |}
           "jt01" None ten_byte_world (session_of ten_byte_world "jt01")
           SocketTimeout).
  - vm_compute. reflexivity.
  - reflexivity.
  - reflexivity.
Defined.

(** ** Large files and checksums *)

(** X20: [verify_file_integrity] cannot succeed on a file of 100 MB or
    more: [FileInfo] does not compute a checksum for such a file, so
    against any expected checksum, the right one included, the result is
    False; the file is not even opened. *)
Theorem verify_file_integrity_rejects_large_files (path expected : string)
    (w : world) (node : fnode) :
  Dict.get (fs w) path = Some node -> 104857600 <= st_size node ->
  expected <> "" ->
  verify_file_integrity path expected w
  = (inr false,
     set_trace w
       (trace w ++ [Log Warning "Checksum mismatch for {file_path}";
                    Log Warning "Expected: {expected_checksum}";
                    Log Warning "Actual: {actual_checksum}"])).
Proof.
  intros G L Ne. unfold verify_file_integrity.
  apply String.eqb_neq in Ne. rewrite Ne. unfold try_ at 1.
  assert (C : FileInfo_checksum path w = (inr "", w)).
  { unfold FileInfo_checksum. rewrite bind_get_world, G. unfold try_.
    change (100 * 1024 * 1024) with 104857600.
    destruct (st_size node <? 104857600) eqn:Q; [|reflexivity].
    apply Z.ltb_lt in Q. lia. }
  rewrite (bind_run _ _ _ _ _ C). cbv zeta.
  assert (Q : String.eqb "" expected = false).
  { rewrite String.eqb_sym. exact Ne. }
  rewrite Q. cbv iota. rewrite bind_assoc, bind_log.
  rewrite bind_assoc, bind_log. rewrite bind_log.
  unfold ret. cbn [trace set_trace]. now rewrite <- !app_assoc.
Qed.

Lemma verify_file_integrity_rejects_large_files_witness :
  let w := with_fs empty_world
             [("/downloads/big.iso",
               {| st_size := 104857600; content := None |})] in
  verify_file_integrity "/downloads/big.iso"
    "d41d8cd98f00b204e9800998ecf8427e" w
  = (inr false,
     set_trace w
       (trace w ++ [Log Warning "Checksum mismatch for {file_path}";
                    Log Warning "Expected: {expected_checksum}";
                    Log Warning "Actual: {actual_checksum}"])).
Proof.
  intros w.
  apply (verify_file_integrity_rejects_large_files "/downloads/big.iso"
           "d41d8cd98f00b204e9800998ecf8427e" w
           {| st_size := 104857600; content := None |}).
  - reflexivity.
  - cbn. lia.
  - discriminate.
Defined.

(** ** Announced and actual chunks *)

Lemma ceil_floor_8192 (n : Z) :
  0 <= n ->
  n / 8192 + 1
  = (n + 8192 - 1) / 8192 + (if n mod 8192 =? 0 then 1 else 0).
Proof.
  intros Hn.
  pose proof (Z.div_mod n 8192 ltac:(lia)) as D.
  pose proof (Z.mod_pos_bound n 8192 ltac:(lia)) as B.
  set (q := n / 8192) in *. set (r := n mod 8192) in *.
  replace (n + 8192 - 1) with (r + 8191 + q * 8192) by lia.
  rewrite Z.div_add by lia.
  destruct (r =? 0) eqn:R.
  - apply Z.eqb_eq in R. rewrite R. cbn. lia.
  - apply Z.eqb_neq in R.
    assert (E : (r + 8191) / 8192 = 1).
    { symmetry. apply Z.div_unique with (r := r - 1); lia. }
    rewrite E. lia.
Qed.

(** X21: the chunk count in the metadata is not the number of chunks the
    file is read in. For a file of n bytes [create_session] announces
    n // 8192 + 1 chunks, while reading it 8192 bytes at a time (as
    [chunk_file] does, and as the send loop does) gives ceil(n / 8192): the
    announced count is one too many exactly when n is a multiple of 8192,
    the empty file included. The path is one that can be encoded, so that
    the session is created. *)
Theorem announced_chunks_overcount (sid p : string) (w : world)
    (node : fnode) (c : bytes) :
  Dict.get (fs w) p = Some node -> content node = Some c ->
  blen c = st_size node -> encodable p = true ->
  exists s w' fi chunks w'',
    create_session sid [p] w = (inr true, w') /\
    Dict.get (sessions w') sid = Some s /\
    Dict.get (file_metadata s) (file_id p) = Some fi /\
    chunk_file p 8192 w' = (inr chunks, w'') /\
    List.concat chunks = c /\
    fi_chunks fi
    = Z.of_nat (List.length chunks)
      + (if st_size node mod 8192 =? 0 then 1 else 0).
Proof.
  intros G C L Enc.
  destruct (create_session_run w sid [p])
    as (s & tr & E & _ & _ & _ & Hb & Hm & _).
  { apply hashable_spec. intros q [<-|[]] _. exact Enc. }
  assert (Mem : Dict.mem (file_metadata s) (file_id p) = true).
  { apply Hm; [now left|]. unfold Dict.mem. now rewrite G. }
  unfold Dict.mem in Mem.
  destruct (Dict.get (file_metadata s) (file_id p)) as [fi|] eqn:Gf;
    [|discriminate].
  destruct (Hb _ _ (get_in _ _ _ Gf))
    as (q & nd & [<-|[]] & Gq & _ & _ & _ & _ & Hc).
  rewrite G in Gq. injection Gq as <-.
  set (w' := set_trace _ _) in E.
  assert (R : read_file p w'
               = (inr c, set_trace w' (trace w' ++ [OpenRead p]))).
  { apply (read_file_content p w' node c); [exact G | exact C]. }
  destruct (chunk_loop_spec 8192 ltac:(lia) (S (List.length c)) c ltac:(lia))
    as (chunks & Ec & Cc & _ & Cn).
  exists s, w', fi, chunks, (set_trace w' (trace w' ++ [OpenRead p])).
  split; [exact E|]. split; [apply get_set_same|]. split; [exact Gf|].
  split.
  { unfold chunk_file, try_. rewrite (bind_run _ _ _ _ _ R), Ec.
    reflexivity. }
  split; [exact Cc|].
  rewrite Hc, Cn, L. apply ceil_floor_8192. rewrite <- L. apply blen_nonneg.
Qed.

Lemma announced_chunks_overcount_witness :
  exists s w' fi chunks w'',
    create_session "jt01" ["/downloads/empty.bin"] empty_file_world
      = (inr true, w') /\
    Dict.get (sessions w') "jt01" = Some s /\
    Dict.get (file_metadata s) (file_id "/downloads/empty.bin") = Some fi /\
    chunk_file "/downloads/empty.bin" 8192 w' = (inr chunks, w'') /\
    List.concat chunks = [] /\
    fi_chunks fi
    = Z.of_nat (List.length chunks)
      + (if st_size (regular []) mod 8192 =? 0 then 1 else 0).
Proof.
  apply (announced_chunks_overcount "jt01" "/downloads/empty.bin"
           empty_file_world (regular []) []).
  - reflexivity.
  - reflexivity.
  - reflexivity.
  - reflexivity.
Defined.

(** ** A file that changed after the session was created *)

Lemma wire_amount_step (r : Z) :
  0 < r -> wire_amount r = 8192 + wire_amount (r - 8192).
Proof.
  intros H. unfold wire_amount.
  destruct (r <=? 0) eqn:A; [apply Z.leb_le in A; lia|].
  destruct (r - 8192 <=? 0) eqn:B.
  - apply Z.leb_le in B.
    assert (E : (r + 8191) / 8192 = 1).
    { symmetry. apply Z.div_unique with (r := r - 1); lia. }
    rewrite E. lia.
  - replace (r + 8191) with (r - 8192 + 8191 + 1 * 8192) by lia.
    rewrite Z.div_add by lia. lia.
Qed.

Lemma wire_amount_ge (r : Z) : 0 < r -> 8192 <= wire_amount r.
Proof.
  intros H. rewrite wire_amount_step by exact H.
  unfold wire_amount. destruct (r - 8192 <=? 0) eqn:B; [lia|].
  apply Z.leb_gt in B.
  assert (0 <= (r - 8192 + 8191) / 8192) by (apply Z.div_pos; lia). lia.
Qed.

Lemma wire_amount_nonneg (r : Z) : 0 <= wire_amount r.
Proof.
  unfold wire_amount. destruct (r <=? 0) eqn:Q; [lia|].
  apply Z.leb_gt in Q.
  assert (0 <= (r + 8191) / 8192) by (apply Z.div_pos; lia). lia.
Qed.

Lemma take_add (a k : Z) (f : bytes) :
  0 <= a -> 0 <= k -> take (a + k) f = take a f ++ take k (drop a f).
Proof.
  intros Ha Hk. unfold take, drop. rewrite Z2Nat.inj_add by lia.
  generalize (Z.to_nat a) (Z.to_nat k). clear. intros n m. revert f.
  induction n as [|n IH]; intros f; [reflexivity|].
  destruct f as [|x f]; cbn [Nat.add firstn skipn app].
  - now rewrite firstn_nil.
  - now rewrite IH.
Qed.

Section ChangedFile.
Context {RT : Runtime}.
Variables (sid : string) (cb : option callback).

Lemma send_loop_whole_chunks (name : string) (size : Z) :
  forall (fuel : nat) (f : bytes) (sent0 : Z) (w : world) (s : TransferSession),
    Dict.get (sessions w) sid = Some s ->
    (List.length f < fuel)%nat ->
    callback_ok cb (total_size s) -> tx_fail w = None ->
    exists w' tr,
      send_loop fuel sid cb name f size sent0 w = (inr tt, w') /\
      Dict.get (sessions w') sid
      = Some (bump s (blen (take (wire_amount (size - sent0)) f))) /\
      fs w' = fs w /\ tx_fail w' = None /\
      trace w' = trace w ++ tr /\
      sent Client tr = take (wire_amount (size - sent0)) f.
Proof.
  induction fuel as [|fuel IH]; intros f sent0 w s G L Hcb Htx; [lia|].
  assert (Stop : take (wire_amount (size - sent0)) f = [] ->
            exists w' tr,
             ret tt w = (inr tt, w') /\
             Dict.get (sessions w') sid
             = Some (bump s (blen (take (wire_amount (size - sent0)) f))) /\
             fs w' = fs w /\ tx_fail w' = None /\
             trace w' = trace w ++ tr /\
             sent Client tr = take (wire_amount (size - sent0)) f).
  { intros ->. exists w, []. change (blen []) with 0.
    rewrite bump_zero, app_nil_r. repeat split; auto. }
  cbn [send_loop]. destruct (sent0 <? size) eqn:C.
  2:{ apply Z.ltb_ge in C. apply Stop. unfold wire_amount.
      destruct (size - sent0 <=? 0) eqn:Q; [reflexivity|].
      apply Z.leb_gt in Q. lia. }
  apply Z.ltb_lt in C.
  destruct (take 8192 f) as [|b ch] eqn:T.
  { apply Stop. destruct f; [|discriminate].
    unfold take. now rewrite firstn_nil. }
  rewrite <- T.
  pose proof (blen_take 8192 f ltac:(lia)) as Lt.
  pose proof (blen_take_drop 8192 f ltac:(lia)) as Ltd.
  pose proof (blen_nonneg f) as Hf.
  assert (Pos : 0 < blen (take 8192 f)).
  { rewrite T. unfold blen. cbn [List.length]. lia. }
  rewrite (bind_run _ _ _ _ _ (sendall_ok Client (take 8192 f) w Htx)).
  set (w1 := set_trace w (trace w ++ [SendAll Client (take 8192 f)])).
  assert (G1 : Dict.get (sessions w1) sid = Some s) by exact G.
  rewrite (bind_run _ _ _ _ _
             (add_transferred_run sid (blen (take 8192 f)) w1 s G1)).
  set (w2 := set_sessions w1 _).
  assert (G2 : Dict.get (sessions w2) sid = Some (bump s (blen (take 8192 f))))
    by (unfold w2; cbn [sessions set_sessions]; apply get_set_same).
  rewrite (bind_run _ _ _ _ _ (get_session_run sid w2 _ G2)).
  destruct (report_ok cb (transferred_size (bump s (blen (take 8192 f))))
              (total_size (bump s (blen (take 8192 f))))
              (String.append "Sending " name) w2 Hcb) as (trp & Ep & Sp).
  rewrite (bind_run _ _ _ _ _ Ep).
  set (w3 := set_trace w2 (trace w2 ++ trp)).
  destruct (IH (drop 8192 f) (sent0 + blen (take 8192 f)) w3
               (bump s (blen (take 8192 f))))
    as (w' & tr & E & G' & F' & X' & T' & S').
  - exact G2.
  - clear - L Ltd Pos. unfold blen in *. lia.
  - exact Hcb.
  - exact Htx.
  - assert (Key : take (wire_amount (size - sent0)) f
                  = take 8192 f
                      ++ take (wire_amount
                                 (size - (sent0 + blen (take 8192 f))))
                              (drop 8192 f)).
    { destruct (Z_lt_ge_dec (blen f) 8192) as [Short|Long].
      - assert (D : drop 8192 f = []).
        { unfold drop, blen in *. apply skipn_all2. lia. }
        rewrite D. unfold take at 3. rewrite firstn_nil, app_nil_r.
        pose proof (wire_amount_ge (size - sent0) ltac:(lia)).
        rewrite !take_all by lia. reflexivity.
      - replace (blen (take 8192 f)) with 8192 by lia.
        rewrite (wire_amount_step (size - sent0)) by lia.
        replace (size - (sent0 + 8192)) with (size - sent0 - 8192) by lia.
        apply take_add; [lia|].
        pose proof (wire_amount_nonneg (size - sent0 - 8192)). lia. }
    exists w', ([SendAll Client (take 8192 f)] ++ trp ++ tr).
    split; [exact E|]. split.
    { rewrite G', bump_bump, Key, blen_app. reflexivity. }
    split; [exact F'|]. split; [exact X'|]. split.
    { rewrite T'. unfold w3, w2, w1. cbn [trace set_trace set_sessions].
      now rewrite <- !app_assoc. }
    rewrite !sent_app, Sp, S', Key. cbn [sent app].
    now rewrite app_nil_r.
Qed.

(** X22: the sender does not stop at the announced size. For each file it
    reads 8192 bytes at a time until the count reaches the size in the
    metadata, and sends every chunk whole: what goes on the wire is the
    first [wire_amount size] bytes of the file as it is now. A file that
    has grown since the session was created is therefore sent with more
    bytes than were announced (all of it when it still fits the last
    chunk), and nothing at all is sent for an announced size of 0. *)
Theorem send_file_sends_whole_chunks (fi : file_info) (w : world)
    (s : TransferSession) (node : fnode) (c : bytes) :
  Dict.get (sessions w) sid = Some s ->
  callback_ok cb (total_size s) -> tx_fail w = None ->
  Dict.get (fs w) (fi_path fi) = Some node -> content node = Some c ->
  exists w' tr,
    send_file sid cb fi w = (inr tt, w') /\
    trace w' = trace w ++ tr /\
    sent Client tr = take (wire_amount (fi_size fi)) c /\
    Dict.get (sessions w') sid
    = Some (bump s (blen (take (wire_amount (fi_size fi)) c))) /\
    (0 < fi_size fi -> blen c <= 8192 -> sent Client tr = c) /\
    (fi_size fi <= 0 -> sent Client tr = []).
Proof.
  intros G Hcb Htx Gf C. unfold send_file.
  rewrite (bind_run _ _ _ _ _ (get_session_run sid w s G)).
  destruct (report_ok cb (transferred_size s) (total_size s)
              (String.append "Sending " (fi_name fi)) w Hcb) as (trp & Ep & Sp).
  rewrite (bind_run _ _ _ _ _ Ep).
  set (w1 := set_trace w (trace w ++ trp)).
  assert (R : read_file (fi_path fi) w1
              = (inr c, set_trace w1 (trace w1 ++ [OpenRead (fi_path fi)]))).
  { unfold read_file, bind, get_world. cbv beta.
    unfold w1. cbn [fs set_trace]. rewrite Gf.
    destruct node as [sz ct]. cbn in C. subst ct. reflexivity. }
  rewrite (bind_run _ _ _ _ _ R).
  set (w2 := set_trace w1 _).
  destruct (send_loop_whole_chunks (fi_name fi) (fi_size fi)
              (S (List.length c)) c 0 w2 s G ltac:(lia) Hcb Htx)
    as (w' & tr & E & G' & F' & X' & T' & S').
  rewrite Z.sub_0_r in *.
  exists w', (trp ++ [OpenRead (fi_path fi)] ++ tr).
  split; [exact E|]. split.
  { rewrite T'. unfold w2, w1. cbn [trace set_trace].
    now rewrite <- !app_assoc. }
  assert (St : sent Client (trp ++ [OpenRead (fi_path fi)] ++ tr)
               = take (wire_amount (fi_size fi)) c).
  { rewrite !sent_app, Sp, S'. reflexivity. }
  split; [exact St|]. split; [exact G'|]. split.
  - intros Hp Hl. rewrite St. apply take_all.
    pose proof (wire_amount_ge (fi_size fi) Hp). lia.
  - intros Hz. rewrite St. unfold wire_amount.
    apply Z.leb_le in Hz. rewrite Hz. reflexivity.
Qed.
End ChangedFile.

Lemma send_file_sends_whole_chunks_witness :
  let w := with_fs ten_byte_world
             [("/data/a.txt", regular (repeat "a"%byte 100))] in
  let fi := {| fi_path := "/data/a.txt"; fi_name := "a.txt"; fi_size := 10;
               fi_chunks := 1; fi_checksum := "" |} in
  let s := session_of ten_byte_world "jt01" in
  exists w' tr,
    @send_file "jt01" None fi w = (inr tt, w') /\
    trace w' = trace w ++ tr /\
    sent Client tr = take (wire_amount (fi_size fi)) (repeat "a"%byte 100) /\
    Dict.get (sessions w') "jt01"
    = Some (bump s (blen (take (wire_amount (fi_size fi))
                               (repeat "a"%byte 100)))) /\
    (0 < fi_size fi -> blen (repeat "a"%byte 100) <= 8192 ->
     sent Client tr = repeat "a"%byte 100) /\
    (fi_size fi <= 0 -> sent Client tr = []).
Proof.
  intros w fi s.
  apply (@send_file_sends_whole_chunks "jt01" None fi w s
           (regular (repeat "a"%byte 100))).
  - vm_compute. reflexivity.
  - exact I.
  - reflexivity.
  - reflexivity.
  - reflexivity.
Defined.

(** ** Safe file names ([file_manager.py]) *)















(** ** Unique file names ([file_manager.py]) *)

Lemma unique_loop_spec (w : world) (directory name ext : string) (now : Z) :
  forall (tries : nat) (counter : Z),
    let r := unique_loop tries w directory name ext counter now in
    (exists i,
        counter <= i < counter + Z.of_nat tries /\
        r = candidate name ext i /\
        path_exists w (path_join directory r) = false /\
        forall j, counter <= j < i ->
                  path_exists w (path_join directory (candidate name ext j))
                  = true)
    \/ ((forall j, counter <= j < counter + Z.of_nat tries ->
                   path_exists w (path_join directory (candidate name ext j))
                   = true) /\
        r = candidate name ext now).
Proof.
  induction tries as [|tries IH]; intros counter; cbv zeta.
  - right. split; [intros j Hj; lia | reflexivity].
  - cbn [unique_loop]. fold (candidate name ext counter).
    destruct (path_exists w (path_join directory (candidate name ext counter)))
      eqn:E; cbn [negb].
    + destruct (IH (counter + 1)) as [(i & Hi & Er & Ef & Hs)|[Ha Er]].
      * left. exists i. split; [lia|]. split; [exact Er|]. split; [exact Ef|].
        intros j Hj. destruct (Z.eq_dec j counter) as [->|Hne]; [exact E|].
        apply Hs. lia.
      * right. split; [|exact Er]. intros j Hj.
        destruct (Z.eq_dec j counter) as [->|Hne]; [exact E|].
        apply Ha. lia.
    + left. exists counter. split; [lia|]. split; [reflexivity|].
      split; [exact E|]. intros j Hj. lia.
Qed.

(** X24: [get_unique_filename] returns the safe name itself when no file
    of that name exists in the directory; otherwise it returns the name
    with the smallest counter from 1 to 9999 (inserted before the
    extension) that names no existing file. Only when the safe name and
    all 9999 numbered names are taken is the result, built from the clock,
    returned without having been checked. *)
Theorem get_unique_filename_is_free (w : world) (directory filename : string)
    (now : Z) :
  let safe := get_safe_filename filename in
  let name := fst (splitext safe) in
  let ext := snd (splitext safe) in
  let r := get_unique_filename w directory filename now in
  (path_exists w (path_join directory safe) = false -> r = safe) /\
  (path_exists w (path_join directory safe) = true ->
   (exists i,
       1 <= i <= 9999 /\ r = candidate name ext i /\
       path_exists w (path_join directory r) = false /\
       forall j, 1 <= j < i ->
                 path_exists w (path_join directory (candidate name ext j))
                 = true)
   \/ ((forall j, 1 <= j <= 9999 ->
                  path_exists w (path_join directory (candidate name ext j))
                  = true) /\
       r = candidate name ext now)).
Proof.
  cbv zeta. unfold get_unique_filename. cbv zeta.
  destruct (path_exists w (path_join directory (get_safe_filename filename)))
    eqn:E; cbn [negb].
  - split; [discriminate|]. intros _.
    destruct (splitext (get_safe_filename filename)) as [name ext].
    cbn [fst snd].
    assert (N : Z.of_nat 9999 = 9999) by (vm_compute; reflexivity).
    destruct (unique_loop_spec w directory name ext now 9999 1)
      as [(i & Hi & Er & Ef & Hs)|[Ha Er]]; rewrite N in *.
    + left. exists i. split; [lia|]. split; [exact Er|]. split; [exact Ef|].
      intros j Hj. apply Hs. lia.
    + right. split; [|exact Er]. intros j Hj. apply Ha. lia.
  - split; [reflexivity | discriminate].
Qed.

(** ** The receiver before the connection *)

Section ReceiverStart.
Context {RT : Runtime}.

(** X25: when nobody answers the probe, [receive_files] gives up after
    that single probe: it returns False, the only socket it has used is
    the discovery socket, which it has closed, and no TCP connection was
    attempted. *)
Theorem receive_files_without_reply (env : recv_env) (sid dir : string)
    (cb : option callback) (w : world) :
  probe_socket (probe env) = None -> probe_sendto (probe env) = None ->
  probe_reply (probe env) = inl SocketTimeout ->
  receive_files env sid dir cb w
  = (inr false,
     set_trace w
       (trace w ++
        [SockOpen Probe; SetOpt Probe "SO_BROADCAST"; SetTimeout Probe 5;
         SendTo Probe (encode (json_dumps (discovery_query sid)))
                "<broadcast>" discovery_port;
         RecvFrom Probe 1024;
         Log Info "P2P: No session response received";
         SockClose Probe;
         Log Error "Could not discover session {session_id}"])).
Proof.
  intros Hs Hst Hr.
  assert (D : discover_session (probe env) sid w
              = (inr VNone,
                 set_trace w
                   (trace w ++
                    [SockOpen Probe; SetOpt Probe "SO_BROADCAST";
                     SetTimeout Probe 5;
                     SendTo Probe (encode (json_dumps (discovery_query sid)))
                            "<broadcast>" discovery_port;
                     RecvFrom Probe 1024;
                     Log Info "P2P: No session response received";
                     SockClose Probe]))).
  { unfold discover_session. unfold try_ at 1. cbv zeta.
    fold (discovery_query sid).
    unfold call. rewrite Hs, Hst.
    rewrite bind_assoc, bind_emit, bind_ret, !bind_emit.
    rewrite bind_assoc, bind_emit, bind_ret.
    unfold bind at 1. unfold try_ at 1.
    rewrite bind_emit, Hr, lift_inl, bind_raise. unfold raise.
    rewrite bind_log. unfold ret at 1. rewrite bind_emit. unfold ret.
    cbn [trace set_trace]. now rewrite <- !app_assoc. }
  unfold receive_files, try_. rewrite (bind_run _ _ _ _ _ D).
  cbn [truthy negb]. rewrite bind_log. unfold ret.
  cbn [trace set_trace]. now rewrite <- !app_assoc.
Qed.

(** X26: an endpoint that is not of the form host:port, because it has no
    colon or more than one (an IPv6 address, say), makes [receive_files]
    fail before any connection is attempted: the unpacking of
    [endpoint.split(':')] raises, the reception error is logged and the
    result is False. *)
Theorem receive_files_rejects_malformed_endpoint (env : recv_env)
    (sid dir text : string) (cb : option callback) (w w0 : world) :
  discover_session (probe env) sid w = (inr (VStr text), w0) ->
  text <> "" ->
  List.length (split_colon text) <> 2%nat ->
  receive_files env sid dir cb w
  = (inr false,
     set_trace w0
       (trace w0 ++
        (if webrtc_available w0
         then [Log Info "WebRTC receiving not yet implemented - falling back to direct transfer"]
         else []) ++
        [Log Error "Direct reception error: {e}"])).
Proof.
  intros D Ne Hl.
  assert (Direct : forall w1,
            _receive_files_direct env sid dir (VStr text) cb w1
            = (inr false,
               set_trace w1
                 (trace w1 ++ [Log Error "Direct reception error: {e}"]))).
  { intros w1. unfold _receive_files_direct, try_. rewrite bind_ret.
    destruct (split_colon text) as [|a [|b [|c l]]] eqn:S;
      try (rewrite bind_raise; unfold raise; rewrite bind_log; reflexivity).
    cbn in Hl. contradiction. }
  unfold receive_files, try_. rewrite (bind_run _ _ _ _ _ D).
  assert (T : truthy (VStr text) = true).
  { cbn [truthy]. apply String.eqb_neq in Ne. now rewrite Ne. }
  rewrite T. cbn [negb]. rewrite bind_get_world.
  destruct (webrtc_available w0).
  - unfold _receive_files_webrtc. rewrite bind_log, Direct.
    cbn [trace set_trace]. now rewrite <- !app_assoc.
  - rewrite Direct. reflexivity.
Qed.
End ReceiverStart.

Lemma receive_files_without_reply_witness :
  let env := {| probe := {| probe_socket := None; probe_sendto := None;
                            probe_reply := inl SocketTimeout |};
                connect_result := None; mkdir_result := None;
                open_result := fun _ => None |} in
  @receive_files Ref.runtime env "jt01" "/downloads" None empty_world
  = (inr false,
     set_trace empty_world
       (trace empty_world ++
        [SockOpen Probe; SetOpt Probe "SO_BROADCAST"; SetTimeout Probe 5;
         SendTo Probe (encode (@json_dumps Ref.runtime (discovery_query "jt01")))
                "<broadcast>" discovery_port;
         RecvFrom Probe 1024;
         Log Info "P2P: No session response received";
         SockClose Probe;
         Log Error "Could not discover session {session_id}"])).
Proof.
  intros env.
  apply (@receive_files_without_reply Ref.runtime env "jt01" "/downloads"
           None empty_world); reflexivity.
Defined.

Lemma receive_files_rejects_malformed_endpoint_witness :
  let env := {| probe := {| probe_socket := None; probe_sendto := None;
                            probe_reply :=
                              inr (encode (Ref.dumps
                                (VDict [("type", VStr "session_response");
                                        ("session_id", VStr "jt01");
                                        ("endpoint", VStr "fe80::1:45679")]))) |};
                connect_result := None; mkdir_result := None;
                open_result := fun _ => None |} in
  let w0 := snd (@discover_session Ref.runtime (probe env) "jt01" empty_world) in
  @receive_files Ref.runtime env "jt01" "/downloads" None empty_world
  = (inr false,
     set_trace w0
       (trace w0 ++
        (if webrtc_available w0
         then [Log Info "WebRTC receiving not yet implemented - falling back to direct transfer"]
         else []) ++
        [Log Error "Direct reception error: {e}"])).
Proof.
  intros env w0.
  apply (@receive_files_rejects_malformed_endpoint Ref.runtime env "jt01"
           "/downloads" "fe80::1:45679" None empty_world w0).
  - vm_compute. reflexivity.
  - discriminate.
  - vm_compute. discriminate.
Defined.

(** ** A stream that ends early *)

Section ReceiverAnyStream.
Context {RT : Runtime}.
Variables (cb : option callback) (t : Z).
Hypothesis Hcb : callback_ok cb t.

Lemma recv_loop_any (name : string) (file_size : Z) :
  forall (fuel : nat) (br rs : Z) (w : world),
    file_size - br <= Z.of_nat fuel ->
    rx_end w = None ->
    exists w' tr,
      recv_loop fuel cb (VInt t) name file_size br rs w
      = (inr (rs + blen (take (file_size - br) (stream w))), w') /\
      stream w' = drop (file_size - br) (stream w) /\
      read_on w w' /\ trace w' = trace w ++ tr /\
      no_open tr = true /\
      written_bytes tr = take (file_size - br) (stream w).
Proof.
  induction fuel as [|fuel IH]; intros br rs w Hf He.
  - cbn [recv_loop]. destruct (br <? file_size) eqn:C; [lia|].
    apply Z.ltb_ge in C. exists w, []. unfold ret, take, drop.
    replace (Z.to_nat (file_size - br)) with 0%nat by lia.
    cbn [firstn skipn]. change (blen []) with 0.
    rewrite Z.add_0_r, app_nil_r.
    repeat split; auto using read_on_refl.
  - cbn [recv_loop]. destruct (br <? file_size) eqn:C.
    2:{ apply Z.ltb_ge in C. exists w, []. unfold ret, take, drop.
        replace (Z.to_nat (file_size - br)) with 0%nat by lia.
        cbn [firstn skipn]. change (blen []) with 0.
        rewrite Z.add_0_r, app_nil_r.
        repeat split; auto using read_on_refl. }
    apply Z.ltb_lt in C.
    destruct (stream w) as [|x xs] eqn:Sw.
    + destruct (recv_closed Client (Z.min 8192 (file_size - br)) w
                  ltac:(lia) Sw He) as (w1 & R & S1 & T1 & R1).
      rewrite (bind_run _ _ _ _ _ R). unfold ret.
      exists w1, [Recv Client (Z.min 8192 (file_size - br))].
      unfold take, drop. rewrite firstn_nil, skipn_nil.
      change (blen []) with 0. rewrite Z.add_0_r.
      split; [reflexivity|]. split; [exact S1|]. split; [exact R1|].
      split; [exact T1|]. split; reflexivity.
    + assert (Hne : stream w <> []) by (rewrite Sw; discriminate).
      rewrite <- Sw.
      destruct (recv_data Client (Z.min 8192 (file_size - br)) w
                  ltac:(lia) Hne)
        as (chunk & w1 & R & Hc & Hl & Hst & _ & Tr1 & Hr).
      rewrite (bind_run _ _ _ _ _ R).
      destruct chunk as [|b chunk]; [contradiction|].
      set (ch := b :: chunk) in *.
      assert (Pos : 0 < blen ch) by (unfold ch, blen; cbn [List.length]; lia).
      rewrite bind_emit.
      set (w2 := set_trace w1 (trace w1 ++ [Write ch])).
      destruct (report_received_ok cb (rs + blen ch) t
                  (String.append "Receiving " name) w2 Hcb) as (trp & Ep & Np).
      rewrite (bind_run _ _ _ _ _ Ep).
      set (w3 := set_trace w2 (trace w2 ++ trp)).
      assert (S3 : stream w3 = stream w1) by reflexivity.
      assert (E3 : rx_end w3 = None).
      { change (rx_end w3) with (rx_end w1).
        destruct Hr as (_ & _ & Hre & _). now rewrite Hre. }
      destruct (IH (br + blen ch) (rs + blen ch) w3 ltac:(lia) E3)
        as (w' & tr & E & St & Ro & Tr & No & Wb).
      assert (Tk : take (file_size - br) (ch ++ stream w1)
                   = ch ++ take (file_size - (br + blen ch)) (stream w1)).
      { replace (file_size - br)
          with (blen ch + (file_size - (br + blen ch))) at 1 by lia.
        apply take_app_plus. lia. }
      exists w', ([Recv Client (Z.min 8192 (file_size - br)); Write ch]
                    ++ trp ++ tr).
      split.
      { rewrite E, S3, Hst, Tk, blen_app. do 2 f_equal. lia. }
      split.
      { rewrite St, S3, Hst.
        replace (drop (file_size - br) (ch ++ stream w1))
          with (drop (blen ch + (file_size - (br + blen ch)))
                     (ch ++ stream w1)) by (f_equal; lia).
        rewrite drop_app_plus by lia. reflexivity. }
      split.
      { eapply read_on_trans; [exact Hr|].
        eapply read_on_trans; [|exact Ro]. unfold read_on. cbn. auto 10. }
      split.
      { rewrite Tr. unfold w3, w2. cbn [trace set_trace]. rewrite Tr1.
        now rewrite <- !app_assoc. }
      split.
      { cbn [app no_open forallb is_open negb andb].
        apply no_open_app; [now apply no_file_no_open | exact No]. }
      cbn [app written_bytes].
      rewrite written_bytes_skip by exact Np. rewrite Wb, S3, Hst, Tk.
      reflexivity.
Qed.

Lemma receive_file_any (env : recv_env) (dir : string) (fi : file_info)
      (rs : Z) (w : world) :
  open_result env (fi_name fi) = None -> rx_end w = None ->
  exists n w' tr,
    receive_file env dir cb (VInt t) (file_info_value fi) rs w = (inr n, w') /\
    stream w' = drop (fi_size fi) (stream w) /\
    read_on w w' /\ trace w' = trace w ++ tr /\
    (forall b, written_bytes b = [] ->
       written (tr ++ b)
       = (dir, fi_name fi, take (fi_size fi) (stream w)) :: written b /\
       written_bytes (tr ++ b) = []).
Proof.
  intros Ho He. unfold receive_file.
  change (py_getitem (file_info_value fi) "name") with
    (@inr exn value (VStr (fi_name fi))).
  change (py_getitem (file_info_value fi) "size") with
    (@inr exn value (VInt (fi_size fi))).
  rewrite !lift_inr, !bind_ret.
  destruct (report_received_ok cb rs t
              (String.append "Receiving " (fi_name fi)) w Hcb)
    as (trp & Ep & Np).
  rewrite (bind_run _ _ _ _ _ Ep).
  unfold call. rewrite bind_assoc, bind_emit, Ho, bind_ret.
  cbn [py_number]. rewrite lift_inr, bind_ret.
  set (w2 := set_trace _ _).
  destruct (recv_loop_any (fi_name fi) (fi_size fi)
              (Z.to_nat (fi_size fi)) 0 rs w2 ltac:(lia) He)
    as (w' & tr & E & St & Ro & Tr & No & Wb).
  rewrite Z.sub_0_r in *. change (stream w2) with (stream w) in *.
  eexists _, w', (trp ++ [OpenWrite dir (fi_name fi)] ++ tr).
  split; [exact E|]. split; [exact St|]. split.
  { eapply read_on_trans; [|exact Ro]. unfold read_on. cbn. auto 10. }
  split.
  { rewrite Tr. unfold w2. cbn [trace set_trace].
    now rewrite <- !app_assoc. }
  intros b Hb. rewrite <- !app_assoc. split.
  + rewrite written_skip by now apply no_file_no_open.
    cbn [app written]. rewrite written_bytes_app by exact No.
    rewrite Wb, Hb, app_nil_r. now rewrite written_skip by exact No.
  + rewrite written_bytes_skip by exact Np. reflexivity.
Qed.

Lemma receive_each_any (env : recv_env) (dir : string) :
  forall (entries : Dict.t file_info) (rs : Z) (w : world),
    (forall kv, In kv entries ->
                open_result env (fi_name (snd kv)) = None /\
                0 <= fi_size (snd kv)) ->
    rx_end w = None ->
    exists n w' tr,
      receive_each env dir cb (VInt t)
        (map (fun kv => (fst kv, file_info_value (snd kv))) entries) rs w
      = (inr n, w') /\
      stream w' = drop (entries_sum entries) (stream w) /\
      read_on w w' /\ trace w' = trace w ++ tr /\
      (forall b, written_bytes b = [] ->
         written (tr ++ b) = slices dir entries (stream w) ++ written b /\
         written_bytes (tr ++ b) = []).
Proof.
  induction entries as [|[k fi] rest IH]; intros rs w Ho He.
  - exists rs, w, []. unfold entries_sum. cbn [map fold_right receive_each].
    unfold ret, drop. cbn [Z.to_nat skipn slices app].
    rewrite app_nil_r. repeat split; auto using read_on_refl.
  - destruct (Ho (k, fi) (or_introl eq_refl)) as [Hop Hsz]. cbn [snd] in Hop, Hsz.
    assert (Hrest : 0 <= entries_sum rest).
    { clear - Ho. induction rest as [|kv rest IHr]; [unfold entries_sum; cbn; lia|].
      unfold entries_sum in *. cbn [map fold_right].
      pose proof (proj2 (Ho kv (or_intror (or_introl eq_refl)))).
      assert (0 <= fold_right Z.add 0 (map (fun kv0 => fi_size (snd kv0)) rest)).
      { apply IHr. intros kv0 [I|I]; apply Ho; [now left | right; now right]. }
      lia. }
    assert (Esum : entries_sum ((k, fi) :: rest) = fi_size fi + entries_sum rest)
      by reflexivity.
    rewrite Esum.
    cbn [map receive_each fst snd].
    destruct (receive_file_any env dir fi rs w Hop He)
      as (n1 & w1 & t1 & E1 & S1 & R1 & T1 & W1).
    rewrite (bind_run _ _ _ _ _ E1).
    assert (He1 : rx_end w1 = None).
    { destruct R1 as (_ & _ & Hre & _). now rewrite Hre. }
    destruct (IH n1 w1) as (n & w' & t2 & E2 & S2 & R2 & T2 & W2).
    + intros kv I. apply Ho. now right.
    + exact He1.
    + exists n, w', (t1 ++ t2). split; [exact E2|]. split.
      { rewrite S2, S1. unfold drop. rewrite skipn_skipn. f_equal. lia. }
      split; [eapply read_on_trans; eauto|]. split.
      { rewrite T2, T1. now rewrite <- app_assoc. }
      intros b Hb. rewrite <- app_assoc.
      destruct (W2 b Hb) as [Wa Wb].
      destruct (W1 (t2 ++ b) Wb) as [Wc Wd].
      split; [|exact Wd].
      rewrite Wc, Wa, S1. reflexivity.
Qed.

End ReceiverAnyStream.

Section ReceiverNeverFails.
Context {RT : Runtime}.

Lemma receive_files_direct_any (env : recv_env)
      (sid dir text host port : string) (cb : option callback) (p : Z)
      (w0 : world) (s : TransferSession) (seg : bytes) (rest : list bytes)
      (data : bytes) :
  split_colon text = [host; port] ->
  int_of_str port = inr p ->
  connect_result env = None -> mkdir_result env = None ->
  (forall kv, In kv (file_metadata s) ->
              open_result env (fi_name (snd kv)) = None /\
              0 <= fi_size (snd kv)) ->
  session_id s = sid ->
  round_trips (metadata_value s) ->
  blen (encode (json_dumps (metadata_value s))) < 2 ^ 32 ->
  callback_ok cb (total_size s) ->
  drop_empty (rx w0) = seg :: rest -> 4 <= blen seg ->
  stream w0 = frame_of (metadata_value s) ++ data ->
  rx_end w0 = None ->
  exists w' body,
    _receive_files_direct env sid dir (VStr text) cb w0 = (inr true, w') /\
    stream w' = drop (entries_sum (file_metadata s)) data /\
    trace w'
    = trace w0 ++ body
        ++ [SockClose Client;
            Log Info "P2P: File reception completed successfully"] /\
    written body = slices dir (file_metadata s) data.
Proof.
  intros Hs Hp Hc Hm Ho Hid (txt & Hdec & Hload) Hlen Hcb Hd Hseg Hst He.
  unfold _receive_files_direct, try_.
  rewrite bind_ret, Hs, bind_ret. cbn [fst snd].
  rewrite Hp, lift_inr, bind_ret, !bind_emit.
  unfold call. rewrite bind_assoc, bind_emit, Hc, bind_ret, bind_log.
  cbn [trace set_trace].
  set (w1 := set_trace _ _).
  set (pre := [SockOpen Client; SetTimeout Client 30; Connect Client host p;
               Log Info "P2P: Connected to sender at {endpoint}"]).
  assert (T1 : trace w1 = trace w0 ++ pre).
  { unfold w1, pre. cbn [trace set_trace]. now rewrite <- !app_assoc. }
  destruct (receive_json_frame Client (encode (json_dumps (metadata_value s)))
              data w1 seg rest Hlen Hd Hseg)
    as (w2 & Ej & S2 & R2).
  { change (stream w1) with (stream w0). rewrite Hst. unfold frame_of.
    now rewrite <- app_assoc. }
  destruct (receive_json_trace Client w1) as (t2 & T2 & N2).
  rewrite Ej in T2. cbn [snd] in T2.
  rewrite Hdec, Hload in Ej.
  rewrite (bind_run _ _ _ _ _ Ej).
  change (truthy (metadata_value s)) with true. cbn [negb].
  change (py_get (metadata_value s) "session_id")
    with (@inr exn value (VStr (session_id s))).
  rewrite lift_inr, bind_assoc, bind_ret, bind_ret.
  cbn [eq_str]. rewrite Hid, String.eqb_refl. cbn [negb].
  change (py_getitem (metadata_value s) "files")
    with (@inr exn value
            (VDict (map (fun kv => (fst kv, file_info_value (snd kv)))
                        (file_metadata s)))).
  change (py_getitem (metadata_value s) "total_size")
    with (@inr exn value (VInt (total_size s))).
  rewrite !lift_inr, !bind_ret.
  rewrite bind_assoc, bind_emit, Hm, bind_ret.
  cbn [py_items]. rewrite lift_inr, bind_ret.
  set (w3 := set_trace w2 _).
  assert (E3 : rx_end w3 = None).
  { change (rx_end w3) with (rx_end w2).
    destruct R2 as (_ & _ & Hre & _). rewrite Hre. exact He. }
  destruct (receive_each_any cb (total_size s) Hcb env dir
              (file_metadata s) 0 w3 Ho E3)
    as (n & w4 & t4 & E4 & S4 & R4 & T4 & W4).
  rewrite (bind_run _ _ _ _ _ E4). rewrite bind_emit, bind_log. unfold ret.
  change (stream w3) with (stream w2) in *. rewrite S2 in *.
  eexists _, (pre ++ t2 ++ [Mkdir dir] ++ t4).
  split; [reflexivity|]. split.
  { change (stream (set_trace (set_trace w4 ?a) ?b)) with (stream w4).
    exact S4. }
  split.
  { cbn [trace set_trace]. rewrite T4. unfold w3. cbn [trace set_trace].
    rewrite T2, T1. now rewrite <- !app_assoc. }
  rewrite written_skip by reflexivity.
  rewrite written_skip by (now apply no_file_no_open).
  rewrite written_skip by reflexivity.
  destruct (W4 [] eq_refl) as [Wa _].
  rewrite app_nil_r in Wa. rewrite Wa. cbn [written]. apply app_nil_r.
Qed.

(** X27: [receive_files] never reports an incomplete transfer. Once the
    metadata frame has been read, whatever follows it on the connection
    before the peer closes, be it fewer bytes than announced or none at
    all, the receiver returns True and logs success: each announced file
    is created and gets the bytes that were still there for it (a file
    cut short is left short, the files after it are left empty). *)
Theorem receive_files_never_reports_truncation (env : recv_env)
    (sid dir text host port : string) (cb : option callback) (p : Z)
    (w w0 : world) (s : TransferSession) (seg : bytes) (rest : list bytes)
    (data : bytes) :
  discover_session (probe env) sid w = (inr (VStr text), w0) ->
  split_colon text = [host; port] ->
  int_of_str port = inr p ->
  connect_result env = None -> mkdir_result env = None ->
  (forall kv, In kv (file_metadata s) ->
              open_result env (fi_name (snd kv)) = None /\
              0 <= fi_size (snd kv)) ->
  session_id s = sid ->
  round_trips (metadata_value s) ->
  blen (encode (json_dumps (metadata_value s))) < 2 ^ 32 ->
  callback_ok cb (total_size s) ->
  drop_empty (rx w0) = seg :: rest -> 4 <= blen seg ->
  stream w0 = frame_of (metadata_value s) ++ data ->
  rx_end w0 = None ->
  exists w' body,
    receive_files env sid dir cb w = (inr true, w') /\
    trace w'
    = trace w0 ++ body
        ++ [SockClose Client;
            Log Info "P2P: File reception completed successfully"] /\
    written body = slices dir (file_metadata s) data.
Proof.
  intros Hdisc Hs Hp Hc Hm Ho Hid Hrt Hlen Hcb Hd Hseg Hst He.
  assert (Direct : forall w1 pre,
            rx w1 = rx w0 -> rx_end w1 = rx_end w0 ->
            trace w1 = trace w0 ++ pre -> no_open pre = true ->
            exists w' body,
              _receive_files_direct env sid dir (VStr text) cb w1
              = (inr true, w') /\
              trace w'
              = trace w0 ++ body
                  ++ [SockClose Client;
                      Log Info "P2P: File reception completed successfully"] /\
              written body = slices dir (file_metadata s) data).
  { intros w1 pre Hrx Hre Ht Hno.
    destruct (receive_files_direct_any env sid dir text host port cb p
                w1 s seg rest data Hs Hp Hc Hm Ho Hid Hrt Hlen Hcb)
      as (w' & body & E & S & T & W).
    - now rewrite Hrx.
    - exact Hseg.
    - unfold stream. rewrite Hrx. exact Hst.
    - now rewrite Hre.
    - exists w', (pre ++ body). split; [exact E|]. split.
      + rewrite T, Ht. now rewrite <- !app_assoc.
      + now rewrite written_skip. }
  unfold receive_files, try_.
  rewrite (bind_run _ _ _ _ _ Hdisc).
  rewrite (split_colon_nonempty _ _ _ Hs). cbn [negb].
  rewrite bind_get_world.
  destruct (webrtc_available w0) eqn:Wa.
  - unfold _receive_files_webrtc. rewrite bind_log.
    destruct (Direct (set_trace w0 (trace w0 ++
                [Log Info "WebRTC receiving not yet implemented - falling back to direct transfer"]))
                [Log Info "WebRTC receiving not yet implemented - falling back to direct transfer"])
      as (w' & body & E & R); try reflexivity.
    rewrite E. exists w', body. split; [reflexivity | exact R].
  - destruct (Direct w0 []) as (w' & body & E & R); try reflexivity.
    { now rewrite app_nil_r. }
    rewrite E. exists w', body. split; [reflexivity | exact R].
Qed.
End ReceiverNeverFails.

Lemma receive_files_never_reports_truncation_witness :
  let s := session_of ten_byte_world "jt01" in
  let frame := @frame_of Ref.runtime (metadata_value s) in
  let w := with_rx empty_world [frame; repeat "a"%byte 3] in
  let w0 := snd (@discover_session Ref.runtime (probe answering) "jt01" w) in
  exists w' body,
    @receive_files Ref.runtime answering "jt01" "/downloads" None w
      = (inr true, w') /\
    trace w'
    = trace w0 ++ body
        ++ [SockClose Client;
            Log Info "P2P: File reception completed successfully"] /\
    written body
    = slices "/downloads" (file_metadata s) (repeat "a"%byte 3).
Proof.
  intros s frame w w0.
  apply (@receive_files_never_reports_truncation Ref.runtime answering "jt01"
           "/downloads" "192.168.1.20:45679" "192.168.1.20" "45679" None 45679
           w w0 s frame [repeat "a"%byte 3] (repeat "a"%byte 3)).
  - vm_compute. reflexivity.
  - reflexivity.
  - reflexivity.
  - reflexivity.
  - reflexivity.
  - intros kv [<-|[]]. split; [reflexivity | vm_compute; discriminate].
  - reflexivity.
  - eexists; split; [vm_compute; reflexivity | vm_compute; reflexivity].
  - vm_compute. reflexivity.
  - exact I.
  - vm_compute. reflexivity.
  - vm_compute. discriminate.
  - vm_compute. reflexivity.
  - reflexivity.
Defined.
